(** * LyriCraft Telegram bot: session state, rate limit and download orchestration

    A shallow embedding of [src/bot.py].  The module-level dictionaries
    become one record of finite maps keyed by the chat id, every handler
    becomes a function from that record (and from what the outside world
    answers: the clock, the catalogue, the subprocess, the file system) to
    the new record and the list of calls it makes on the chat transport. *)

From Stdlib Require Import ZArith Lia Ascii String.
From stdpp Require Import gmap strings list fin_maps pretty.

Open Scope Z_scope.

(** ** The parts of the Python runtime the bot relies on *)

Module Py.

(** A [str] is held as its UTF-8 encoding, one [ascii] per byte. *)
Definition bytes_of (s : string) : list N :=
  N_of_ascii <$> list_ascii_of_string s.

Definition text_of (l : list N) : string :=
  string_of_list_ascii (ascii_of_N <$> l).

(** [str.isspace] on the ASCII range: TAB..CR, FS..US and the blank. *)
Definition is_space (b : N) : bool :=
  ((9 <=? b) && (b <=? 13) || (28 <=? b) && (b <=? 32))%N.

(** [str.lstrip()]: the white space of Unicode that is not ASCII is
    U+0085, U+00A0, U+1680, U+2000..U+200A, U+2028, U+2029, U+202F, U+205F
    and U+3000, matched here on their UTF-8 encodings. *)
Fixpoint lstrip (l : list N) : list N :=
  match l with
  | [] => []
  | b :: r =>
      if is_space b then lstrip r
      else match b, r with
           | 194%N, b2 :: r2 =>
               if ((b2 =? 133) || (b2 =? 160))%N then lstrip r2 else l
           | 225%N, 154%N :: 128%N :: r3 => lstrip r3
           | 226%N, 128%N :: b3 :: r3 =>
               if ((128 <=? b3) && (b3 <=? 138) || (b3 =? 168) || (b3 =? 169)
                   || (b3 =? 175))%N
               then lstrip r3 else l
           | 226%N, 129%N :: 159%N :: r3 => lstrip r3
           | 227%N, 128%N :: 128%N :: r3 => lstrip r3
           | _, _ => l
           end
  end.

(** The same scan from the right end, on the reversed byte sequence: the
    last byte of the character comes first. *)
Fixpoint lstrip_rev (l : list N) : list N :=
  match l with
  | [] => []
  | b :: r =>
      if is_space b then lstrip_rev r
      else match b, r with
           | 133%N, 194%N :: r2 => lstrip_rev r2
           | 160%N, 194%N :: r2 => lstrip_rev r2
           | 128%N, 154%N :: 225%N :: r3 => lstrip_rev r3
           | 128%N, 128%N :: 227%N :: r3 => lstrip_rev r3
           | 159%N, 129%N :: 226%N :: r3 => lstrip_rev r3
           | b3, 128%N :: 226%N :: r3 =>
               if ((128 <=? b3) && (b3 <=? 138) || (b3 =? 168) || (b3 =? 169)
                   || (b3 =? 175))%N
               then lstrip_rev r3 else l
           | _, _ => l
           end
  end.

(** [s.strip()] *)
Definition strip (s : string) : string :=
  text_of (rev (lstrip_rev (rev (lstrip (bytes_of s))))).

(** [s.split("_")]: never empty, an empty piece between two separators. *)
Fixpoint split_underscore (s : string) : list string :=
  match s with
  | EmptyString => [EmptyString]
  | String c r =>
      if Ascii.eqb c "_" then EmptyString :: split_underscore r
      else match split_underscore r with
           | p :: ps => String c p :: ps
           | [] => [String c EmptyString]
           end
  end.

(** *** UTF-8, as CPython's decoder reads it

    The decoder yields the code points, or the place and the reason of the
    first error: an error at the last bytes of the input that could still
    begin a character is "unexpected end of data" up to the end of the
    input, an error inside a character is charged to its first bytes. *)
Definition cont (b : N) : bool := ((128 <=? b) && (b <=? 191))%N.

Definition prepend (cp : N) (res : N * N * string + list N) : N * N * string + list N :=
  match res with
  | inr cps => inr (cp :: cps)
  | inl e => inl e
  end.

Definition invalid_start (pos : N) : N * N * string + list N :=
  inl (pos, pos + 1, "invalid start byte"%string)%N.
Definition invalid_cont (pos n : N) : N * N * string + list N :=
  inl (pos, pos + n, "invalid continuation byte"%string)%N.
Definition end_of_data (pos n : N) : N * N * string + list N :=
  inl (pos, pos + n, "unexpected end of data"%string)%N.

(** The second byte of a character of three or four bytes that cannot
    follow its first byte: not a continuation byte, or one that would give
    an overlong form, a surrogate or a code point above U+10FFFF. *)
Definition bad_second3 (b c2 : N) : bool :=
  (negb (cont c2) || (if c2 <? 160 then b =? 224 else b =? 237))%N.
Definition bad_second4 (b c2 : N) : bool :=
  (negb (cont c2) || (if c2 <? 144 then b =? 240 else b =? 244))%N.

Fixpoint utf8_decode (pos : N) (l : list N) : N * N * string + list N :=
  match l with
  | [] => inr []
  | b :: r =>
      if (b <? 128)%N then prepend b (utf8_decode (pos + 1) r)
      else if (b <? 194)%N then invalid_start pos
      else if (b <? 224)%N then
        match r with
        | [] => end_of_data pos 1
        | c2 :: r2 =>
            if cont c2
            then prepend ((b - 192) * 64 + (c2 - 128))%N (utf8_decode (pos + 2) r2)
            else invalid_cont pos 1
        end
      else if (b <? 240)%N then
        match r with
        | [] => end_of_data pos 1
        | [c2] => if bad_second3 b c2 then invalid_cont pos 1 else end_of_data pos 2
        | c2 :: c3 :: r3 =>
            if bad_second3 b c2 then invalid_cont pos 1
            else if negb (cont c3) then invalid_cont pos 2
            else prepend ((b - 224) * 4096 + (c2 - 128) * 64 + (c3 - 128))%N
                         (utf8_decode (pos + 3) r3)
        end
      else if (b <? 245)%N then
        match r with
        | [] => end_of_data pos 1
        | [c2] => if bad_second4 b c2 then invalid_cont pos 1 else end_of_data pos 2
        | [c2; c3] =>
            if bad_second4 b c2 then invalid_cont pos 1
            else if negb (cont c3) then invalid_cont pos 2
            else end_of_data pos 3
        | c2 :: c3 :: c4 :: r4 =>
            if bad_second4 b c2 then invalid_cont pos 1
            else if negb (cont c3) then invalid_cont pos 2
            else if negb (cont c4) then invalid_cont pos 3
            else prepend ((b - 240) * 262144 + (c2 - 128) * 4096
                          + (c3 - 128) * 64 + (c4 - 128))%N
                         (utf8_decode (pos + 4) r4)
        end
      else invalid_start pos
  end.

Definition utf8_encode (cp : N) : list N :=
  (if cp <? 128 then [cp]
   else if cp <? 2048 then [192 + cp / 64; 128 + cp mod 64]
   else if cp <? 65536 then [224 + cp / 4096; 128 + (cp / 64) mod 64; 128 + cp mod 64]
   else [240 + cp / 262144; 128 + (cp / 4096) mod 64; 128 + (cp / 64) mod 64;
         128 + cp mod 64])%N.

(** The characters of a [str].  A [str] is valid UTF-8 here, so the second
    case is never met. *)
Definition codepoints (s : string) : list N :=
  match utf8_decode 0 (bytes_of s) with
  | inr cps => cps
  | inl _ => bytes_of s
  end.

Definition of_codepoints (cps : list N) : string :=
  text_of (cps ≫= utf8_encode).

(** *** Tables of the Unicode database (version 14.0, that of CPython 3.11) *)

Fixpoint in_ranges (cp : N) (ranges : list (N * N)) : bool :=
  match ranges with
  | [] => false
  | (a, b) :: r => ((a <=? cp) && (cp <=? b))%N || in_ranges cp r
  end.

(** The decimal digits beyond ASCII: runs of ten (or a multiple of ten)
    characters, the digits 0 to 9 in order. *)
Definition decimal_ranges : list (N * N) :=
  [
   (1632, 1641); (1776, 1785); (1984, 1993); (2406, 2415); (2534, 2543);
   (2662, 2671); (2790, 2799); (2918, 2927); (3046, 3055); (3174, 3183);
   (3302, 3311); (3430, 3439); (3558, 3567); (3664, 3673); (3792, 3801);
   (3872, 3881); (4160, 4169); (4240, 4249); (6112, 6121); (6160, 6169);
   (6470, 6479); (6608, 6617); (6784, 6793); (6800, 6809); (6992, 7001);
   (7088, 7097); (7232, 7241); (7248, 7257); (42528, 42537); (43216, 43225);
   (43264, 43273); (43472, 43481); (43504, 43513); (43600, 43609);
   (44016, 44025); (65296, 65305); (66720, 66729); (68912, 68921);
   (69734, 69743); (69872, 69881); (69942, 69951); (70096, 70105);
   (70384, 70393); (70736, 70745); (70864, 70873); (71248, 71257);
   (71360, 71369); (71472, 71481); (71904, 71913); (72016, 72025);
   (72784, 72793); (73040, 73049); (73120, 73129); (92768, 92777);
   (92864, 92873); (93008, 93017); (120782, 120831); (123200, 123209);
   (123632, 123641); (125264, 125273); (130032, 130041)
  ]%N.

Fixpoint decimal_in (cp : N) (ranges : list (N * N)) : option N :=
  match ranges with
  | [] => None
  | (a, b) :: r =>
      if ((a <=? cp) && (cp <=? b))%N then Some ((cp - a) mod 10)%N
      else decimal_in cp r
  end.

(** [Py_UNICODE_TODECIMAL] *)
Definition todecimal (cp : N) : option N :=
  if ((48 <=? cp) && (cp <=? 57))%N then Some (cp - 48)%N
  else decimal_in cp decimal_ranges.

(** The characters from U+0080 on for which [str.isprintable] is false. *)
Definition nonprintable_ranges : list (N * N) :=
  [
   (128, 160); (173, 173); (888, 889); (896, 899); (907, 907); (909, 909);
   (930, 930); (1328, 1328); (1367, 1368); (1419, 1420); (1424, 1424);
   (1480, 1487); (1515, 1518); (1525, 1541); (1564, 1564); (1757, 1757);
   (1806, 1807); (1867, 1868); (1970, 1983); (2043, 2044); (2094, 2095);
   (2111, 2111); (2140, 2141); (2143, 2143); (2155, 2159); (2191, 2199);
   (2274, 2274); (2436, 2436); (2445, 2446); (2449, 2450); (2473, 2473);
   (2481, 2481); (2483, 2485); (2490, 2491); (2501, 2502); (2505, 2506);
   (2511, 2518); (2520, 2523); (2526, 2526); (2532, 2533); (2559, 2560);
   (2564, 2564); (2571, 2574); (2577, 2578); (2601, 2601); (2609, 2609);
   (2612, 2612); (2615, 2615); (2618, 2619); (2621, 2621); (2627, 2630);
   (2633, 2634); (2638, 2640); (2642, 2648); (2653, 2653); (2655, 2661);
   (2679, 2688); (2692, 2692); (2702, 2702); (2706, 2706); (2729, 2729);
   (2737, 2737); (2740, 2740); (2746, 2747); (2758, 2758); (2762, 2762);
   (2766, 2767); (2769, 2783); (2788, 2789); (2802, 2808); (2816, 2816);
   (2820, 2820); (2829, 2830); (2833, 2834); (2857, 2857); (2865, 2865);
   (2868, 2868); (2874, 2875); (2885, 2886); (2889, 2890); (2894, 2900);
   (2904, 2907); (2910, 2910); (2916, 2917); (2936, 2945); (2948, 2948);
   (2955, 2957); (2961, 2961); (2966, 2968); (2971, 2971); (2973, 2973);
   (2976, 2978); (2981, 2983); (2987, 2989); (3002, 3005); (3011, 3013);
   (3017, 3017); (3022, 3023); (3025, 3030); (3032, 3045); (3067, 3071);
   (3085, 3085); (3089, 3089); (3113, 3113); (3130, 3131); (3141, 3141);
   (3145, 3145); (3150, 3156); (3159, 3159); (3163, 3164); (3166, 3167);
   (3172, 3173); (3184, 3190); (3213, 3213); (3217, 3217); (3241, 3241);
   (3252, 3252); (3258, 3259); (3269, 3269); (3273, 3273); (3278, 3284);
   (3287, 3292); (3295, 3295); (3300, 3301); (3312, 3312); (3315, 3327);
   (3341, 3341); (3345, 3345); (3397, 3397); (3401, 3401); (3408, 3411);
   (3428, 3429); (3456, 3456); (3460, 3460); (3479, 3481); (3506, 3506);
   (3516, 3516); (3518, 3519); (3527, 3529); (3531, 3534); (3541, 3541);
   (3543, 3543); (3552, 3557); (3568, 3569); (3573, 3584); (3643, 3646);
   (3676, 3712); (3715, 3715); (3717, 3717); (3723, 3723); (3748, 3748);
   (3750, 3750); (3774, 3775); (3781, 3781); (3783, 3783); (3790, 3791);
   (3802, 3803); (3808, 3839); (3912, 3912); (3949, 3952); (3992, 3992);
   (4029, 4029); (4045, 4045); (4059, 4095); (4294, 4294); (4296, 4300);
   (4302, 4303); (4681, 4681); (4686, 4687); (4695, 4695); (4697, 4697);
   (4702, 4703); (4745, 4745); (4750, 4751); (4785, 4785); (4790, 4791);
   (4799, 4799); (4801, 4801); (4806, 4807); (4823, 4823); (4881, 4881);
   (4886, 4887); (4955, 4956); (4989, 4991); (5018, 5023); (5110, 5111);
   (5118, 5119); (5760, 5760); (5789, 5791); (5881, 5887); (5910, 5918);
   (5943, 5951); (5972, 5983); (5997, 5997); (6001, 6001); (6004, 6015);
   (6110, 6111); (6122, 6127); (6138, 6143); (6158, 6158); (6170, 6175);
   (6265, 6271); (6315, 6319); (6390, 6399); (6431, 6431); (6444, 6447);
   (6460, 6463); (6465, 6467); (6510, 6511); (6517, 6527); (6572, 6575);
   (6602, 6607); (6619, 6621); (6684, 6685); (6751, 6751); (6781, 6782);
   (6794, 6799); (6810, 6815); (6830, 6831); (6863, 6911); (6989, 6991);
   (7039, 7039); (7156, 7163); (7224, 7226); (7242, 7244); (7305, 7311);
   (7355, 7356); (7368, 7375); (7419, 7423); (7958, 7959); (7966, 7967);
   (8006, 8007); (8014, 8015); (8024, 8024); (8026, 8026); (8028, 8028);
   (8030, 8030); (8062, 8063); (8117, 8117); (8133, 8133); (8148, 8149);
   (8156, 8156); (8176, 8177); (8181, 8181); (8191, 8207); (8232, 8239);
   (8287, 8303); (8306, 8307); (8335, 8335); (8349, 8351); (8385, 8399);
   (8433, 8447); (8588, 8591); (9255, 9279); (9291, 9311); (11124, 11125);
   (11158, 11158); (11508, 11512); (11558, 11558); (11560, 11564);
   (11566, 11567); (11624, 11630); (11633, 11646); (11671, 11679);
   (11687, 11687); (11695, 11695); (11703, 11703); (11711, 11711);
   (11719, 11719); (11727, 11727); (11735, 11735); (11743, 11743);
   (11870, 11903); (11930, 11930); (12020, 12031); (12246, 12271);
   (12284, 12288); (12352, 12352); (12439, 12440); (12544, 12548);
   (12592, 12592); (12687, 12687); (12772, 12783); (12831, 12831);
   (42125, 42127); (42183, 42191); (42540, 42559); (42744, 42751);
   (42955, 42959); (42962, 42962); (42964, 42964); (42970, 42993);
   (43053, 43055); (43066, 43071); (43128, 43135); (43206, 43213);
   (43226, 43231); (43348, 43358); (43389, 43391); (43470, 43470);
   (43482, 43485); (43519, 43519); (43575, 43583); (43598, 43599);
   (43610, 43611); (43715, 43738); (43767, 43776); (43783, 43784);
   (43791, 43792); (43799, 43807); (43815, 43815); (43823, 43823);
   (43884, 43887); (44014, 44015); (44026, 44031); (55204, 55215);
   (55239, 55242); (55292, 63743); (64110, 64111); (64218, 64255);
   (64263, 64274); (64280, 64284); (64311, 64311); (64317, 64317);
   (64319, 64319); (64322, 64322); (64325, 64325); (64451, 64466);
   (64912, 64913); (64968, 64974); (64976, 65007); (65050, 65055);
   (65107, 65107); (65127, 65127); (65132, 65135); (65141, 65141);
   (65277, 65280); (65471, 65473); (65480, 65481); (65488, 65489);
   (65496, 65497); (65501, 65503); (65511, 65511); (65519, 65531);
   (65534, 65535); (65548, 65548); (65575, 65575); (65595, 65595);
   (65598, 65598); (65614, 65615); (65630, 65663); (65787, 65791);
   (65795, 65798); (65844, 65846); (65935, 65935); (65949, 65951);
   (65953, 65999); (66046, 66175); (66205, 66207); (66257, 66271);
   (66300, 66303); (66340, 66348); (66379, 66383); (66427, 66431);
   (66462, 66462); (66500, 66503); (66518, 66559); (66718, 66719);
   (66730, 66735); (66772, 66775); (66812, 66815); (66856, 66863);
   (66916, 66926); (66939, 66939); (66955, 66955); (66963, 66963);
   (66966, 66966); (66978, 66978); (66994, 66994); (67002, 67002);
   (67005, 67071); (67383, 67391); (67414, 67423); (67432, 67455);
   (67462, 67462); (67505, 67505); (67515, 67583); (67590, 67591);
   (67593, 67593); (67638, 67638); (67641, 67643); (67645, 67646);
   (67670, 67670); (67743, 67750); (67760, 67807); (67827, 67827);
   (67830, 67834); (67868, 67870); (67898, 67902); (67904, 67967);
   (68024, 68027); (68048, 68049); (68100, 68100); (68103, 68107);
   (68116, 68116); (68120, 68120); (68150, 68151); (68155, 68158);
   (68169, 68175); (68185, 68191); (68256, 68287); (68327, 68330);
   (68343, 68351); (68406, 68408); (68438, 68439); (68467, 68471);
   (68498, 68504); (68509, 68520); (68528, 68607); (68681, 68735);
   (68787, 68799); (68851, 68857); (68904, 68911); (68922, 69215);
   (69247, 69247); (69290, 69290); (69294, 69295); (69298, 69375);
   (69416, 69423); (69466, 69487); (69514, 69551); (69580, 69599);
   (69623, 69631); (69710, 69713); (69750, 69758); (69821, 69821);
   (69827, 69839); (69865, 69871); (69882, 69887); (69941, 69941);
   (69960, 69967); (70007, 70015); (70112, 70112); (70133, 70143);
   (70162, 70162); (70207, 70271); (70279, 70279); (70281, 70281);
   (70286, 70286); (70302, 70302); (70314, 70319); (70379, 70383);
   (70394, 70399); (70404, 70404); (70413, 70414); (70417, 70418);
   (70441, 70441); (70449, 70449); (70452, 70452); (70458, 70458);
   (70469, 70470); (70473, 70474); (70478, 70479); (70481, 70486);
   (70488, 70492); (70500, 70501); (70509, 70511); (70517, 70655);
   (70748, 70748); (70754, 70783); (70856, 70863); (70874, 71039);
   (71094, 71095); (71134, 71167); (71237, 71247); (71258, 71263);
   (71277, 71295); (71354, 71359); (71370, 71423); (71451, 71452);
   (71468, 71471); (71495, 71679); (71740, 71839); (71923, 71934);
   (71943, 71944); (71946, 71947); (71956, 71956); (71959, 71959);
   (71990, 71990); (71993, 71994); (72007, 72015); (72026, 72095);
   (72104, 72105); (72152, 72153); (72165, 72191); (72264, 72271);
   (72355, 72367); (72441, 72703); (72713, 72713); (72759, 72759);
   (72774, 72783); (72813, 72815); (72848, 72849); (72872, 72872);
   (72887, 72959); (72967, 72967); (72970, 72970); (73015, 73017);
   (73019, 73019); (73022, 73022); (73032, 73039); (73050, 73055);
   (73062, 73062); (73065, 73065); (73103, 73103); (73106, 73106);
   (73113, 73119); (73130, 73439); (73465, 73647); (73649, 73663);
   (73714, 73726); (74650, 74751); (74863, 74863); (74869, 74879);
   (75076, 77711); (77811, 77823); (78895, 82943); (83527, 92159);
   (92729, 92735); (92767, 92767); (92778, 92781); (92863, 92863);
   (92874, 92879); (92910, 92911); (92918, 92927); (92998, 93007);
   (93018, 93018); (93026, 93026); (93048, 93052); (93072, 93759);
   (93851, 93951); (94027, 94030); (94088, 94094); (94112, 94175);
   (94181, 94191); (94194, 94207); (100344, 100351); (101590, 101631);
   (101641, 110575); (110580, 110580); (110588, 110588); (110591, 110591);
   (110883, 110927); (110931, 110947); (110952, 110959); (111356, 113663);
   (113771, 113775); (113789, 113791); (113801, 113807); (113818, 113819);
   (113824, 118527); (118574, 118575); (118599, 118607); (118724, 118783);
   (119030, 119039); (119079, 119080); (119155, 119162); (119275, 119295);
   (119366, 119519); (119540, 119551); (119639, 119647); (119673, 119807);
   (119893, 119893); (119965, 119965); (119968, 119969); (119971, 119972);
   (119975, 119976); (119981, 119981); (119994, 119994); (119996, 119996);
   (120004, 120004); (120070, 120070); (120075, 120076); (120085, 120085);
   (120093, 120093); (120122, 120122); (120127, 120127); (120133, 120133);
   (120135, 120137); (120145, 120145); (120486, 120487); (120780, 120781);
   (121484, 121498); (121504, 121504); (121520, 122623); (122655, 122879);
   (122887, 122887); (122905, 122906); (122914, 122914); (122917, 122917);
   (122923, 123135); (123181, 123183); (123198, 123199); (123210, 123213);
   (123216, 123535); (123567, 123583); (123642, 123646); (123648, 124895);
   (124903, 124903); (124908, 124908); (124911, 124911); (124927, 124927);
   (125125, 125126); (125143, 125183); (125260, 125263); (125274, 125277);
   (125280, 126064); (126133, 126208); (126270, 126463); (126468, 126468);
   (126496, 126496); (126499, 126499); (126501, 126502); (126504, 126504);
   (126515, 126515); (126520, 126520); (126522, 126522); (126524, 126529);
   (126531, 126534); (126536, 126536); (126538, 126538); (126540, 126540);
   (126544, 126544); (126547, 126547); (126549, 126550); (126552, 126552);
   (126554, 126554); (126556, 126556); (126558, 126558); (126560, 126560);
   (126563, 126563); (126565, 126566); (126571, 126571); (126579, 126579);
   (126584, 126584); (126589, 126589); (126591, 126591); (126602, 126602);
   (126620, 126624); (126628, 126628); (126634, 126634); (126652, 126703);
   (126706, 126975); (127020, 127023); (127124, 127135); (127151, 127152);
   (127168, 127168); (127184, 127184); (127222, 127231); (127406, 127461);
   (127491, 127503); (127548, 127551); (127561, 127567); (127570, 127583);
   (127590, 127743); (128728, 128732); (128749, 128751); (128765, 128767);
   (128884, 128895); (128985, 128991); (129004, 129007); (129009, 129023);
   (129036, 129039); (129096, 129103); (129114, 129119); (129160, 129167);
   (129198, 129199); (129202, 129279); (129620, 129631); (129646, 129647);
   (129653, 129655); (129661, 129663); (129671, 129679); (129709, 129711);
   (129723, 129727); (129734, 129743); (129754, 129759); (129768, 129775);
   (129783, 129791); (129939, 129939); (129995, 130031); (130042, 131071);
   (173792, 173823); (177977, 177983); (178206, 178207); (183970, 183983);
   (191457, 194559); (195102, 196607); (201547, 917759); (918000, 1114111)
  ]%N.

(** [Py_UNICODE_ISPRINTABLE] *)
Definition isprintable (cp : N) : bool :=
  if (cp <? 128)%N then ((32 <=? cp) && (cp <? 127))%N
  else negb (in_ranges cp nonprintable_ranges).

(** [Py_UNICODE_ISSPACE] from U+007F on. *)
Definition unicode_space (cp : N) : bool :=
  ((cp =? 133) || (cp =? 160) || (cp =? 5760) || (8192 <=? cp) && (cp <=? 8202)
   || (cp =? 8232) || (cp =? 8233) || (cp =? 8239) || (cp =? 8287)
   || (cp =? 12288))%N.

(** *** [repr] of a [str] *)

Definition hex_digit (n : N) : N := (if n <? 10 then 48 + n else 87 + n)%N.

Fixpoint hex (width : nat) (n : N) : list N :=
  match width with
  | O => []
  | S w => hex w (n / 16)%N ++ [hex_digit (n mod 16)%N]
  end.

Definition repr_char (quote c : N) : list N :=
  (if (c =? quote) || (c =? 92) then [92; c]
   else if c =? 9 then [92; 116]
   else if c =? 10 then [92; 110]
   else if c =? 13 then [92; 114]
   else if (c <? 32) || (c =? 127) then [92; 120] ++ hex 2 c
   else if c <? 127 then [c]
   else if isprintable c then [c]
   else if c <=? 255 then [92; 120] ++ hex 2 c
   else if c <=? 65535 then [92; 117] ++ hex 4 c
   else [92; 85] ++ hex 8 c)%N.

(** The quote is the apostrophe, unless the text holds an apostrophe and
    no double quote. *)
Definition repr (cps : list N) : list N :=
  let quote :=
    if existsb (N.eqb 39) cps && negb (existsb (N.eqb 34) cps) then 34%N else 39%N in
  [quote] ++ (cps ≫= repr_char quote) ++ [quote].

(** *** Exceptions *)

(** [sys.get_int_max_str_digits()], at its default. *)
Definition int_max_str_digits : N := 4300.

(** The exceptions the handlers can meet: the two [ValueError]s of [int()]
    (a text that is no literal, and a literal of more digits than the
    interpreter converts), and [UnicodeDecodeError] with the attributes
    [object], [start], [end] and [reason] of CPython's. *)
Inductive exn :=
| IndexError
| ValueError (literal : string)
| ValueError_digits (digits : N)
| UnicodeDecodeError (object : string) (start stop : N) (reason : string)
| OtherError (text : string).

(** [str(e)].  [IndexError] is the one of a list index; the text of an
    invalid literal shows its [repr], cut at 200 characters. *)
Definition exn_str (e : exn) : string :=
  match e with
  | IndexError => "list index out of range"
  | ValueError lit =>
      "invalid literal for int() with base 10: "
      +:+ of_codepoints (take 200 (repr (codepoints lit)))
  | ValueError_digits digits =>
      "Exceeds the limit (" +:+ pretty int_max_str_digits
      +:+ " digits) for integer string conversion: value has " +:+ pretty digits
      +:+ " digits; use sys.set_int_max_str_digits() to increase the limit"
  | UnicodeDecodeError object start stop reason =>
      if (stop =? start + 1)%N
      then "'utf-8' codec can't decode byte 0x"
           +:+ text_of (hex 2 (default 0%N (bytes_of object !! N.to_nat start)))
           +:+ " in position " +:+ pretty start +:+ ": " +:+ reason
      else "'utf-8' codec can't decode bytes in position " +:+ pretty start
           +:+ "-" +:+ pretty (stop - 1)%N +:+ ": " +:+ reason
  | OtherError t => t
  end.

(** *** [int(s)] in base 10

    A text that is not all ASCII is first rewritten: every character below
    U+007F stays, white space becomes a blank, a decimal digit of any
    script its ASCII digit, and at anything else the text ends in a
    question mark.  The ASCII text is then read as: the white space of C
    around, an optional sign, and digits with single underscores between
    them; a run of more than [int_max_str_digits] digits is refused before
    what follows it is looked at. *)
Definition ascii_digit (b : N) : bool := ((48 <=? b) && (b <=? 57))%N.

Definition c_space (b : N) : bool := ((9 <=? b) && (b <=? 13) || (b =? 32))%N.

Fixpoint transform (cps : list N) : list N :=
  match cps with
  | [] => []
  | cp :: r =>
      if (cp <? 127)%N then cp :: transform r
      else if unicode_space cp then 32%N :: transform r
      else match todecimal cp with
           | Some d => (48 + d)%N :: transform r
           | None => [63%N]
           end
  end.

Definition to_ascii (cps : list N) : list N :=
  if forallb (fun cp => cp <? 128)%N cps then cps else transform cps.

Fixpoint skip_space (l : list N) : list N :=
  match l with
  | b :: r => if c_space b then skip_space r else l
  | [] => []
  end.

(** The run of digits and underscores: its value, the number of its
    digits, and what follows it; no two underscores in a row and none at
    the end. *)
Fixpoint scan_digits (acc : Z) (digits : N) (after_underscore : bool) (l : list N)
  : option (Z * N * list N) :=
  match l with
  | b :: r =>
      if ascii_digit b
      then scan_digits (10 * acc + Z.of_N (b - 48)) (digits + 1) false r
      else if (b =? 95)%N then
        if after_underscore then None else scan_digits acc digits true r
      else if after_underscore then None else Some (acc, digits, l)
  | [] => if after_underscore then None else Some (acc, digits, [])
  end.

(** The number read, or why there is none: [inl None] for a text that is
    no literal, [inl (Some n)] for a run of [n] digits beyond the limit. *)
Definition parse_long (l : list N) : option N + Z :=
  let '(sign, body) :=
    match skip_space l with
    | 43%N :: r => (1, r)
    | 45%N :: r => (-1, r)
    | other => (1, other)
    end in
  match body with
  | b :: _ =>
      if ascii_digit b then
        match scan_digits 0 0 false body with
        | Some (value, digits, rest) =>
            if (int_max_str_digits <? digits)%N then inl (Some digits)
            else match skip_space rest with
                 | [] => inr (sign * value)
                 | _ => inl None
                 end
        | None => inl None
        end
      else inl None
  | [] => inl None
  end.

Definition int (s : string) : exn + Z :=
  match utf8_decode 0 (bytes_of s) with
  | inl _ => inl (ValueError s)
  | inr cps =>
      match parse_long (to_ascii cps) with
      | inr z => inr z
      | inl None => inl (ValueError s)
      | inl (Some digits) => inl (ValueError_digits digits)
      end
  end.

(** [l[i]]: a negative index counts from the end, anything outside
    [-len, len) raises [IndexError]. *)
Definition index {A} (l : list A) (i : Z) : exn + A :=
  let n := Z.of_nat (length l) in
  let j := if i <? 0 then i + n else i in
  if (0 <=? j) && (j <? n)
  then match l !! Z.to_nat j with
       | Some x => inr x
       | None => inl IndexError
       end
  else inl IndexError.

(** [l[start:stop]]: negative bounds count from the end, all bounds are
    clipped to the list, never an error. *)
Definition slice {A} (l : list A) (start stop : Z) : list A :=
  let n := Z.of_nat (length l) in
  let clip x := if x <? 0 then Z.max 0 (x + n) else Z.min x n in
  let a := clip start in
  let b := clip stop in
  take (Z.to_nat (b - a)) (drop (Z.to_nat a) l).

(** [math.ceil(a / b)] for [0 <= a] and [0 < b]; the float quotient is
    exact enough for every length a list can have. *)
Definition ceil_div (a b : Z) : Z := (a + b - 1) / b.

(** ASCII part of [str.lower]; no other character lowers to a letter,
    a digit or a dot of ASCII. *)
Definition lower_byte (b : N) : N :=
  if ((65 <=? b) && (b <=? 90))%N then (b + 32)%N else b.

Definition lower (s : string) : string := text_of (lower_byte <$> bytes_of s).

(** [s.endswith(suffix)] *)
Definition endswith (s suffix : string) : bool :=
  let n := String.length s in
  let k := String.length suffix in
  (k <=? n)%nat && String.eqb (String.substring (n - k) k s) suffix.

(** [bytes.decode()]: strict UTF-8; the text is the same bytes. *)
Definition decode (raw : string) : exn + string :=
  match utf8_decode 0 (bytes_of raw) with
  | inr _ => inr raw
  | inl (start, stop, reason) => inl (UnicodeDecodeError raw start stop reason)
  end.

(** [len(s)]: the number of characters, that is of bytes that do not
    continue a character. *)
Definition len (s : string) : nat :=
  length (filter (fun b => cont b = false) (bytes_of s)).

End Py.

(** ** Data model *)

(** A track object of the catalogue, with the keys the bot reads; the
    catalogue is taken to return well-formed objects, so that no read of a
    key raises.  Numbers are printed with [pretty], which is [str] on an
    [int] of at most [Py.int_max_str_digits] digits: the bot prints
    indices and pages of a list, waits of the cooldown, and durations as
    the JSON decoder read them, all of that size. *)
Record Track := {
  name : string;
  artists : list string;
  duration_ms : option Z;          (* read with [.get("duration_ms", 0)] *)
  spotify_url : string;            (* ["external_urls"]["spotify"] *)
  album_images : list string       (* the urls of ["album"]["images"] *)
}.

(** The seven module-level dictionaries, keyed by the chat id.  Time stamps
    are microseconds since [datetime.min], the resolution of [datetime]. *)
Record Store := {
  search_results : gmap Z (list Track);
  current_page : gmap Z Z;
  queries : gmap Z string;
  recent_queries : gmap Z (list string);
  last_download_time : gmap Z Z;
  result_message_id : gmap Z Z;
  result_photo_id : gmap Z Z
}.

Definition empty_store : Store :=
  {| search_results := ∅; current_page := ∅; queries := ∅;
     recent_queries := ∅; last_download_time := ∅;
     result_message_id := ∅; result_photo_id := ∅ |}.

Definition ITEMS_PER_PAGE : Z := 5.
Definition DOWNLOAD_COOLDOWN : Z := 30 * 1000000.
Definition SPOTDL_TIMEOUT : Z := 60 * 1000000.
Definition CREATION_TIMEOUT : Z := 5 * 1000000.
Definition datetime_min : Z := 0.

(** Reading [d[k]] on a [defaultdict]: a missing key is inserted with the
    default before it is returned. *)
Definition defaultdict_get {V} (dflt : V) (k : Z) (d : gmap Z V) : V * gmap Z V :=
  match d !! k with
  | Some v => (v, d)
  | None => (dflt, <[k := dflt]> d)
  end.

(** What a later read of the dictionary yields. *)
Definition last_download_at (st : Store) (chat_id : Z) : Z :=
  default datetime_min (last_download_time st !! chat_id).

(** ** Calls on the outside world

    A handler is described by the calls it makes, in order.  Calls on the
    chat transport are taken to go through, except the two the source
    guards on its own (the poster and the result message), whose failure is
    part of [render_env] below, and the deletions, whose failure changes
    nothing. *)

Record button := { label : string; callback_data : string }.

Inductive call :=
| send_chat_action (chat_id : Z)
| answer
| reply_text (text : string)
| send_message (chat_id : Z) (text : string)
| edit_message_text (text : string)
| delete_message (chat_id message_id : Z)
| send_photo (chat_id : Z) (photo caption : string)
| send_keyboard (chat_id : Z) (text : string) (keyboard : list (list button))
| schedule_message_delete (chat_id message_id delay : Z)
| catalog_search (q : string) (limit : Z)
| create_subprocess_exec (command : list string)
| communicate
| kill
| send_audio (chat_id : Z) (path title performer caption : string).

(** ** Download orchestration *)

(** The scratch directory as the subprocess leaves it.  A link to a
    directory is listed with the directories and not entered
    ([os.walk] with [followlinks=False]); [File] is any other entry. *)
#[local] Unset Elimination Schemes.
Inductive node :=
| File
| Dir (entries : list (string * node))
| DirLink.
#[local] Set Elimination Schemes.

Definition is_dir (n : node) : bool :=
  match n with File => false | _ => true end.

Definition dirs_of (es : list (string * node)) : list string :=
  fst <$> filter (fun e => is_dir e.2 = true) es.

Definition files_of (es : list (string * node)) : list string :=
  fst <$> filter (fun e => is_dir e.2 = false) es.

(** [os.path.join] of a directory that does not end in a separator with a
    file name. *)
Definition path_join (root f : string) : string := root +:+ "/" +:+ f.

(** [os.walk(top)], top-down: the triple of the directory, then the walk of
    each of its sub-directories in the order of the listing. *)
Fixpoint walk (top : string) (n : node) : list (string * list string * list string) :=
  match n with
  | Dir es =>
      (top, dirs_of es, files_of es)
      :: (fix below (l : list (string * node)) :=
            match l with
            | [] => []
            | (d, c) :: r => walk (path_join top d) c ++ below r
            end) es
  | _ => []
  end.

(** The walks of the sub-directories, one after the other. *)
Definition walk_below (top : string) (es : list (string * node))
  : list (string * list string * list string) :=
  (fix below (l : list (string * node)) :=
     match l with
     | [] => []
     | (d, c) :: r => walk (path_join top d) c ++ below r
     end) es.

Definition is_mp3 (f : string) : bool := Py.endswith (Py.lower f) ".mp3".

(** Some file at any depth under the directory has an MP3 name. *)
Inductive holds_mp3 : node -> Prop :=
| holds_here es f :
    (f, File) ∈ es -> is_mp3 f = true -> holds_mp3 (Dir es)
| holds_below es d sub :
    (d, Dir sub) ∈ es -> holds_mp3 (Dir sub) -> holds_mp3 (Dir es).

Fixpoint first_mp3 (root : string) (files : list string) : option string :=
  match files with
  | [] => None
  | f :: r => if is_mp3 f then Some (path_join root f) else first_mp3 root r
  end.

Fixpoint scan (triples : list (string * list string * list string)) : option string :=
  match triples with
  | [] => None
  | (root, _, files) :: r =>
      match first_mp3 root files with
      | Some p => Some p
      | None => scan r
      end
  end.

Definition find_mp3_file (directory : string) (fs : node) : option string :=
  scan (walk directory fs).

(** What the outside world does during one download. *)
Record download_env := {
  tmpdirname : string;
  creation : Py.exn + Z;      (* the spawn raises, or takes this long *)
  completion : option Z;      (* time until the process ends, if it does *)
  returncode : Z;
  stdout : string;
  stderr : string;
  scratch : node;             (* the scratch directory afterwards *)
  audio_sent : bool           (* [send_audio] went through *)
}.

(** [asyncio.wait_for]: the awaited value if it is there within the
    timeout, [None] for [TimeoutError]. *)
Definition wait_for {A} (needs : option Z) (timeout : Z) (x : A) : option A :=
  match needs with
  | Some d => if d <=? timeout then Some x else None
  | None => None
  end.

(** Which [return] of [download_and_send_audio] was taken. *)
Inductive outcome :=
| StartupTimeout
| ExecutionTimeout
| ToolFailure (stderr_text : string)
| ArtifactMissing
| Delivered (mp3_path : string)
| SendFailed (mp3_path : string)
| Failed (e : Py.exn).

Definition msg_setup_timeout : string := "❌ Download setup timed out.".
Definition msg_timeout : string := "❌ Download timed out after 60 seconds.".
Definition msg_failed (stderr_text : string) : string :=
  "❌ Download failed:
`" +:+ stderr_text +:+ "`".
Definition msg_no_mp3 : string :=
  "❌ Download failed. No MP3 file found. (Check log for spotDL output.)".
Definition msg_send_error : string := "⚠️ Error sending audio to Telegram.".
Definition msg_error_occurred (e : Py.exn) : string :=
  "⚠️ Error occurred: " +:+ Py.exn_str e.
Definition default_caption : string :=
  "✅ *Downloaded successfully!*
_Created with ❤️ by Lokesh.R_".

(** [caption_override or "..."]: an empty caption counts as none. *)
Definition caption_or_default (caption_override : option string) : string :=
  match caption_override with
  | Some c => if String.eqb c "" then default_caption else c
  | None => default_caption
  end.

(** The command line of one download. *)
Definition command_of (url : string) (env : download_env) : list string :=
  ["spotdl"; "download"; url; "--output"; tmpdirname env]%string.

(** [query_message.reply_text(msg)] when a message is given, otherwise
    [context.bot.send_message(chat_id, msg)]. *)
Definition tell (query_message : bool) (chat_id : Z) (msg : string) : call :=
  if query_message then reply_text msg else send_message chat_id msg.

Definition download_and_send_audio (chat_id : Z) (url title performer : string)
    (caption_override : option string) (query_message : bool)
    (env : download_env) : outcome * list call :=
  let started := [create_subprocess_exec (command_of url env)] in
  (* the outer [except Exception as e] *)
  let crashed (done : list call) (e : Py.exn) :=
    (Failed e, done ++ [tell query_message chat_id (msg_error_occurred e)]) in
  match creation env with
  | inl e => crashed started e
  | inr d =>
      match wait_for (Some d) CREATION_TIMEOUT tt with
      | None =>
          (StartupTimeout, started ++ [tell query_message chat_id msg_setup_timeout])
      | Some _ =>
          match wait_for (completion env) SPOTDL_TIMEOUT tt with
          | None =>
              (ExecutionTimeout,
               started ++ [communicate; kill; tell query_message chat_id msg_timeout])
          | Some _ =>
              let ran := started ++ [communicate] in
              if negb (returncode env =? 0) then
                match Py.decode (stderr env) with
                | inl e => crashed ran e
                | inr stderr_text =>
                    (ToolFailure stderr_text,
                     ran ++ [tell query_message chat_id (msg_failed stderr_text)])
                end
              else
                match find_mp3_file (tmpdirname env) (scratch env) with
                | None =>
                    (* the arguments of [logger.error] are decoded first *)
                    match Py.decode (stdout env) with
                    | inl e => crashed ran e
                    | inr _ =>
                        match Py.decode (stderr env) with
                        | inl e => crashed ran e
                        | inr _ =>
                            (ArtifactMissing,
                             ran ++ [tell query_message chat_id msg_no_mp3])
                        end
                    end
                | Some mp3_path =>
                    let audio :=
                      send_audio chat_id mp3_path title performer
                                 (caption_or_default caption_override) in
                    if audio_sent env
                    then (Delivered mp3_path, ran ++ [audio])
                    else (SendFailed mp3_path,
                          ran ++ [audio; tell query_message chat_id msg_send_error])
                end
          end
      end
  end.

(** ** Conversation handlers *)

Definition with_recent_queries (st : Store) (d : gmap Z (list string)) : Store :=
  {| search_results := search_results st; current_page := current_page st;
     queries := queries st; recent_queries := d;
     last_download_time := last_download_time st;
     result_message_id := result_message_id st;
     result_photo_id := result_photo_id st |}.

Definition with_last_download_time (st : Store) (d : gmap Z Z) : Store :=
  {| search_results := search_results st; current_page := current_page st;
     queries := queries st; recent_queries := recent_queries st;
     last_download_time := d;
     result_message_id := result_message_id st;
     result_photo_id := result_photo_id st |}.

Definition with_current_page (st : Store) (d : gmap Z Z) : Store :=
  {| search_results := search_results st; current_page := d;
     queries := queries st; recent_queries := recent_queries st;
     last_download_time := last_download_time st;
     result_message_id := result_message_id st;
     result_photo_id := result_photo_id st |}.

Definition msg_provide_term : string := "❗ Please provide a search term.".
Definition msg_no_results : string := "❌ No results found.".
Definition msg_session_expired : string := "❗ Session expired. Please search again.".
Definition msg_wait (wait_time : Z) : string :=
  "⏳ Please wait " +:+ pretty wait_time +:+ " seconds before downloading again.".
Definition msg_display_error (e : Py.exn) : string :=
  "⚠️ Error: `" +:+ Py.exn_str e +:+ "`".
Definition msg_select_error (e : Py.exn) : string :=
  "⚠️ Error: " +:+ Py.exn_str e +:+ "

_Created with ❤️ by Lokesh.R_".
Definition msg_choose : string :=
  "📍 *Choose a track to download or download the entire page:*".
Definition msg_finished : string :=
  "✔️ Finished downloading all songs on this page.".

(** What the outside world answers while a result page is put up. *)
Inductive search_response :=
| Found (tracks : list Track)
| SearchRaises (e : Py.exn).

Record render_env := {
  response : search_response;
  photo_message : option Z;    (* id of the poster, [None] if sending raises *)
  result_message : option Z    (* id of the result message, likewise *)
}.

Definition total_pages_of (total_tracks : Z) : Z :=
  Z.max 1 (Py.ceil_div total_tracks ITEMS_PER_PAGE).

Definition clamp_page (page total_pages : Z) : Z :=
  Z.max 1 (Z.min page total_pages).

Definition pad2 (n : Z) : string :=
  if (0 <=? n) && (n <? 10) then "0" +:+ pretty n else pretty n.

Definition format_duration (ms : Z) : string :=
  let seconds := ms / 1000 in
  pretty (seconds / 60) +:+ ":" +:+ pad2 (seconds mod 60).

Fixpoint join_comma (l : list string) : string :=
  match l with
  | [] => ""
  | [x] => x
  | x :: r => x +:+ ", " +:+ join_comma r
  end.

Definition track_button (idx : Z) (track : Track) : button :=
  {| label := name track +:+ " — " +:+ join_comma (artists track) +:+ " ["
              +:+ format_duration (default 0 (duration_ms track)) +:+ "]";
     callback_data := "track_" +:+ pretty idx |}.

(** [enumerate(l, start)] mapped to one button row per track. *)
Fixpoint track_rows (start : Z) (l : list Track) : list (list button) :=
  match l with
  | [] => []
  | t :: r => [track_button start t] :: track_rows (start + 1) r
  end.

Definition nav_buttons (page total_pages : Z) : list button :=
  (if 1 <? page then [{| label := "⬅️ Back"; callback_data := "prev_page" |}] else [])
  ++ (if page <? total_pages
      then [{| label := "Next ➡️"; callback_data := "next_page" |}] else []).

Definition keyboard_of (tracks : list Track) (page total_pages : Z)
  : list (list button) :=
  let start := (page - 1) * ITEMS_PER_PAGE in
  let stop := start + ITEMS_PER_PAGE in
  track_rows start (Py.slice tracks start stop)
  ++ (match nav_buttons page total_pages with [] => [] | nav => [nav] end)
  ++ [[{| label := "⬇️ Download This Page"; callback_data := "download_page" |}]].

Definition caption_of (query : string) (page total_pages : Z) : string :=
  "🎧 *Results for:* `" +:+ query +:+ "` (Page " +:+ pretty page +:+ "/"
  +:+ pretty total_pages +:+ ")".

Definition retire (chat_id : Z) (dct : gmap Z Z) : list call :=
  match dct !! chat_id with
  | Some mid => [delete_message chat_id mid]
  | None => []
  end.

Definition display_search_results (chat_id : Z) (query : string) (page : Z)
    (env : render_env) (st : Store) : Store * list call :=
  let searched := [catalog_search query 50] in
  match response env with
  | SearchRaises e => (st, searched ++ [send_message chat_id (msg_display_error e)])
  | Found [] => (st, searched ++ [send_message chat_id msg_no_results])
  | Found ((first :: _) as tracks) =>
      let total_pages := total_pages_of (Z.of_nat (length tracks)) in
      let shown := clamp_page page total_pages in
      let poster_url :=
        match album_images first with
        | url :: _ => if String.eqb url "" then None else Some url
        | [] => None
        end in
      let retired :=
        retire chat_id (result_message_id st) ++ retire chat_id (result_photo_id st) in
      let '(photo_calls, photo_ids) :=
        match poster_url with
        | None => ([], delete chat_id (result_photo_id st))
        | Some url =>
            let sent := send_photo chat_id url (caption_of query shown total_pages) in
            match photo_message env with
            | Some mid =>
                ([sent; schedule_message_delete chat_id mid 60],
                 <[chat_id := mid]> (delete chat_id (result_photo_id st)))
            | None => ([sent], delete chat_id (result_photo_id st))
            end
        end in
      let listing :=
        send_keyboard chat_id msg_choose (keyboard_of tracks shown total_pages) in
      let '(listing_calls, message_ids) :=
        match result_message env with
        | Some mid =>
            ([listing; schedule_message_delete chat_id mid 60],
             <[chat_id := mid]> (delete chat_id (result_message_id st)))
        | None => ([listing], delete chat_id (result_message_id st))
        end in
      ({| search_results := <[chat_id := tracks]> (search_results st);
          current_page := <[chat_id := page]> (current_page st);
          queries := <[chat_id := query]> (queries st);
          recent_queries := recent_queries st;
          last_download_time := last_download_time st;
          result_message_id := message_ids;
          result_photo_id := photo_ids |},
       searched ++ retired ++ photo_calls ++ listing_calls)
  end.

(** The update of [recent_queries[chat_id]]: the append and the eviction. *)
Definition remember (query : string) (recent : list string) : list string :=
  if bool_decide (query ∈ recent) then recent
  else
    let appended := recent ++ [query] in
    if (20 <? length appended)%nat then drop 1 appended else appended.

(** The history of the chat is read (and so created when missing), then
    updated in place. *)
Definition note_query (chat_id : Z) (query : string) (st : Store) : Store :=
  let '(recent, d) := defaultdict_get [] chat_id (recent_queries st) in
  with_recent_queries st (<[chat_id := remember query recent]> d).

(** Wrapped in [send_typing_action], which signals typing first. *)
Definition search_and_display (chat_id : Z) (text : string)
    (env : render_env) (st : Store) : Store * list call :=
  let query := Py.strip text in
  if String.eqb query "" then (st, [send_chat_action chat_id; reply_text msg_provide_term])
  else
    let '(st2, calls) :=
      display_search_results chat_id query 1 env (note_query chat_id query st) in
    (st2, send_chat_action chat_id :: calls).

(** [current_page[chat_id] += 1] or [-= 1], by the button pressed. *)
Definition moved (data : string) (page : Z) : Z :=
  if String.eqb data "next_page" then page + 1
  else if String.eqb data "prev_page" then page - 1
  else page.

Definition handle_pagination (chat_id : Z) (data : string)
    (env : render_env) (st : Store) : Store * list call :=
  match current_page st !! chat_id, queries st !! chat_id with
  | Some page, Some query =>
      let total_tracks := Z.of_nat (length (default [] (search_results st !! chat_id))) in
      let target := clamp_page (moved data page) (total_pages_of total_tracks) in
      let st1 := with_current_page st (<[chat_id := target]> (current_page st)) in
      let '(st2, calls) := display_search_results chat_id query target env st1 in
      (st2, answer :: calls)
  | _, _ => (st, [answer; reply_text msg_session_expired])
  end.

(** The cooldown test at the head of [select_song] and, word for word, of
    [download_page]: the wait to announce when the request is refused, and
    the dictionary after the test. *)
Definition cooldown_check (chat_id now : Z) (st : Store) : option Z * Store :=
  let '(last, d) := defaultdict_get datetime_min chat_id (last_download_time st) in
  if now - last <? DOWNLOAD_COOLDOWN
  then (Some (Z.quot (DOWNLOAD_COOLDOWN - (now - last)) 1000000),
        with_last_download_time st d)
  else (None, with_last_download_time st (<[chat_id := now]> d)).

(** [int(query.data.split("_")[1])] *)
Definition track_index_of (data : string) : Py.exn + Z :=
  match Py.index (Py.split_underscore data) 1 with
  | inl e => inl e
  | inr piece => Py.int piece
  end.

Definition msg_selected (track_name artist : string) : string :=
  "🎶 Selected: *" +:+ track_name +:+ "* by *" +:+ artist +:+ "*

⏳ Downloading...".

Definition select_song (chat_id : Z) (data : string) (now : Z)
    (env : download_env) (st : Store) : Store * list call :=
  match cooldown_check chat_id now st with
  | (Some wait_time, st1) => (st1, [answer; reply_text (msg_wait wait_time)])
  | (None, st1) =>
      match search_results st1 !! chat_id with
      | None => (st1, [answer; reply_text msg_session_expired])
      | Some tracks =>
          let failed (e : Py.exn) := (st1, [answer; reply_text (msg_select_error e)]) in
          match track_index_of data with
          | inl e => failed e
          | inr track_index =>
              match Py.index tracks track_index with
              | inl e => failed e
              | inr track =>
                  let artist := join_comma (artists track) in
                  let '(_, calls) :=
                    download_and_send_audio chat_id (spotify_url track)
                      (name track) artist None true env in
                  (st1, answer :: edit_message_text (msg_selected (name track) artist)
                               :: calls)
              end
          end
      end
  end.

Definition msg_downloading_page (page : Z) : string :=
  "⬇️ Downloading all songs on page " +:+ pretty page +:+ "...

⏳ Please wait...".

Definition page_caption (track_name artist : string) : string :=
  "✅ *Downloaded: " +:+ track_name +:+ "*
👤 *Artist:* " +:+ artist +:+ "

_Thanks for using LyricCraft! ❤️ Created by Lokesh.R_".

(** The loop over the tracks of the page, the [i]-th download meeting the
    world [envs i]. *)
Fixpoint download_each (chat_id : Z) (page_tracks : list Track)
    (i : nat) (envs : nat -> download_env) : list call :=
  match page_tracks with
  | [] => []
  | track :: r =>
      let artist := join_comma (artists track) in
      (download_and_send_audio chat_id (spotify_url track) (name track) artist
         (Some (page_caption (name track) artist)) true (envs i)).2
      ++ download_each chat_id r (S i) envs
  end.

Definition download_page (chat_id : Z) (now : Z)
    (envs : nat -> download_env) (st : Store) : Store * list call :=
  match cooldown_check chat_id now st with
  | (Some wait_time, st1) => (st1, [answer; reply_text (msg_wait wait_time)])
  | (None, st1) =>
      match search_results st1 !! chat_id, current_page st1 !! chat_id with
      | Some tracks, Some page =>
          let start := (page - 1) * ITEMS_PER_PAGE in
          let stop := start + ITEMS_PER_PAGE in
          let page_tracks := Py.slice tracks start stop in
          (st1, [answer; edit_message_text (msg_downloading_page page)]
                ++ download_each chat_id page_tracks 0 envs
                ++ [reply_text msg_finished])
      | _, _ => (st1, [answer; reply_text msg_session_expired])
      end
  end.

(** ** Events of a conversation *)

Inductive event :=
| Text (chat_id : Z) (text : string) (env : render_env)
| Navigate (chat_id : Z) (data : string) (env : render_env)
| Select (chat_id : Z) (data : string) (now : Z) (env : download_env)
| DownloadPage (chat_id : Z) (now : Z) (envs : nat -> download_env).

(** The dispatch of [main]. *)
Definition handle (ev : event) (st : Store) : Store * list call :=
  match ev with
  | Text chat_id text env => search_and_display chat_id text env st
  | Navigate chat_id data env => handle_pagination chat_id data env st
  | Select chat_id data now env => select_song chat_id data now env st
  | DownloadPage chat_id now envs => download_page chat_id now envs st
  end.

Fixpoint run (evs : list event) (st : Store) : Store :=
  match evs with
  | [] => st
  | ev :: r => run r (handle ev st).1
  end.

Definition found_some (env : render_env) : bool :=
  match response env with
  | Found (_ :: _) => true
  | _ => false
  end.



(** The history of a chat as [/recent] reads it. *)
Definition recent_of (st : Store) (chat_id : Z) : list string :=
  default [] (recent_queries st !! chat_id).

(** ** Sample worlds *)

Definition track_of (title : string) : Track :=
  {| name := title; artists := ["John Lennon"]%string; duration_ms := Some 183000;
     spotify_url := "https://open.spotify.com/track/" +:+ title;
     album_images := ["https://i.scdn.co/image/" +:+ title]%string |}.

(** A download that works: the process starts in 0.2 s, ends after 12 s with
    status 0 and leaves one file. *)
Definition env_ok : download_env :=
  {| tmpdirname := "/tmp/tmpab12"; creation := inr 200000;
     completion := Some 12000000; returncode := 0; stdout := "done"; stderr := "";
     scratch := Dir [("Imagine.mp3"%string, File)]; audio_sent := true |}.

Definition env_exit (code : Z) (out err : string) (fs : node) : download_env :=
  {| tmpdirname := "/tmp/tmpab12"; creation := inr 200000;
     completion := Some 12000000; returncode := code; stdout := out; stderr := err;
     scratch := fs; audio_sent := true |}.

Definition env_timing (create : Z) (run : option Z) : download_env :=
  {| tmpdirname := "/tmp/tmpab12"; creation := inr create;
     completion := run; returncode := 0; stdout := ""; stderr := "";
     scratch := Dir [("Imagine.mp3"%string, File)]; audio_sent := true |}.

Definition render_of (tracks : list Track) : render_env :=
  {| response := Found tracks; photo_message := Some 900; result_message := Some 901 |}.

(** A catalogue that cannot be reached. *)
Definition render_down : render_env :=
  {| response := SearchRaises (Py.OtherError "Max Retries reached");
     photo_message := Some 900; result_message := Some 901 |}.

(** What a cooldown test leaves alone. *)
Definition same_session (st st' : Store) : Prop :=
  search_results st' = search_results st
  /\ current_page st' = current_page st
  /\ queries st' = queries st
  /\ recent_queries st' = recent_queries st
  /\ result_message_id st' = result_message_id st
  /\ result_photo_id st' = result_photo_id st.

Definition twelve_tracks : list Track :=
  track_of <$> ["t0"; "t1"; "t2"; "t3"; "t4"; "t5"; "t6"; "t7"; "t8"; "t9";
                "t10"; "t11"]%string.

(** The session after the text "Imagine" found twelve tracks. *)
Definition searched_imagine : Store :=
  (search_and_display 7 "Imagine" (render_of twelve_tracks) empty_store).1.

Definition three_tracks : list Track := track_of <$> ["a"; "b"; "c"]%string.

Definition seven_tracks : list Track :=
  track_of <$> ["a"; "b"; "c"; "d"; "e"; "f"; "g"]%string.

(** An error stream of [n] letters. *)
Fixpoint many_x (n : nat) : string :=
  match n with
  | O => ""
  | S k => String "x" (many_x k)
  end.

Definition twenty_searches : list event :=
  (fun q => Text 7 q (render_of []))
  <$> ["q0"; "q1"; "q2"; "q3"; "q4"; "q5"; "q6"; "q7"; "q8"; "q9"; "q10"; "q11";
       "q12"; "q13"; "q14"; "q15"; "q16"; "q17"; "q18"; "q19"]%string.

(** Every path of a file with an MP3 name, in the order of the walk. *)
Definition mp3_paths (top : string) (fs : node) : list string :=
  '(root, _, files) ← walk top fs;
  path_join root <$> filter (fun f => is_mp3 f = true) files.

(** The output of a tool that prints a title in Latin-1: "Beyonc" and the
    single byte 0xE9. *)
Definition latin1_output : string := "Beyonc" +:+ String (ascii_of_N 233) "".

Definition nested_scratch : node :=
  Dir [("output"%string, Dir [("sub"%string, Dir [("track.mp3"%string, File)])])].

(** A chat that asked for a track at noon of 1 January 2024 before it ever
    searched: the request passed the cooldown test. *)
Definition noon : Z := 63839707200000000.
Definition after_first_request : Store :=
  (select_song 7 "track_0" noon env_ok empty_store).1.

(** ** The remaining handlers *)

Definition msg_no_recent : string := "😕 You have no recent searches yet.".
Definition msg_recent_head : string := "🕘 Your recent searches:
".

(** ["\n".join(f"- {q}" for q in l)] *)
Fixpoint join_lines (l : list string) : string :=
  match l with
  | [] => ""
  | [q] => "- " +:+ q
  | q :: r => "- " +:+ q +:+ "
" +:+ join_lines r
  end.

(** [l[-5:]] *)
Definition last_five {A} (l : list A) : list A :=
  Py.slice l (-5) (Z.of_nat (length l)).

(** [/recent], wrapped in [send_typing_action]; the history is read with
    [.get(chat_id, [])], which creates nothing. *)
Definition recent_command (chat_id : Z) (st : Store) : Store * list call :=
  let recent := default [] (recent_queries st !! chat_id) in
  let msg :=
    match recent with
    | [] => msg_no_recent
    | _ => msg_recent_head +:+ join_lines (last_five recent)
    end in
  (st, [send_chat_action chat_id; reply_text msg]).

(** The callback handlers of [main], in the order they are registered; a
    pattern is tried with [re.match], so it has to match a prefix of the
    data, and the first handler whose pattern matches takes the update. *)
Inductive route :=
| to_handle_pagination
| to_select_song
| to_download_page
| unhandled.

Definition route_callback (data : string) : route :=
  if String.prefix "prev_page" data || String.prefix "next_page" data
  then to_handle_pagination
  else if String.prefix "track_" data then to_select_song
  else if String.prefix "download_page" data then to_download_page
  else unhandled.

(** The tracks of a page: [tracks[start:end]] as [display_search_results]
    and [download_page] both cut it. *)
Definition page_window (tracks : list Track) (page : Z) : list Track :=
  Py.slice tracks ((page - 1) * ITEMS_PER_PAGE)
           ((page - 1) * ITEMS_PER_PAGE + ITEMS_PER_PAGE).

(** A file reached from a directory by the names of the directories to go
    through and its own name. *)
Inductive file_at : node -> list string -> Prop :=
| file_here es f :
    (f, File) ∈ es -> file_at (Dir es) [f]
| file_below es d sub path :
    (d, Dir sub) ∈ es -> file_at (Dir sub) path -> file_at (Dir es) (d :: path).

Definition path_of (top : string) (path : list string) : string :=
  foldl path_join top path.

Definition chat_of (ev : event) : Z :=
  match ev with
  | Text c _ _ | Navigate c _ _ | Select c _ _ _ | DownloadPage c _ _ => c
  end.

Definition is_spawn (c : call) : bool :=
  match c with create_subprocess_exec _ => true | _ => false end.

Definition is_audio (c : call) : bool :=
  match c with send_audio _ _ _ _ _ => true | _ => false end.

(** All that the bot holds about one chat. *)
Definition session (st : Store) (chat_id : Z) :=
  (search_results st !! chat_id, current_page st !! chat_id, queries st !! chat_id,
   recent_queries st !! chat_id, last_download_time st !! chat_id,
   result_message_id st !! chat_id, result_photo_id st !! chat_id).

(** The case analysis along the exits of [download_and_send_audio]. *)
Ltac download_cases env qm :=
  unfold download_and_send_audio, wait_for;
  destruct (creation env) as [e|d] eqn:Hcreation;
    [|destruct (Z.leb_spec d CREATION_TIMEOUT);
      [destruct (completion env) as [r|] eqn:Hcompletion;
       [destruct (Z.leb_spec r SPOTDL_TIMEOUT);
        [destruct (Z.eqb_spec (returncode env) 0);
         [destruct (find_mp3_file (tmpdirname env) (scratch env)) eqn:Hfound;
          [destruct (audio_sent env)
          |destruct (Py.decode (stdout env));
           [|destruct (Py.decode (stderr env))]]
         |destruct (Py.decode (stderr env))]
        |]
       |]
      |]];
  destruct qm; simpl.


Example strip_ex : Py.strip "  Imagine	" = "Imagine"%string.
Proof. reflexivity. Qed.

Example int_ex : Py.int "-12" = inr (-12) /\ Py.int "7" = inr 7
                 /\ Py.int "" = inl (Py.ValueError "").
Proof. repeat split. Qed.

Example format_duration_ex : format_duration 183000 = "3:03"%string.
Proof. reflexivity. Qed.

Example download_ok_ex :
  (download_and_send_audio 7 "u" "Imagine" "John Lennon" None true env_ok).1
  = Delivered "/tmp/tmpab12/Imagine.mp3".
Proof. reflexivity. Qed.

(** ** The rate limit *)

Lemma defaultdict_get_value {V} (dflt : V) k (d : gmap Z V) :
  (defaultdict_get dflt k d).1 = default dflt (d !! k).
Proof. unfold defaultdict_get. by destruct (d !! k). Qed.

Lemma defaultdict_get_lookup {V} (dflt : V) k k' (d : gmap Z V) :
  default dflt ((defaultdict_get dflt k d).2 !! k') = default dflt (d !! k').
Proof.
  unfold defaultdict_get. destruct (d !! k) eqn:E; simpl; [done|].
  destruct (decide (k = k')) as [->|Hne].
  - by rewrite lookup_insert_eq, E.
  - by rewrite lookup_insert_ne.
Qed.

Lemma cooldown_denied st chat_id now :
  now - last_download_at st chat_id < DOWNLOAD_COOLDOWN ->
  exists st',
    cooldown_check chat_id now st
    = (Some (Z.quot (DOWNLOAD_COOLDOWN - (now - last_download_at st chat_id)) 1000000), st')
    /\ (forall c, last_download_at st' c = last_download_at st c)
    /\ same_session st st'.
Proof.
  intros Hlt. unfold cooldown_check.
  pose proof (defaultdict_get_value datetime_min chat_id (last_download_time st)) as Hv.
  pose proof (fun c => defaultdict_get_lookup datetime_min chat_id c (last_download_time st)) as Hl.
  destruct (defaultdict_get datetime_min chat_id (last_download_time st)) as [last d].
  simpl in Hv, Hl. subst last. fold (last_download_at st chat_id).
  destruct (Z.ltb_spec (now - last_download_at st chat_id) DOWNLOAD_COOLDOWN); [|lia].
  eexists. split; [reflexivity|]. split; [|by repeat split].
  intros c. apply Hl.
Qed.

Lemma cooldown_allowed st chat_id now :
  DOWNLOAD_COOLDOWN <= now - last_download_at st chat_id ->
  exists st',
    cooldown_check chat_id now st = (None, st')
    /\ last_download_time st' !! chat_id = Some now
    /\ (forall c, c <> chat_id -> last_download_at st' c = last_download_at st c)
    /\ same_session st st'.
Proof.
  intros Hge. unfold cooldown_check.
  pose proof (defaultdict_get_value datetime_min chat_id (last_download_time st)) as Hv.
  pose proof (fun c => defaultdict_get_lookup datetime_min chat_id c (last_download_time st)) as Hl.
  destruct (defaultdict_get datetime_min chat_id (last_download_time st)) as [last d].
  simpl in Hv, Hl. subst last. fold (last_download_at st chat_id).
  destruct (Z.ltb_spec (now - last_download_at st chat_id) DOWNLOAD_COOLDOWN); [lia|].
  eexists. split; [reflexivity|]. split; [|split; [|by repeat split]].
  - simpl. apply lookup_insert_eq.
  - intros c Hc. unfold last_download_at at 1. simpl.
    rewrite lookup_insert_ne by done. apply Hl.
Qed.

(** Neither handler touches the dictionaries after the cooldown test. *)
Lemma select_song_store chat_id data now env st :
  (select_song chat_id data now env st).1 = (cooldown_check chat_id now st).2.
Proof.
  unfold select_song.
  destruct (cooldown_check chat_id now st) as [[w|] st1]; [done|].
  destruct (search_results st1 !! chat_id) as [tracks|]; [|done].
  destruct (track_index_of data) as [e|i]; [done|].
  destruct (Py.index tracks i) as [e|track]; [done|].
  by destruct (download_and_send_audio _ _ _ _ _ _ _).
Qed.

Lemma download_page_store chat_id now envs st :
  (download_page chat_id now envs st).1 = (cooldown_check chat_id now st).2.
Proof.
  unfold download_page.
  destruct (cooldown_check chat_id now st) as [[w|] st1]; [done|].
  by destruct (search_results st1 !! chat_id), (current_page st1 !! chat_id).
Qed.

(** C1 (as the code has it): inside the 30 seconds a select-one or
    download-page request is refused, the message announces the remaining
    time in whole seconds rounded down (so from 0 to 29 once the clock has
    not gone back), and the time of the last download stays what it was;
    from 30 seconds on the request passes the test and the time of the last
    download becomes [now] in that same step. *)
Theorem C1_cooldown_gate st chat_id now data env envs :
  let last := last_download_at st chat_id in
  let remaining := DOWNLOAD_COOLDOWN - (now - last) in
  (now - last < DOWNLOAD_COOLDOWN ->
   exists wait_time,
     0 <= wait_time
     /\ 1000000 * wait_time <= remaining < 1000000 * (wait_time + 1)
     /\ (select_song chat_id data now env st).2
        = [answer; reply_text (msg_wait wait_time)]
     /\ (download_page chat_id now envs st).2
        = [answer; reply_text (msg_wait wait_time)]
     /\ last_download_at (select_song chat_id data now env st).1 chat_id = last
     /\ last_download_at (download_page chat_id now envs st).1 chat_id = last)
  /\ (DOWNLOAD_COOLDOWN <= now - last ->
      (cooldown_check chat_id now st).1 = None
      /\ last_download_at (select_song chat_id data now env st).1 chat_id = now
      /\ last_download_at (download_page chat_id now envs st).1 chat_id = now).
Proof.
  intros last remaining. split; intros H.
  - destruct (cooldown_denied st chat_id now H) as (st' & Hc & Hl & _).
    fold last in Hc. fold remaining in Hc.
    assert (0 < remaining) as Hpos by (unfold remaining; lia).
    exists (Z.quot remaining 1000000).
    rewrite !select_song_store, !download_page_store.
    unfold select_song, download_page. rewrite Hc. simpl.
    rewrite Z.quot_div_nonneg by lia.
    pose proof (Z.div_mod remaining 1000000 ltac:(lia)) as Hdm.
    pose proof (Z.mod_pos_bound remaining 1000000 ltac:(lia)) as Hm.
    pose proof (Z.div_pos remaining 1000000 ltac:(lia) ltac:(lia)) as Hd.
    repeat split; try done; try apply Hl; lia.
  - destruct (cooldown_allowed st chat_id now H) as (st' & Hc & Hl & _).
    rewrite !select_song_store, !download_page_store, Hc. simpl.
    unfold last_download_at. by rewrite Hl.
Qed.

Lemma C1_cooldown_gate_witness :
  (noon + 10000000 - last_download_at after_first_request 7 < DOWNLOAD_COOLDOWN
   /\ exists wait_time,
       0 <= wait_time
       /\ 1000000 * wait_time
          <= DOWNLOAD_COOLDOWN
             - (noon + 10000000 - last_download_at after_first_request 7)
          < 1000000 * (wait_time + 1)
       /\ (select_song 7 "track_1" (noon + 10000000) env_ok after_first_request).2
          = [answer; reply_text (msg_wait wait_time)]
       /\ (download_page 7 (noon + 10000000) (fun _ => env_ok) after_first_request).2
          = [answer; reply_text (msg_wait wait_time)]
       /\ last_download_at
            (select_song 7 "track_1" (noon + 10000000) env_ok after_first_request).1 7
          = last_download_at after_first_request 7
       /\ last_download_at
            (download_page 7 (noon + 10000000) (fun _ => env_ok) after_first_request).1 7
          = last_download_at after_first_request 7)
  /\ (DOWNLOAD_COOLDOWN <= noon - last_download_at empty_store 7
      /\ (cooldown_check 7 noon empty_store).1 = None
      /\ last_download_at (select_song 7 "track_0" noon env_ok empty_store).1 7 = noon
      /\ last_download_at (download_page 7 noon (fun _ => env_ok) empty_store).1 7
         = noon).
Proof.
  split; split.
  - by vm_compute.
  - apply (C1_cooldown_gate after_first_request 7 (noon + 10000000) "track_1"
             env_ok (fun _ => env_ok)).
    by vm_compute.
  - by vm_compute.
  - apply (C1_cooldown_gate empty_store 7 noon "track_0" env_ok (fun _ => env_ok)).
    by vm_compute.
Defined.

Example second_request_ex :
  (select_song 7 "track_1" (noon + 10000000) env_ok after_first_request).2
  = [answer; reply_text "⏳ Please wait 20 seconds before downloading again."].
Proof. reflexivity. Qed.

(** C1 as stated fails: half a second before the cooldown ends the message
    announces 0 seconds, which is neither the ceiling (1) nor positive. *)
Lemma C1_ceiling_counterexample :
  ~ (forall st chat_id now data env,
       now - last_download_at st chat_id < DOWNLOAD_COOLDOWN ->
       exists wait_time,
         (select_song chat_id data now env st).2
         = [answer; reply_text (msg_wait wait_time)]
         /\ wait_time = Py.ceil_div (DOWNLOAD_COOLDOWN
                                      - (now - last_download_at st chat_id)) 1000000
         /\ 0 < wait_time).
Proof.
  intros H.
  destruct (H after_first_request 7 (noon + 29500000) "track_1"%string env_ok)
    as (w & Hmsg & Hw & _); [by vm_compute|].
  vm_compute in Hw. subst w. vm_compute in Hmsg. discriminate Hmsg.
Qed.

(** C9: the cooldown test comes before the session is looked at and what
    it writes stays: a select-one or download-page request that passes the
    test leaves the time of the last download at [now] whatever follows (the
    session missing, the index wrong, the download failing in any way), so
    the next request of the chat within 30 seconds is refused; and a request
    inside the cooldown is refused before the session is looked at. *)
Theorem C9_reservation_kept st chat_id now data env envs :
  DOWNLOAD_COOLDOWN <= now - last_download_at st chat_id ->
  let st1 := (select_song chat_id data now env st).1 in
  let st2 := (download_page chat_id now envs st).1 in
  last_download_at st1 chat_id = now
  /\ last_download_at st2 chat_id = now
  /\ (search_results st !! chat_id = None ->
      (select_song chat_id data now env st).2 = [answer; reply_text msg_session_expired]
      /\ (download_page chat_id now envs st).2
         = [answer; reply_text msg_session_expired])
  /\ (forall now' data' env' envs',
        now' - now < DOWNLOAD_COOLDOWN ->
        exists wait_time,
          (select_song chat_id data' now' env' st1).2
          = [answer; reply_text (msg_wait wait_time)]
          /\ (download_page chat_id now' envs' st1).2
             = [answer; reply_text (msg_wait wait_time)]
          /\ (select_song chat_id data' now' env' st2).2
             = [answer; reply_text (msg_wait wait_time)]
          /\ (download_page chat_id now' envs' st2).2
             = [answer; reply_text (msg_wait wait_time)]).
Proof.
  intros H st1 st2.
  destruct (cooldown_allowed st chat_id now H) as (st' & Hc & Hl & _ & Hs).
  assert (st1 = st') as -> by (unfold st1; by rewrite select_song_store, Hc).
  assert (st2 = st') as -> by (unfold st2; by rewrite download_page_store, Hc).
  assert (last_download_at st' chat_id = now) as Hnow
      by (unfold last_download_at; by rewrite Hl).
  split; [done|]. split; [done|]. split.
  - intros Hnone. destruct Hs as (Hs & _).
    unfold select_song, download_page. rewrite Hc, Hs, Hnone. done.
  - intros now' data' env' envs' Hlt.
    destruct (cooldown_denied st' chat_id now') as (st'' & Hc' & _).
    { by rewrite Hnow. }
    eexists. unfold select_song, download_page. rewrite Hc'. done.
Qed.

Lemma C9_reservation_kept_witness :
  DOWNLOAD_COOLDOWN <= noon - last_download_at empty_store 7
  /\ last_download_at (select_song 7 "track_0" noon env_ok empty_store).1 7 = noon
  /\ (select_song 7 "track_0" noon env_ok empty_store).2
     = [answer; reply_text msg_session_expired].
Proof.
  split; [by vm_compute|].
  destruct (C9_reservation_kept empty_store 7 noon "track_0" env_ok (fun _ => env_ok))
    as (H1 & _ & H3 & _); [by vm_compute|].
  split; [exact H1|]. apply H3. reflexivity.
Defined.

(** ** Putting up a result page *)

Lemma display_unsuccessful chat_id query page env st :
  found_some env = false ->
  (display_search_results chat_id query page env st).1 = st
  /\ forall text kb,
       send_keyboard chat_id text kb
       ∉ (display_search_results chat_id query page env st).2.
Proof.
  unfold found_some, display_search_results.
  destruct (response env) as [[|first rest]|e]; intros H; try discriminate H;
    (split; [done|]); intros text kb Hin; simpl in Hin;
    repeat (apply elem_of_cons in Hin as [Hin|Hin]; [discriminate Hin|]);
    by apply elem_of_nil in Hin.
Qed.

Lemma display_successful chat_id query page env st tracks :
  response env = Found tracks -> tracks <> [] ->
  let total_pages := total_pages_of (Z.of_nat (length tracks)) in
  let st' := (display_search_results chat_id query page env st).1 in
  search_results st' = <[chat_id := tracks]> (search_results st)
  /\ current_page st' = <[chat_id := page]> (current_page st)
  /\ queries st' = <[chat_id := query]> (queries st)
  /\ recent_queries st' = recent_queries st
  /\ last_download_time st' = last_download_time st
  /\ send_keyboard chat_id msg_choose
       (keyboard_of tracks (clamp_page page total_pages) total_pages)
     ∈ (display_search_results chat_id query page env st).2.
Proof.
  intros Hr Hne. unfold display_search_results. rewrite Hr.
  destruct tracks as [|first rest]; [done|].
  set (poster := match album_images first with
                 | [] => None
                 | url :: _ => if String.eqb url "" then None else Some url
                 end).
  destruct poster as [url|]; destruct (photo_message env);
    destruct (result_message env); cbn -[keyboard_of total_pages_of clamp_page];
    repeat split; try done;
    rewrite ?elem_of_cons, ?elem_of_app; set_solver.
Qed.

Lemma display_calls_head chat_id query page env st :
  exists rest,
    (display_search_results chat_id query page env st).2
    = catalog_search query 50 :: rest.
Proof.
  unfold display_search_results.
  destruct (response env) as [[|first rest]|e]; [by eexists|..|by eexists].
  destruct (match album_images first with
            | [] => None
            | url :: _ => if String.eqb url "" then None else Some url
            end); destruct (photo_message env); destruct (result_message env);
    by eexists.
Qed.

Lemma note_query_session chat_id query st :
  search_results (note_query chat_id query st) = search_results st
  /\ current_page (note_query chat_id query st) = current_page st
  /\ queries (note_query chat_id query st) = queries st
  /\ last_download_time (note_query chat_id query st) = last_download_time st.
Proof.
  unfold note_query. by destruct (defaultdict_get _ _ _).
Qed.

Lemma search_and_display_unfold chat_id text env st :
  Py.strip text <> ""%string ->
  search_and_display chat_id text env st
  = ((display_search_results chat_id (Py.strip text) 1 env
        (note_query chat_id (Py.strip text) st)).1,
     send_chat_action chat_id
     :: (display_search_results chat_id (Py.strip text) 1 env
           (note_query chat_id (Py.strip text) st)).2).
Proof.
  intros Hq. unfold search_and_display.
  destruct (String.eqb_spec (Py.strip text) ""); [done|].
  by destruct (display_search_results _ _ _ _ _).
Qed.

Lemma search_and_display_unsuccessful chat_id text env st :
  found_some env = false ->
  let st' := (search_and_display chat_id text env st).1 in
  search_results st' = search_results st
  /\ current_page st' = current_page st
  /\ queries st' = queries st.
Proof.
  intros Hf. simpl.
  destruct (String.eqb_spec (Py.strip text) "") as [Heq|Hne].
  - unfold search_and_display. rewrite Heq. done.
  - rewrite search_and_display_unfold by done. simpl.
    destruct (display_unsuccessful chat_id (Py.strip text) 1 env
                (note_query chat_id (Py.strip text) st) Hf) as [-> _].
    destruct (note_query_session chat_id (Py.strip text) st) as (? & ? & ? & _).
    done.
Qed.

(** C3: a search whose response holds no track sends the no-results message
    and leaves the results, the page and the query of the session as they
    were; a search that finds at least one track replaces the three; and
    nothing else than such a search changes them. *)
Theorem C3_empty_search_keeps_session st chat_id text env :
  let st' := (search_and_display chat_id text env st).1 in
  (Py.strip text <> ""%string -> response env = Found [] ->
   (search_and_display chat_id text env st).2
   = [send_chat_action chat_id; catalog_search (Py.strip text) 50;
      send_message chat_id msg_no_results]
   /\ search_results st' = search_results st
   /\ current_page st' = current_page st
   /\ queries st' = queries st)
  /\ (forall tracks,
        Py.strip text <> ""%string -> response env = Found tracks -> tracks <> [] ->
        search_results st' !! chat_id = Some tracks
        /\ current_page st' !! chat_id = Some 1
        /\ queries st' !! chat_id = Some (Py.strip text))
  /\ (found_some env = false ->
      search_results st' = search_results st
      /\ current_page st' = current_page st
      /\ queries st' = queries st).
Proof.
  intros st'. split; [|split].
  - intros Hq Hr. split.
    + rewrite search_and_display_unfold by done. simpl.
      unfold display_search_results. by rewrite Hr.
    + apply search_and_display_unsuccessful. unfold found_some. by rewrite Hr.
  - intros tracks Hq Hr Hne. unfold st'.
    rewrite search_and_display_unfold by done. simpl.
    destruct (display_successful chat_id (Py.strip text) 1 env
                (note_query chat_id (Py.strip text) st) tracks Hr Hne)
      as (-> & -> & -> & _).
    by rewrite !lookup_insert_eq.
  - apply search_and_display_unsuccessful.
Qed.

Lemma C3_empty_search_keeps_session_witness :
  (Py.strip " zzzz " <> ""%string /\ response (render_of []) = Found [])
  /\ (search_and_display 7 " zzzz " (render_of []) searched_imagine).2
     = [send_chat_action 7; catalog_search (Py.strip " zzzz ") 50;
        send_message 7 msg_no_results]
  /\ search_results (search_and_display 7 " zzzz " (render_of []) searched_imagine).1
     = search_results searched_imagine
  /\ current_page (search_and_display 7 " zzzz " (render_of []) searched_imagine).1
     = current_page searched_imagine
  /\ queries (search_and_display 7 " zzzz " (render_of []) searched_imagine).1
     = queries searched_imagine.
Proof.
  split; [split; [by vm_compute|reflexivity]|].
  apply (C3_empty_search_keeps_session searched_imagine 7 " zzzz " (render_of [])).
  - by vm_compute.
  - reflexivity.
Defined.

Example searched_imagine_ex :
  search_results searched_imagine !! 7 = Some twelve_tracks
  /\ current_page searched_imagine !! 7 = Some 1
  /\ queries searched_imagine !! 7 = Some "Imagine"%string.
Proof. by vm_compute. Qed.

Lemma display_keyboard_unique chat_id query page env st text kb :
  send_keyboard chat_id text kb
  ∈ (display_search_results chat_id query page env st).2 ->
  exists tracks,
    response env = Found tracks /\ tracks <> []
    /\ kb = keyboard_of tracks
              (clamp_page page (total_pages_of (Z.of_nat (length tracks))))
              (total_pages_of (Z.of_nat (length tracks))).
Proof.
  destruct (found_some env) eqn:Hf.
  - unfold found_some in Hf.
    destruct (response env) as [[|first rest]|e] eqn:Hr; try discriminate Hf.
    intros Hin. exists (first :: rest). split; [done|]. split; [done|].
    revert Hin. unfold display_search_results, retire. rewrite Hr.
    destruct (match album_images first with
              | [] => None
              | url :: _ => if String.eqb url "" then None else Some url
              end); destruct (photo_message env); destruct (result_message env);
      destruct (result_message_id st !! chat_id);
      destruct (result_photo_id st !! chat_id);
      cbn -[keyboard_of total_pages_of clamp_page];
      rewrite ?elem_of_cons, ?elem_of_nil; intuition congruence.
  - intros Hin.
    by destruct (proj2 (display_unsuccessful chat_id query page env st Hf) text kb).
Qed.

(** ** Navigation *)

Lemma handle_pagination_unfold st chat_id page query data env :
  current_page st !! chat_id = Some page ->
  queries st !! chat_id = Some query ->
  let old := default [] (search_results st !! chat_id) in
  let target := clamp_page (moved data page) (total_pages_of (Z.of_nat (length old))) in
  let st1 := with_current_page st (<[chat_id := target]> (current_page st)) in
  handle_pagination chat_id data env st
  = ((display_search_results chat_id query target env st1).1,
     answer :: (display_search_results chat_id query target env st1).2).
Proof.
  intros Hp Hq. simpl. unfold handle_pagination. rewrite Hp, Hq.
  by destruct (display_search_results _ _ _ _ _).
Qed.

Lemma handle_pagination_page st chat_id page query data env :
  current_page st !! chat_id = Some page ->
  queries st !! chat_id = Some query ->
  let old := default [] (search_results st !! chat_id) in
  current_page (handle_pagination chat_id data env st).1 !! chat_id
  = Some (clamp_page (moved data page) (total_pages_of (Z.of_nat (length old)))).
Proof.
  intros Hp Hq. simpl.
  rewrite (handle_pagination_unfold st chat_id page query data env Hp Hq). simpl.
  destruct (found_some env) eqn:Hf.
  - unfold found_some in Hf.
    destruct (response env) as [[|first rest]|e] eqn:Hr; try discriminate Hf.
    match goal with
    | |- context [display_search_results ?c ?q ?t ?e ?s] =>
        destruct (display_successful c q t e s (first :: rest) Hr ltac:(done))
          as (_ & -> & _)
    end.
    apply lookup_insert_eq.
  - match goal with
    | |- context [display_search_results ?c ?q ?t ?e ?s] =>
        destruct (display_unsuccessful c q t e s Hf) as [-> _]
    end.
    simpl. apply lookup_insert_eq.
Qed.

Lemma total_pages_ceiling n :
  1 <= n ->
  let total_pages := total_pages_of n in
  1 <= total_pages /\ 5 * (total_pages - 1) < n <= 5 * total_pages.
Proof.
  intros Hn. simpl. unfold total_pages_of, Py.ceil_div, ITEMS_PER_PAGE.
  pose proof (Z.div_mod (n + 5 - 1) 5 ltac:(lia)) as Hdm.
  pose proof (Z.mod_pos_bound (n + 5 - 1) 5 ltac:(lia)) as Hm.
  lia.
Qed.

(** C7: in a session whose results have size N >= 1, after a next or prev
    button the page lies between 1 and max(1, ceil(N/5)); next on the last
    page and prev on page 1 leave the page where it was. *)
Theorem C7_page_in_range st chat_id results page query data env :
  search_results st !! chat_id = Some results ->
  (1 <= length results)%nat ->
  current_page st !! chat_id = Some page ->
  queries st !! chat_id = Some query ->
  data = "next_page"%string \/ data = "prev_page"%string ->
  let N := Z.of_nat (length results) in
  let total_pages := Z.max 1 (Py.ceil_div N ITEMS_PER_PAGE) in
  let st' := (handle_pagination chat_id data env st).1 in
  5 * (total_pages - 1) < N <= 5 * total_pages
  /\ (exists page', current_page st' !! chat_id = Some page'
                    /\ 1 <= page' <= total_pages)
  /\ (data = "next_page"%string -> page = total_pages ->
      current_page st' !! chat_id = Some page)
  /\ (data = "prev_page"%string -> page = 1 ->
      current_page st' !! chat_id = Some page).
Proof.
  intros Hs Hlen Hp Hq Hdata N total_pages st'.
  pose proof (total_pages_ceiling N ltac:(lia)) as [Hpos Hceil].
  fold (total_pages_of N) in total_pages. simpl in Hpos, Hceil.
  fold total_pages in Hpos, Hceil.
  pose proof (handle_pagination_page st chat_id page query data env Hp Hq) as Hpage.
  simpl in Hpage. rewrite Hs in Hpage. simpl in Hpage.
  fold N in Hpage. fold total_pages in Hpage. fold st' in Hpage.
  split; [exact Hceil|]. split; [|split].
  - eexists. split; [exact Hpage|]. unfold clamp_page. lia.
  - intros -> ->. rewrite Hpage. f_equal. unfold clamp_page, moved. simpl. lia.
  - intros -> ->. rewrite Hpage. f_equal. unfold clamp_page, moved. simpl. lia.
Qed.

Lemma C7_page_in_range_witness :
  (search_results searched_imagine !! 7 = Some twelve_tracks
   /\ (1 <= length twelve_tracks)%nat
   /\ current_page searched_imagine !! 7 = Some 1
   /\ queries searched_imagine !! 7 = Some "Imagine"%string)
  /\ exists page',
      current_page
        (handle_pagination 7 "prev_page" (render_of twelve_tracks) searched_imagine).1
      !! 7 = Some page'
      /\ 1 <= page' <= Z.max 1 (Py.ceil_div (Z.of_nat (length twelve_tracks))
                                            ITEMS_PER_PAGE).
Proof.
  split; [repeat split; try (vm_compute; reflexivity); simpl; lia|].
  apply (C7_page_in_range searched_imagine 7 twelve_tracks 1 "Imagine" "prev_page"
           (render_of twelve_tracks)); try (vm_compute; reflexivity).
  - simpl. lia.
  - by right.
Defined.

(** ** Sessions that never searched *)


Lemma cooldown_check_session chat_id now st :
  same_session st (cooldown_check chat_id now st).2.
Proof.
  destruct (Z.lt_ge_cases (now - last_download_at st chat_id) DOWNLOAD_COOLDOWN) as [H|H].
  - by destruct (cooldown_denied st chat_id now H) as (st' & -> & _ & Hs).
  - by destruct (cooldown_allowed st chat_id now H) as (st' & -> & _ & _ & Hs).
Qed.




(** ** The history of queries *)

Lemma remember_invariant query recent :
  NoDup recent -> (length recent <= 20)%nat ->
  NoDup (remember query recent) /\ (length (remember query recent) <= 20)%nat.
Proof.
  intros Hnd Hlen. unfold remember. case_bool_decide as Hin; [done|].
  assert (NoDup (recent ++ [query])) as Hnd'.
  { apply NoDup_app. split; [done|]. split; [|apply NoDup_singleton].
    intros x Hx Hq. apply list_elem_of_singleton in Hq. by subst. }
  destruct (Nat.ltb_spec 20 (length (recent ++ [query]))) as [Hgt|Hle].
  - split.
    + eapply sublist_NoDup; [exact Hnd'|apply sublist_drop].
    + rewrite length_drop, length_app. simpl. lia.
  - done.
Qed.

Lemma display_recent chat_id query page env st :
  recent_queries (display_search_results chat_id query page env st).1
  = recent_queries st.
Proof.
  destruct (found_some env) eqn:Hf.
  - unfold found_some in Hf.
    destruct (response env) as [[|first rest]|e] eqn:Hr; try discriminate Hf.
    by destruct (display_successful chat_id query page env st (first :: rest) Hr
                   ltac:(done)) as (_ & _ & _ & -> & _).
  - by destruct (display_unsuccessful chat_id query page env st Hf) as [-> _].
Qed.

Lemma note_query_recent chat_id c query st :
  recent_of (note_query c query st) chat_id
  = if decide (c = chat_id) then remember query (recent_of st chat_id)
    else recent_of st chat_id.
Proof.
  unfold note_query, recent_of.
  pose proof (defaultdict_get_value [] c (recent_queries st)) as Hv.
  pose proof (defaultdict_get_lookup [] c chat_id (recent_queries st)) as Hl.
  destruct (defaultdict_get [] c (recent_queries st)) as [recent d].
  simpl in *. subst recent. case_decide as Hc.
  - subst c. by rewrite lookup_insert_eq.
  - by rewrite lookup_insert_ne.
Qed.

Lemma search_and_display_recent chat_id c text env st :
  recent_of (search_and_display c text env st).1 chat_id
  = if decide (c = chat_id /\ Py.strip text <> ""%string)
    then remember (Py.strip text) (recent_of st chat_id)
    else recent_of st chat_id.
Proof.
  destruct (String.eqb_spec (Py.strip text) "") as [Heq|Hne].
  - unfold search_and_display. rewrite Heq. simpl.
    case_decide as H; [by destruct H|done].
  - rewrite search_and_display_unfold by done. simpl.
    unfold recent_of at 1. rewrite display_recent.
    fold (recent_of (note_query c (Py.strip text) st) chat_id).
    rewrite note_query_recent. repeat case_decide; tauto.
Qed.

Lemma handle_recent chat_id ev st :
  recent_of (handle ev st).1 chat_id
  = match ev with
    | Text c text _ =>
        if decide (c = chat_id /\ Py.strip text <> ""%string)
        then remember (Py.strip text) (recent_of st chat_id)
        else recent_of st chat_id
    | _ => recent_of st chat_id
    end.
Proof.
  destruct ev as [c text env|c data env|c data now env|c now envs]; simpl.
  - apply search_and_display_recent.
  - unfold recent_of.
    destruct (current_page st !! c) as [page|] eqn:Hpc;
      [destruct (queries st !! c) as [query|] eqn:Hqc|];
      try (unfold handle_pagination; rewrite Hpc, ?Hqc; done).
    rewrite (handle_pagination_unfold st c page query data env Hpc Hqc). simpl.
    by rewrite display_recent.
  - rewrite select_song_store. unfold recent_of.
    by destruct (cooldown_check_session c now st) as (_ & _ & _ & -> & _).
  - rewrite download_page_store. unfold recent_of.
    by destruct (cooldown_check_session c now st) as (_ & _ & _ & -> & _).
Qed.

Lemma run_app evs evs' st : run (evs ++ evs') st = run evs' (run evs st).
Proof. revert st. induction evs as [|ev evs IH]; intros st; simpl; [done|apply IH]. Qed.

Lemma recent_of_empty chat_id : recent_of empty_store chat_id = [].
Proof. unfold recent_of. simpl. by rewrite lookup_empty. Qed.

Lemma run_recent_invariant chat_id evs st :
  NoDup (recent_of st chat_id) -> (length (recent_of st chat_id) <= 20)%nat ->
  NoDup (recent_of (run evs st) chat_id)
  /\ (length (recent_of (run evs st) chat_id) <= 20)%nat.
Proof.
  revert st. induction evs as [|ev evs IH]; intros st Hnd Hlen; simpl; [done|].
  assert (NoDup (recent_of (handle ev st).1 chat_id)
          /\ (length (recent_of (handle ev st).1 chat_id) <= 20)%nat) as [Hnd' Hlen'].
  { rewrite handle_recent. destruct ev; try done.
    case_decide; [by apply remember_invariant|done]. }
  by apply IH.
Qed.

(** C8: after any sequence of events from the start of the process the
    history of a chat holds at most 20 queries and none twice; a search for
    a query that is in it leaves it as it is, a search for a new one appends
    it at the end, and drops the oldest entry when that makes 21. *)
Theorem C8_recent_queries chat_id evs text env :
  let st := run evs empty_store in
  let recent := recent_of st chat_id in
  let query := Py.strip text in
  let recent' := recent_of (search_and_display chat_id text env st).1 chat_id in
  (length recent <= 20)%nat /\ NoDup recent
  /\ (length recent' <= 20)%nat /\ NoDup recent'
  /\ (query <> ""%string -> query ∈ recent -> recent' = recent)
  /\ (query <> ""%string -> query ∉ recent -> (length recent < 20)%nat ->
      recent' = recent ++ [query])
  /\ (query <> ""%string -> query ∉ recent -> length recent = 20%nat ->
      recent' = drop 1 recent ++ [query]).
Proof.
  intros st recent query recent'.
  destruct (run_recent_invariant chat_id evs empty_store) as [Hnd Hlen];
    [rewrite recent_of_empty; apply NoDup_nil_2
    |rewrite recent_of_empty; simpl; lia|].
  fold st in Hnd, Hlen. fold recent in Hnd, Hlen.
  destruct (run_recent_invariant chat_id (evs ++ [Text chat_id text env]) empty_store)
    as [Hnd' Hlen'];
    [rewrite recent_of_empty; apply NoDup_nil_2
    |rewrite recent_of_empty; simpl; lia|].
  assert (run (evs ++ [Text chat_id text env]) empty_store
          = (search_and_display chat_id text env st).1) as Hrun.
  { by rewrite run_app. }
  rewrite Hrun in Hnd', Hlen'. fold recent' in Hnd', Hlen'.
  assert (query <> ""%string -> recent' = remember query recent) as Hstep.
  { intros Hq. unfold recent'. rewrite search_and_display_recent.
    by rewrite decide_True. }
  repeat split; try done.
  - intros Hq Hin. rewrite Hstep by done. unfold remember.
    by rewrite bool_decide_eq_true_2.
  - intros Hq Hin Hlt. rewrite Hstep by done. unfold remember.
    rewrite bool_decide_eq_false_2 by done.
    destruct (Nat.ltb_spec 20 (length (recent ++ [query]))) as [Hgt|Hle]; [|done].
    rewrite length_app in Hgt. simpl in Hgt. lia.
  - intros Hq Hin Heq. rewrite Hstep by done. unfold remember.
    rewrite bool_decide_eq_false_2 by done.
    destruct (Nat.ltb_spec 20 (length (recent ++ [query]))) as [Hgt|Hle].
    + destruct recent; [discriminate Heq|]. done.
    + rewrite length_app in Hle. simpl in Hle. lia.
Qed.

Lemma C8_recent_queries_witness :
  (Py.strip "q20" <> ""%string
   /\ (Py.strip "q20" ∉ recent_of (run twenty_searches empty_store) 7)
   /\ length (recent_of (run twenty_searches empty_store) 7) = 20%nat)
  /\ recent_of (search_and_display 7 "q20" (render_of [])
                  (run twenty_searches empty_store)).1 7
     = drop 1 (recent_of (run twenty_searches empty_store) 7) ++ [Py.strip "q20"].
Proof.
  assert (Py.strip "q20" <> ""%string) as Hq by (vm_compute; discriminate).
  assert (Py.strip "q20" ∉ recent_of (run twenty_searches empty_store) 7) as Hin.
  { apply (bool_decide_eq_false_1 _). vm_compute. reflexivity. }
  assert (length (recent_of (run twenty_searches empty_store) 7) = 20%nat) as Hlen
      by (vm_compute; reflexivity).
  split; [exact (conj Hq (conj Hin Hlen))|].
  exact (proj2 (proj2 (proj2 (proj2 (proj2 (proj2
           (C8_recent_queries 7 twenty_searches "q20" (render_of []))))))) Hq Hin Hlen).
Defined.

(** ** The download *)

Lemma bytes_of_app a b : Py.bytes_of (a +:+ b) = Py.bytes_of a ++ Py.bytes_of b.
Proof.
  unfold Py.bytes_of. induction a as [|c a IH]; simpl; [done|]. by f_equal.
Qed.

Lemma len_app a b : Py.len (a +:+ b) = (Py.len a + Py.len b)%nat.
Proof. unfold Py.len. by rewrite bytes_of_app, filter_app, length_app. Qed.

Lemma many_x_len n : Py.len (many_x n) = n.
Proof.
  induction n as [|n IH]; [done|].
  change (many_x (S n)) with ("x" +:+ many_x n). rewrite len_app, IH. done.
Qed.

Lemma many_x_decodes n : Py.decode (many_x n) = inr (many_x n).
Proof.
  unfold Py.decode.
  assert (forall pos, exists cps,
            Py.utf8_decode pos (Py.bytes_of (many_x n)) = inr cps) as H.
  { induction n as [|n IH]; intros pos; [by eexists|].
    destruct (IH (pos + 1)%N) as [cps Hcps].
    change (Py.utf8_decode pos (Py.bytes_of (many_x (S n))))
      with (Py.prepend 120 (Py.utf8_decode (pos + 1) (Py.bytes_of (many_x n)))).
    rewrite Hcps. by eexists. }
  by destruct (H 0%N) as [cps ->].
Qed.

Lemma decode_verbatim raw text : Py.decode raw = inr text -> text = raw.
Proof.
  unfold Py.decode. destruct (Py.utf8_decode _ _) as [[[start stop] reason]|cps];
    congruence.
Qed.

(** The run of a process that starts and ends in time with a status other
    than 0 and an error stream that decodes. *)
Lemma tool_failure_run chat_id url title performer caption query_message env d r text :
  creation env = inr d -> d <= CREATION_TIMEOUT ->
  completion env = Some r -> r <= SPOTDL_TIMEOUT ->
  returncode env <> 0 ->
  Py.decode (stderr env) = inr text ->
  download_and_send_audio chat_id url title performer caption query_message env
  = (ToolFailure text,
     [create_subprocess_exec (command_of url env); communicate;
      tell query_message chat_id (msg_failed text)]).
Proof.
  intros Hc Hd Hr Hrt Hcode Hdec. unfold download_and_send_audio, wait_for.
  rewrite Hc, Hr, Hdec.
  destruct (Z.leb_spec d CREATION_TIMEOUT); [|lia].
  destruct (Z.leb_spec r SPOTDL_TIMEOUT); [|lia].
  destruct (Z.eqb_spec (returncode env) 0); [done|]. done.
Qed.

(** C2 (as the code has it): when the process ends with a status other than
    0 (and its error stream decodes), the outcome is the tool failure and the
    message to the user carries the whole error stream between a fixed
    head and a closing quote; nothing is cut, so the message is as long as
    the stream plus 21 characters and no constant bounds it. *)
Theorem C2_tool_failure_message chat_id url title performer caption query_message
    env d r text :
  creation env = inr d -> d <= CREATION_TIMEOUT ->
  completion env = Some r -> r <= SPOTDL_TIMEOUT ->
  returncode env <> 0 ->
  Py.decode (stderr env) = inr text ->
  download_and_send_audio chat_id url title performer caption query_message env
  = (ToolFailure (stderr env),
     [create_subprocess_exec (command_of url env); communicate;
      tell query_message chat_id (msg_failed (stderr env))])
  /\ Py.len (msg_failed (stderr env)) = (21 + Py.len (stderr env))%nat
  /\ forall bound : nat,
       exists raw, Py.decode raw = inr raw
                   /\ (bound < Py.len (msg_failed raw))%nat.
Proof.
  intros Hc Hd Hr Hrt Hcode Hdec.
  pose proof (decode_verbatim _ _ Hdec) as ->.
  split; [by eapply tool_failure_run|]. split.
  - unfold msg_failed. rewrite !len_app.
    change (20 + (Py.len (stderr env) + 1) = 21 + Py.len (stderr env))%nat. lia.
  - intros bound. exists (many_x bound). split; [apply many_x_decodes|].
    unfold msg_failed. rewrite !len_app, many_x_len.
    change (bound < 20 + (bound + 1))%nat. lia.
Qed.

Lemma C2_tool_failure_message_witness :
  (creation (env_exit 1 "" "boom" (Dir [])) = inr 200000
   /\ 200000 <= CREATION_TIMEOUT
   /\ completion (env_exit 1 "" "boom" (Dir [])) = Some 12000000
   /\ 12000000 <= SPOTDL_TIMEOUT
   /\ returncode (env_exit 1 "" "boom" (Dir [])) <> 0
   /\ Py.decode (stderr (env_exit 1 "" "boom" (Dir []))) = inr "boom"%string)
  /\ download_and_send_audio 7 "u" "Imagine" "John Lennon" None true
       (env_exit 1 "" "boom" (Dir []))
     = (ToolFailure "boom",
        [create_subprocess_exec (command_of "u" (env_exit 1 "" "boom" (Dir [])));
         communicate; reply_text (msg_failed "boom")]).
Proof.
  assert (200000 <= CREATION_TIMEOUT) as H1 by (by vm_compute).
  assert (12000000 <= SPOTDL_TIMEOUT) as H2 by (by vm_compute).
  assert (returncode (env_exit 1 "" "boom" (Dir [])) <> 0) as H3 by (by vm_compute).
  split; [by repeat split|].
  exact (proj1 (C2_tool_failure_message 7 "u" "Imagine" "John Lennon" None true
                  (env_exit 1 "" "boom" (Dir [])) 200000 12000000 "boom"
                  eq_refl H1 eq_refl H2 H3 eq_refl)).
Defined.

(** C2 as stated fails: no constant bounds the length of the failure
    message over all error streams. *)
Lemma C2_unbounded_counterexample :
  ~ (exists bound : nat,
       forall raw msg,
         reply_text msg
         ∈ (download_and_send_audio 7 "u" "Imagine" "John Lennon" None true
              (env_exit 1 "" raw (Dir []))).2 ->
         (Py.len msg <= bound)%nat).
Proof.
  intros [bound H].
  specialize (H (many_x bound) (msg_failed (many_x bound))).
  rewrite (tool_failure_run 7 "u" "Imagine" "John Lennon" None true
             (env_exit 1 "" (many_x bound) (Dir [])) 200000 12000000 (many_x bound))
    in H; try done; [|apply many_x_decodes].
  assert (Py.len (msg_failed (many_x bound)) <= bound)%nat as Hle.
  { apply H. simpl. do 2 apply list_elem_of_further. apply list_elem_of_here. }
  unfold msg_failed in Hle. rewrite !len_app, many_x_len in Hle.
  change (20 + (bound + 1) <= bound)%nat in Hle. lia.
Qed.

(** C5: the download waits twice, each wait with its own limit.  A spawn
    that takes more than 5 seconds ends the download without waiting for
    the process, and the user is sent "Download setup timed out."; once the
    spawn is there in time, a process that has not ended after 60 seconds is
    killed and the user is sent "Download timed out after 60 seconds."; a
    process that ends in time is not killed and neither text is sent.  The
    text goes out as a reply to the message of the button when there is
    one, as a message to the chat otherwise, and the two texts differ. *)
Theorem C5_two_timeouts chat_id url title performer caption query_message env d :
  creation env = inr d ->
  let result :=
    download_and_send_audio chat_id url title performer caption query_message env in
  let spawn :=
    create_subprocess_exec ["spotdl"; "download"; url; "--output"; tmpdirname env]%string in
  let setup_text := "❌ Download setup timed out."%string in
  let run_text := "❌ Download timed out after 60 seconds."%string in
  CREATION_TIMEOUT = 5 * 1000000 /\ SPOTDL_TIMEOUT = 60 * 1000000
  /\ setup_text <> run_text
  /\ (CREATION_TIMEOUT < d ->
      result = (StartupTimeout,
                [spawn;
                 if query_message then reply_text setup_text
                 else send_message chat_id setup_text]))
  /\ (d <= CREATION_TIMEOUT ->
      (completion env = None
       \/ exists r, completion env = Some r /\ SPOTDL_TIMEOUT < r) ->
      result = (ExecutionTimeout,
                [spawn; communicate; kill;
                 if query_message then reply_text run_text
                 else send_message chat_id run_text]))
  /\ (d <= CREATION_TIMEOUT ->
      forall r, completion env = Some r -> r <= SPOTDL_TIMEOUT ->
      result.1 <> StartupTimeout /\ result.1 <> ExecutionTimeout
      /\ (kill ∉ result.2)
      /\ (exists rest, result.2 = spawn :: communicate :: rest)
      /\ forall text,
           reply_text text ∈ result.2 \/ send_message chat_id text ∈ result.2 ->
           text <> setup_text /\ text <> run_text).
Proof.
  intros Hc result spawn setup_text run_text.
  split; [done|]. split; [done|]. split; [done|].
  unfold result, download_and_send_audio, wait_for. rewrite Hc.
  split; [|split].
  - intros Hd. destruct (Z.leb_spec d CREATION_TIMEOUT); [lia|].
    by destruct query_message.
  - intros Hd Hrun. destruct (Z.leb_spec d CREATION_TIMEOUT); [|lia].
    destruct Hrun as [->|(r & -> & Hr)]; [by destruct query_message|].
    destruct (Z.leb_spec r SPOTDL_TIMEOUT); [lia|]. by destruct query_message.
  - intros Hd r Hr Hrt. rewrite Hr.
    destruct (Z.leb_spec d CREATION_TIMEOUT); [|lia].
    destruct (Z.leb_spec r SPOTDL_TIMEOUT); [|lia].
    destruct (negb (returncode env =? 0));
      [destruct (Py.decode (stderr env))
      |destruct (find_mp3_file (tmpdirname env) (scratch env));
       [destruct (audio_sent env)
       |destruct (Py.decode (stdout env)); [|destruct (Py.decode (stderr env))]]];
      (split; [done|]); (split; [done|]);
      (split; [destruct query_message; simpl;
               rewrite ?elem_of_cons, ?elem_of_nil; intuition congruence|]);
      (split; [by eexists|]);
      intros text; destruct query_message; simpl;
      rewrite ?elem_of_cons, ?elem_of_nil;
      intros Hin; decompose [or] Hin; try done;
      match goal with
      | H : reply_text _ = reply_text _ |- _ => injection H as ->
      | H : send_message _ _ = send_message _ _ |- _ => injection H as ->
      end; split; discriminate.
Qed.

Lemma C5_two_timeouts_witness :
  (creation (env_timing 5000001 (Some 1)) = inr 5000001
   /\ CREATION_TIMEOUT < 5000001
   /\ creation (env_timing 200000 (Some 60000001)) = inr 200000
   /\ 200000 <= CREATION_TIMEOUT
   /\ completion (env_timing 200000 (Some 60000001)) = Some 60000001
   /\ SPOTDL_TIMEOUT < 60000001)
  /\ download_and_send_audio 7 "u" "Imagine" "John Lennon" None true
       (env_timing 5000001 (Some 1))
     = (StartupTimeout,
        [create_subprocess_exec
           ["spotdl"; "download"; "u"; "--output"; "/tmp/tmpab12"]%string;
         reply_text "❌ Download setup timed out."])
  /\ download_and_send_audio 7 "u" "Imagine" "John Lennon" None false
       (env_timing 200000 (Some 60000001))
     = (ExecutionTimeout,
        [create_subprocess_exec
           ["spotdl"; "download"; "u"; "--output"; "/tmp/tmpab12"]%string;
         communicate; kill;
         send_message 7 "❌ Download timed out after 60 seconds."]).
Proof.
  assert (CREATION_TIMEOUT < 5000001) as Hd by reflexivity.
  assert (200000 <= CREATION_TIMEOUT) as Hd' by (by vm_compute).
  assert (SPOTDL_TIMEOUT < 60000001) as Hr by reflexivity.
  split; [by repeat split|]. split.
  - exact (proj1 (proj2 (proj2 (proj2
             (C5_two_timeouts 7 "u" "Imagine" "John Lennon" None true
                (env_timing 5000001 (Some 1)) 5000001 eq_refl)))) Hd).
  - exact (proj1 (proj2 (proj2 (proj2 (proj2
             (C5_two_timeouts 7 "u" "Imagine" "John Lennon" None false
                (env_timing 200000 (Some 60000001)) 200000 eq_refl))))) Hd'
             (or_intror (ex_intro _ 60000001 (conj eq_refl Hr)))).
Defined.

(** A negative index counts from the end of the results. *)
Example negative_index_ex :
  track_index_of "track_-1" = inr (-1)
  /\ Py.index twelve_tracks (-1) = inr (track_of "t11")
  /\ exists rest,
      (select_song 7 "track_-1" noon env_ok searched_imagine).2
      = answer :: edit_message_text (msg_selected "t11" "John Lennon") :: rest.
Proof. split; [reflexivity|]. split; [reflexivity|]. by eexists. Qed.

Example execution_timeout_ex :
  download_and_send_audio 7 "u" "Imagine" "John Lennon" None true
    (env_timing 200000 (Some 60000001))
  = (ExecutionTimeout,
     [create_subprocess_exec ["spotdl"; "download"; "u"; "--output"; "/tmp/tmpab12"]%string;
      communicate; kill; reply_text msg_timeout]).
Proof. reflexivity. Qed.

(** ** The search for the artifact *)

Lemma node_ind' (P : node -> Prop) :
  P File -> P DirLink ->
  (forall es, Forall (fun e => P e.2) es -> P (Dir es)) ->
  forall n, P n.
Proof.
  intros HF HL HD.
  exact (fix IH (n : node) : P n :=
           match n with
           | File => HF
           | DirLink => HL
           | Dir es =>
               HD es ((fix all (l : list (string * node))
                         : Forall (fun e => P e.2) l :=
                         match l with
                         | [] => List.Forall_nil _
                         | e :: r => List.Forall_cons _ e r (IH e.2) (all r)
                         end) es)
           end).
Qed.

Lemma walk_Dir top es :
  walk top (Dir es) = (top, dirs_of es, files_of es) :: walk_below top es.
Proof. reflexivity. Qed.

Lemma scan_app a b :
  scan (a ++ b) = match scan a with Some p => Some p | None => scan b end.
Proof.
  induction a as [|[[root ds] files] a IH]; simpl; [done|].
  destruct (first_mp3 root files); [done|apply IH].
Qed.

Lemma first_mp3_none root files :
  first_mp3 root files = None <-> forall f, f ∈ files -> is_mp3 f = false.
Proof.
  induction files as [|f r IH]; simpl.
  - split; [|done]. intros _ f Hf. by apply elem_of_nil in Hf.
  - destruct (is_mp3 f) eqn:E.
    + split; [done|]. intros H.
      specialize (H f ltac:(apply list_elem_of_here)). congruence.
    + rewrite IH. split.
      * intros H g Hg. apply elem_of_cons in Hg as [->|Hg]; [done|by apply H].
      * intros H g Hg. apply H. by apply list_elem_of_further.
Qed.

Lemma elem_of_files_of f es : f ∈ files_of es <-> (f, File) ∈ es.
Proof.
  unfold files_of. rewrite list_elem_of_fmap. split.
  - intros ([g n] & -> & Hin). apply list_elem_of_filter in Hin as [Hd Hin].
    simpl in *. by destruct n.
  - intros Hin. exists (f, File). split; [done|]. by apply list_elem_of_filter.
Qed.

Lemma find_mp3_file_none n :
  forall top, find_mp3_file top n = None <-> ~ holds_mp3 n.
Proof.
  unfold find_mp3_file. induction n as [| |es IH] using node_ind'; intros top.
  - split; [|done]. intros _ H. inversion H.
  - split; [|done]. intros _ H. inversion H.
  - assert (forall top', scan (walk_below top' es) = None
                         <-> forall d c, (d, c) ∈ es -> ~ holds_mp3 c) as Hbelow.
    { clear top. induction IH as [|[d c] es Hc _ IHes]; intros top'.
      - split; [|done]. intros _ d c Hin. by apply elem_of_nil in Hin.
      - change (walk_below top' ((d, c) :: es))
          with (walk (path_join top' d) c ++ walk_below top' es).
        rewrite scan_app. simpl in Hc.
        destruct (scan (walk (path_join top' d) c)) eqn:E.
        + split; [done|]. intros H. exfalso.
          assert (scan (walk (path_join top' d) c) = None) as E'.
          { apply Hc. apply (H d c). apply list_elem_of_here. }
          congruence.
        + rewrite IHes. split.
          * intros H d' c' Hin. apply elem_of_cons in Hin as [Heq|Hin].
            -- inversion Heq; subst. by apply (Hc (path_join top' d)).
            -- by apply (H d' c').
          * intros H d' c' Hin. apply (H d' c'). by apply list_elem_of_further. }
    rewrite walk_Dir. simpl.
    destruct (first_mp3 top (files_of es)) eqn:Ef.
    + split; [done|]. intros Hno. exfalso.
      assert (first_mp3 top (files_of es) = None) as Ef'; [|congruence].
      apply first_mp3_none. intros f Hf. destruct (is_mp3 f) eqn:Em; [|done].
      exfalso. apply Hno. apply (holds_here es f); [|done].
      by apply elem_of_files_of.
    + rewrite Hbelow. split.
      * intros Hall Hh. inversion Hh as [es' f Hin Hm|es' d sub Hin Hsub]; subst.
        -- pose proof (proj1 (first_mp3_none top (files_of es)) Ef f) as Hf.
           rewrite Hf in Hm; [done|]. by apply elem_of_files_of.
        -- by apply (Hall d (Dir sub)).
      * intros Hno d c Hin Hc. apply Hno.
        destruct c as [|sub|]; [inversion Hc| |inversion Hc].
        by apply (holds_below es d sub).
Qed.

Lemma first_mp3_head root files :
  first_mp3 root files
  = head (path_join root <$> filter (fun f => is_mp3 f = true) files).
Proof.
  induction files as [|f r IH]; simpl; [done|].
  rewrite filter_cons. destruct (is_mp3 f) eqn:E.
  - by rewrite decide_True.
  - by rewrite decide_False.
Qed.

(** The file returned is the first one with an MP3 name that the walk
    meets, at whatever depth. *)
Lemma find_mp3_file_first top n : find_mp3_file top n = head (mp3_paths top n).
Proof.
  unfold find_mp3_file, mp3_paths. induction (walk top n) as [|[[root ds] files] l IH];
    simpl; [done|].
  rewrite first_mp3_head.
  destruct (path_join root <$> filter (fun f => is_mp3 f = true) files) as [|p ps];
    simpl; [apply IH|done].
Qed.

Example nested_scratch_ex :
  find_mp3_file "/tmp/tmpab12" nested_scratch
  = Some "/tmp/tmpab12/output/sub/track.mp3"%string
  /\ (download_and_send_audio 7 "u" "Imagine" "John Lennon" None true
        (env_exit 0 "" "" nested_scratch)).1
     = Delivered "/tmp/tmpab12/output/sub/track.mp3".
Proof. split; reflexivity. Qed.

Example upper_case_ex :
  find_mp3_file "/tmp/t" (Dir [("a.txt"%string, File); ("x.mp3"%string, Dir []);
                               ("B.MP3"%string, File); ("c.mp3"%string, File)])
  = Some "/tmp/t/B.MP3"%string.
Proof. reflexivity. Qed.

(** With output streams that decode, a process that ended in time with
    status 0 is reported as having left no artifact exactly when no file
    under the scratch directory has an MP3 name. *)
Lemma artifact_missing_iff chat_id url title performer caption query_message env d r :
  creation env = inr d -> d <= CREATION_TIMEOUT ->
  completion env = Some r -> r <= SPOTDL_TIMEOUT ->
  returncode env = 0 ->
  Py.decode (stdout env) = inr (stdout env) ->
  Py.decode (stderr env) = inr (stderr env) ->
  (download_and_send_audio chat_id url title performer caption query_message env).1
  = ArtifactMissing
  <-> ~ holds_mp3 (scratch env).
Proof.
  intros Hc Hd Hr Hrt Hcode Hout Herr.
  rewrite <- (find_mp3_file_none (scratch env) (tmpdirname env)).
  unfold download_and_send_audio, wait_for. rewrite Hc, Hr, Hcode, Hout, Herr.
  destruct (Z.leb_spec d CREATION_TIMEOUT); [|lia].
  destruct (Z.leb_spec r SPOTDL_TIMEOUT); [|lia]. simpl.
  destruct (find_mp3_file (tmpdirname env) (scratch env)); [|done].
  by destruct (audio_sent env).
Qed.

(** C6 (where the code departs from it): a process that ends in time with
    status 0 and leaves no file at all, but whose output is not UTF-8, is
    not reported as having left no artifact: decoding the output for the
    log raises, and the user gets the generic error message. *)
Theorem C6_artifact_missing_lost :
  let env := env_exit 0 latin1_output "" (Dir []) in
  returncode env = 0
  /\ ~ holds_mp3 (scratch env)
  /\ find_mp3_file (tmpdirname env) (scratch env) = None
  /\ download_and_send_audio 7 "u" "Imagine" "John Lennon" None true env
     = (Failed (Py.UnicodeDecodeError latin1_output 6 7 "unexpected end of data"),
        [create_subprocess_exec (command_of "u" env); communicate;
         reply_text
           "⚠️ Error occurred: 'utf-8' codec can't decode byte 0xe9 in position 6: unexpected end of data"])
  /\ (download_and_send_audio 7 "u" "Imagine" "John Lennon" None true env).1
     <> ArtifactMissing.
Proof.
  simpl. split; [done|]. split; [|split; [done|split; [done|]]].
  - apply (find_mp3_file_none _ "/tmp/tmpab12"). reflexivity.
  - vm_compute. discriminate.
Qed.

(** ** Printing and reading an index *)

Lemma append_assoc (a b c : string) : (a +:+ b) +:+ c = a +:+ (b +:+ c).
Proof.
  induction a as [|x a IH]; [done|].
  change (String x ((a +:+ b) +:+ c) = String x (a +:+ (b +:+ c))). by f_equal.
Qed.

Lemma pretty_N_go_app x : forall s, pretty_N_go x s = pretty_N_go x "" +:+ s.
Proof.
  induction (N.lt_wf_0 x) as [x _ IH]; intros s.
  assert (x = 0 \/ 0 < x)%N as [->|Hx] by lia.
  - by rewrite !pretty_N_go_0.
  - rewrite (pretty_N_go_step x s), (pretty_N_go_step x "") by done.
    set (c := pretty_N_char (x `mod` 10)).
    rewrite (IH (x `div` 10)%N ltac:(by apply N.div_lt) (String c s)).
    rewrite (IH (x `div` 10)%N ltac:(by apply N.div_lt) (String c "")).
    by rewrite append_assoc.
Qed.

Lemma pretty_N_char_digit y : Py.ascii_digit (N_of_ascii (pretty_N_char y)) = true.
Proof. unfold pretty_N_char. by repeat case_match. Qed.

Lemma pretty_N_char_value y :
  (y < 10)%N -> (N_of_ascii (pretty_N_char y) - 48 = y)%N.
Proof.
  intros Hy.
  assert (y = 0 \/ y = 1 \/ y = 2 \/ y = 3 \/ y = 4 \/ y = 5 \/ y = 6 \/ y = 7
          \/ y = 8 \/ y = 9)%N as H by lia.
  repeat (destruct H as [->|H]; [reflexivity|]). by subst.
Qed.

(** The value and the length of a run of ASCII digits read after [acc]. *)
Lemma scan_digits_app acc n l1 l2 :
  Forall (fun b => Py.ascii_digit b = true) l1 ->
  Py.scan_digits acc n false (l1 ++ l2)
  = Py.scan_digits (foldl (fun a b => 10 * a + Z.of_N (b - 48)) acc l1)
      (n + N.of_nat (length l1)) false l2.
Proof.
  intros H. revert acc n. induction H as [|b l1 Hb _ IH]; intros acc n.
  - simpl. by rewrite N.add_0_r.
  - replace (n + N.of_nat (length (b :: l1)))%N
      with (n + 1 + N.of_nat (length l1))%N by (simpl length; lia).
    cbn [Py.scan_digits app foldl]. by rewrite Hb, IH.
Qed.

Lemma pretty_N_go_all_digits x :
  Forall (fun b => Py.ascii_digit b = true) (Py.bytes_of (pretty_N_go x "")).
Proof.
  induction (N.lt_wf_0 x) as [x _ IH].
  destruct (N.eq_0_gt_0_cases x) as [->|Hx]; [constructor|].
  rewrite pretty_N_go_step, pretty_N_go_app, bytes_of_app by done.
  apply Forall_app. split; [by apply IH, N.div_lt|].
  constructor; [apply pretty_N_char_digit|constructor].
Qed.

Lemma pretty_N_go_value x :
  foldl (fun a b => 10 * a + Z.of_N (b - 48)) 0 (Py.bytes_of (pretty_N_go x ""))
  = Z.of_N x.
Proof.
  induction (N.lt_wf_0 x) as [x _ IH].
  destruct (N.eq_0_gt_0_cases x) as [->|Hx]; [done|].
  rewrite pretty_N_go_step, pretty_N_go_app, bytes_of_app, foldl_app by done.
  rewrite IH by (by apply N.div_lt).
  change (Py.bytes_of (String ?c "")) with [N_of_ascii c]. simpl.
  rewrite pretty_N_char_value by (by apply N.mod_lt).
  pose proof (N.div_mod x 10 ltac:(done)). lia.
Qed.

Lemma pretty_N_go_head x :
  (0 < x)%N ->
  exists b l, Py.ascii_digit b = true /\ Py.bytes_of (pretty_N_go x "") = b :: l.
Proof.
  intros Hx. pose proof (pretty_N_go_all_digits x) as Hall.
  destruct (Py.bytes_of (pretty_N_go x "")) as [|b l] eqn:E.
  - pose proof (pretty_N_go_value x) as Hv. rewrite E in Hv. simpl in Hv. lia.
  - apply Forall_cons in Hall as [Hb _]. by eexists _, _.
Qed.

Lemma utf8_decode_ascii l pos :
  Forall (fun b => (b < 128)%N) l -> Py.utf8_decode pos l = inr l.
Proof.
  intros H. revert pos. induction H as [|b l Hb _ IH]; intros pos; [done|].
  simpl. destruct (N.ltb_spec b 128); [|lia]. by rewrite IH.
Qed.

Lemma ascii_digit_cases b :
  Py.ascii_digit b = true ->
  (b = 48 \/ b = 49 \/ b = 50 \/ b = 51 \/ b = 52 \/ b = 53 \/ b = 54 \/ b = 55
   \/ b = 56 \/ b = 57)%N.
Proof.
  unfold Py.ascii_digit. intros H. apply andb_true_iff in H as [H1 H2].
  apply N.leb_le in H1, H2. lia.
Qed.

Lemma to_ascii_ascii l :
  Forall (fun b => (b < 128)%N) l -> Py.to_ascii l = l.
Proof.
  intros H. unfold Py.to_ascii.
  assert (forallb (fun cp => (cp <? 128)%N) l = true) as ->; [|done].
  apply forallb_forall. intros c Hc. apply N.ltb_lt.
  rewrite Forall_forall in H. apply H. by apply list_elem_of_In.
Qed.

Lemma parse_long_digits b r :
  Forall (fun b => Py.ascii_digit b = true) (b :: r) ->
  (N.of_nat (length (b :: r)) <= Py.int_max_str_digits)%N ->
  Py.parse_long (b :: r)
  = inr (foldl (fun a b => 10 * a + Z.of_N (b - 48)) 0 (b :: r))
  /\ Py.parse_long (45%N :: b :: r)
     = inr (- foldl (fun a b => 10 * a + Z.of_N (b - 48)) 0 (b :: r)).
Proof.
  intros Hall Hlen.
  pose proof (scan_digits_app 0 0 (b :: r) [] Hall) as Hscan.
  rewrite app_nil_r, N.add_0_l in Hscan.
  change (Py.scan_digits ?v ?n false []) with (Some (v, n, @nil N)) in Hscan.
  assert (forall sign,
    match Py.scan_digits 0 0 false (b :: r) with
    | Some (value, digits, rest) =>
        if (Py.int_max_str_digits <? digits)%N then inl (Some digits)
        else match Py.skip_space rest with
             | [] => inr (sign * value)
             | _ => inl None
             end
    | None => inl None
    end = inr (sign * foldl (fun a b => 10 * a + Z.of_N (b - 48)) 0 (b :: r)))
    as Hbody.
  { intros sign. rewrite Hscan.
    by destruct (N.ltb_spec Py.int_max_str_digits (N.of_nat (length (b :: r))));
      [lia|]. }
  apply Forall_cons in Hall as [Hb _]. apply ascii_digit_cases in Hb.
  split.
  - rewrite <- (Z.mul_1_l (foldl _ 0 (b :: r))), <- (Hbody 1).
    repeat (destruct Hb as [->|Hb]; [reflexivity|]). by subst b.
  - rewrite Z.opp_eq_mul_m1, Z.mul_comm, <- (Hbody (-1)).
    repeat (destruct Hb as [->|Hb]; [reflexivity|]). by subst b.
Qed.

(** [int] on a run of ASCII digits within the limit, with or without a
    minus before it. *)
Lemma int_of_digits (s : string) b l :
  Py.bytes_of s = b :: l ->
  Forall (fun b => Py.ascii_digit b = true) (Py.bytes_of s) ->
  (N.of_nat (length (Py.bytes_of s)) <= Py.int_max_str_digits)%N ->
  Py.int s = inr (foldl (fun a b => 10 * a + Z.of_N (b - 48)) 0 (Py.bytes_of s))
  /\ Py.int ("-" +:+ s)
     = inr (- foldl (fun a b => 10 * a + Z.of_N (b - 48)) 0 (Py.bytes_of s)).
Proof.
  intros Hh Hall Hlen.
  assert (Forall (fun b => (b < 128)%N) (Py.bytes_of s)) as Hascii.
  { eapply Forall_impl; [exact Hall|]. intros c Hc. apply ascii_digit_cases in Hc. lia. }
  rewrite Hh in Hall, Hlen.
  destruct (parse_long_digits b l Hall Hlen) as [Hplus Hminus].
  unfold Py.int. change (Py.bytes_of ("-" +:+ s)) with (45%N :: Py.bytes_of s).
  rewrite !utf8_decode_ascii by (repeat constructor; done).
  rewrite !to_ascii_ascii by (repeat constructor; done).
  rewrite Hh. by rewrite Hplus, Hminus.
Qed.

(** A number below [10 ^ k] prints on at most [k] digits. *)
Lemma pretty_N_go_length (k : nat) x :
  (x < 10 ^ N.of_nat k)%N ->
  (length (Py.bytes_of (pretty_N_go x "")) <= k)%nat.
Proof.
  revert x. induction k as [|k IH]; intros x Hx.
  - assert (x = 0%N) as -> by (change (10 ^ N.of_nat 0)%N with 1%N in Hx; lia).
    by rewrite pretty_N_go_0.
  - destruct (N.eq_0_gt_0_cases x) as [->|Hpos]; [rewrite pretty_N_go_0; simpl; lia|].
    rewrite pretty_N_go_step, pretty_N_go_app, bytes_of_app, length_app by done.
    assert (x `div` 10 < 10 ^ N.of_nat k)%N as Hdiv.
    { apply N.Div0.div_lt_upper_bound.
      rewrite Nat2N.inj_succ, N.pow_succ_r' in Hx. exact Hx. }
    specialize (IH _ Hdiv). simpl. lia.
Qed.

(** Within the limit of [int_max_str_digits] digits, [int] reads back
    what was printed. *)
Lemma int_pretty (z : Z) : Z.abs z < 10 ^ 4300 -> Py.int (pretty z) = inr z.
Proof.
  intros Hz.
  assert (forall p,
            Z.pos p < 10 ^ 4300 ->
            (N.of_nat (length (Py.bytes_of (pretty_N_go (N.pos p) "")))
             <= Py.int_max_str_digits)%N) as Hlen.
  { intros p Hp.
    assert (N.pos p < 10 ^ N.of_nat (N.to_nat 4300))%N as Hn.
    { rewrite N2Nat.id. apply N2Z.inj_lt. rewrite N2Z.inj_pow. exact Hp. }
    apply pretty_N_go_length in Hn. unfold Py.int_max_str_digits. lia. }
  destruct z as [|p|p]; [done|..].
  - unfold pretty, pretty_Z, pretty, pretty_positive, pretty, pretty_N.
    rewrite decide_False by done.
    destruct (pretty_N_go_head (N.pos p) ltac:(done)) as (b & l & Hb & Hh).
    rewrite (proj1 (int_of_digits _ b l Hh (pretty_N_go_all_digits _) (Hlen p Hz))).
    by rewrite pretty_N_go_value.
  - unfold pretty, pretty_Z, pretty, pretty_positive, pretty, pretty_N.
    rewrite decide_False by done.
    destruct (pretty_N_go_head (N.pos p) ltac:(done)) as (b & l & Hb & Hh).
    rewrite (proj2 (int_of_digits _ b l Hh (pretty_N_go_all_digits _) (Hlen p Hz))).
    by rewrite pretty_N_go_value.
Qed.

(** The length of a list that Python can hold, [sys.maxsize] at most, is
    far within that limit. *)
Lemma list_index_within_limit (n i : Z) :
  n < 2 ^ 63 -> Z.abs i <= n + 5 -> Z.abs i < 10 ^ 4300.
Proof.
  intros Hn Hi. apply Z.le_lt_trans with (2 ^ 63 + 5); [lia|].
  vm_compute. reflexivity.
Qed.

Lemma pretty_N_go_bytes (P : N -> Prop) x :
  (forall y, P (N_of_ascii (pretty_N_char y))) ->
  forall s, Forall P (Py.bytes_of s) -> Forall P (Py.bytes_of (pretty_N_go x s)).
Proof.
  intros HP. induction (N.lt_wf_0 x) as [x _ IH]; intros s Hs.
  destruct (N.eq_0_gt_0_cases x) as [->|Hx]; [by rewrite pretty_N_go_0|].
  rewrite pretty_N_go_step by done. apply IH; [by apply N.div_lt|].
  by constructor.
Qed.

Lemma pretty_no_underscore (z : Z) :
  Forall (fun b => b <> 95%N) (Py.bytes_of (pretty z)).
Proof.
  assert (forall y, N_of_ascii (pretty_N_char y) <> 95%N) as Hc.
  { intros y. unfold pretty_N_char. by repeat case_match. }
  assert (forall x : N, Forall (fun b => b <> 95%N) (Py.bytes_of (pretty x))) as HN.
  { intros x. unfold pretty, pretty_N. case_decide.
    - by repeat constructor.
    - apply pretty_N_go_bytes; [done|constructor]. }
  destruct z as [|p|p]; [by repeat constructor|apply HN|].
  change (pretty (Z.neg p)) with ("-" +:+ pretty (N.pos p)).
  constructor; [done|apply HN].
Qed.

Lemma split_no_underscore s :
  Forall (fun b => b <> 95%N) (Py.bytes_of s) -> Py.split_underscore s = [s].
Proof.
  induction s as [|c s IH]; [done|]. intros H.
  apply Forall_cons in H as [Hc Hs]. simpl.
  destruct (Ascii.eqb_spec c "_") as [->|_]; [done|]. by rewrite IH.
Qed.

Lemma track_index_of_pretty (idx : Z) :
  Z.abs idx < 10 ^ 4300 ->
  track_index_of ("track_" +:+ pretty idx) = inr idx.
Proof.
  intros Hidx. unfold track_index_of.
  assert (Py.split_underscore ("track_" +:+ pretty idx) = ["track"; pretty idx]%string)
    as ->.
  { change (Py.split_underscore ("track_" +:+ pretty idx))
      with ("track"%string :: Py.split_underscore (pretty idx)).
    by rewrite split_no_underscore by apply pretty_no_underscore. }
  change (Py.index ["track"%string; pretty idx] 1) with (@inr Py.exn _ (pretty idx)).
  by apply int_pretty.
Qed.

(** Beyond the limit nothing is read back: the index of 4301 digits. *)
Example digit_limit_ex :
  track_index_of ("track_" +:+ pretty (10 ^ 4300)) = inl (Py.ValueError_digits 4301)
  /\ Py.exn_str (Py.ValueError_digits 4301)
     = "Exceeds the limit (4300 digits) for integer string conversion: value has 4301 digits; use sys.set_int_max_str_digits() to increase the limit"%string.
Proof. split; vm_compute; reflexivity. Qed.

(** X1: the data put on a track button reads back as the index the button
    was made for, for every index of at most 4300 digits, the most that
    [int] converts. *)
Theorem X1_button_index_round_trip (idx : Z) (track : Track) :
  Z.abs idx < 10 ^ 4300 ->
  track_index_of (callback_data (track_button idx track)) = inr idx.
Proof. apply track_index_of_pretty. Qed.

Lemma X1_button_index_round_trip_witness :
  Z.abs (-49) < 10 ^ 4300
  /\ track_index_of (callback_data (track_button (-49) (track_of "t0"))) = inr (-49).
Proof.
  assert (Z.abs (-49) < 10 ^ 4300) as H by (vm_compute; reflexivity).
  split; [exact H|]. exact (X1_button_index_round_trip (-49) (track_of "t0") H).
Defined.

(** ** Pages *)

Lemma slice_nonneg {A} (l : list A) (a b : Z) :
  0 <= a <= b ->
  Py.slice l a b = take (Z.to_nat (b - a)) (drop (Z.to_nat a) l).
Proof.
  intros Hab. unfold Py.slice.
  destruct (Z.ltb_spec a 0); [lia|]. destruct (Z.ltb_spec b 0); [lia|].
  destruct (Z.le_gt_cases (Z.of_nat (length l)) a) as [Hge|Hlt].
  - rewrite !drop_ge by lia. by rewrite !take_nil.
  - rewrite (Z.min_l a) by lia.
    destruct (Z.le_gt_cases b (Z.of_nat (length l))) as [Hb|Hb].
    + by rewrite (Z.min_l b) by lia.
    + rewrite (Z.min_r b) by lia.
      rewrite !take_ge; [done|..]; rewrite length_drop; lia.
Qed.

Lemma page_window_chunk tracks page :
  1 <= page ->
  page_window tracks page = take 5 (drop (5 * Z.to_nat (page - 1)) tracks).
Proof.
  intros Hp. unfold page_window, ITEMS_PER_PAGE. rewrite slice_nonneg by lia.
  f_equal; [lia|f_equal; lia].
Qed.

Lemma page_window_lookup tracks page (k : nat) track :
  1 <= page ->
  page_window tracks page !! k = Some track ->
  (k < 5)%nat
  /\ tracks !! Z.to_nat ((page - 1) * ITEMS_PER_PAGE + Z.of_nat k) = Some track.
Proof.
  intros Hp. rewrite page_window_chunk by done. intros H.
  apply lookup_take_Some in H as [H Hk]. rewrite lookup_drop in H.
  split; [done|]. rewrite <- H. f_equal. unfold ITEMS_PER_PAGE. lia.
Qed.

Lemma index_lookup {A} (l : list A) (i : Z) x :
  0 <= i -> l !! Z.to_nat i = Some x -> Py.index l i = inr x.
Proof.
  intros Hi Hl. unfold Py.index. pose proof (lookup_lt_Some _ _ _ Hl).
  destruct (Z.ltb_spec i 0); [lia|]. destruct (Z.leb_spec 0 i); [|lia].
  destruct (Z.ltb_spec i (Z.of_nat (length l))); [|lia]. simpl. by rewrite Hl.
Qed.

Lemma track_rows_lookup start l (k : nat) track :
  l !! k = Some track ->
  track_rows start l !! k = Some [track_button (start + Z.of_nat k) track].
Proof.
  revert start k. induction l as [|t l IH]; intros start k; [done|].
  destruct k as [|k]; simpl.
  - intros [= ->]. do 3 f_equal. lia.
  - intros H. rewrite (IH (start + 1) k H). do 3 f_equal. lia.
Qed.

(** What [select_song] does once the cooldown test is passed and the index
    names a track. *)
Lemma select_song_downloads st chat_id tracks data now env i track :
  search_results st !! chat_id = Some tracks ->
  DOWNLOAD_COOLDOWN <= now - last_download_at st chat_id ->
  track_index_of data = inr i ->
  Py.index tracks i = inr track ->
  (select_song chat_id data now env st).2
  = answer
    :: edit_message_text (msg_selected (name track) (join_comma (artists track)))
    :: (download_and_send_audio chat_id (spotify_url track) (name track)
          (join_comma (artists track)) None true env).2.
Proof.
  intros Hs Hcd Hi Ht.
  destruct (cooldown_allowed st chat_id now Hcd) as (st' & Hc & _ & _ & Hs' & _).
  unfold select_song. rewrite Hc, Hs', Hs, Hi, Ht.
  by destruct (download_and_send_audio _ _ _ _ _ _ _).
Qed.

(** X2: every track button of a page that [display_search_results] puts up
    selects the track it is made for: pressed while the stored results are
    still those of that page (and the cooldown over), it announces that
    track and starts the download of its URL.  The results are a list as
    Python holds them, of [sys.maxsize] elements at most. *)
Theorem X2_button_selects_its_track st chat_id query page renv tracks (k : nat)
    track now env :
  response renv = Found tracks -> tracks <> [] ->
  Z.of_nat (length tracks) < 2 ^ 63 ->
  let total_pages := total_pages_of (Z.of_nat (length tracks)) in
  let shown := clamp_page page total_pages in
  let st' := (display_search_results chat_id query page renv st).1 in
  let pressed := track_button ((shown - 1) * ITEMS_PER_PAGE + Z.of_nat k) track in
  page_window tracks shown !! k = Some track ->
  DOWNLOAD_COOLDOWN <= now - last_download_at st' chat_id ->
  (exists kb,
     send_keyboard chat_id msg_choose kb
     ∈ (display_search_results chat_id query page renv st).2
     /\ kb !! k = Some [pressed])
  /\ (select_song chat_id (callback_data pressed) now env st').2
     = answer
       :: edit_message_text (msg_selected (name track) (join_comma (artists track)))
       :: (download_and_send_audio chat_id (spotify_url track) (name track)
             (join_comma (artists track)) None true env).2.
Proof.
  intros Hr Hne Hsize total_pages shown st' pressed Hk Hcd.
  destruct (display_successful chat_id query page renv st tracks Hr Hne)
    as (Hs & _ & _ & _ & _ & Hin).
  assert (1 <= shown) as Hshown by (unfold shown, clamp_page; lia).
  split.
  - eexists. split; [exact Hin|]. unfold keyboard_of.
    rewrite lookup_app_l.
    + apply track_rows_lookup. exact Hk.
    + apply lookup_lt_Some in Hk.
      assert (forall s l, length (track_rows s l) = length l) as Hlen.
      { intros s l. revert s. induction l as [|t l IH]; intros s; simpl; [done|].
        by rewrite IH. }
      by rewrite Hlen.
  - destruct (page_window_lookup tracks shown k track Hshown Hk) as [Hk5 Hl].
    pose proof (lookup_lt_Some _ _ _ Hl) as Hlt.
    eapply select_song_downloads; [|done|apply track_index_of_pretty|].
    + fold st'. unfold st'. rewrite Hs. apply lookup_insert_eq.
    + apply (list_index_within_limit (Z.of_nat (length tracks))); [done|].
      unfold ITEMS_PER_PAGE in *. lia.
    + apply index_lookup; [unfold ITEMS_PER_PAGE; lia|done].
Qed.

Lemma X2_button_selects_its_track_witness :
  (response (render_of twelve_tracks) = Found twelve_tracks
   /\ twelve_tracks <> []
   /\ Z.of_nat (length twelve_tracks) < 2 ^ 63
   /\ page_window twelve_tracks
        (clamp_page 1 (total_pages_of (Z.of_nat (length twelve_tracks)))) !! 2%nat
      = Some (track_of "t2")
   /\ DOWNLOAD_COOLDOWN
      <= noon - last_download_at
                  (display_search_results 7 "Imagine" 1 (render_of twelve_tracks)
                     empty_store).1 7)
  /\ (select_song 7 "track_2" noon env_ok
        (display_search_results 7 "Imagine" 1 (render_of twelve_tracks)
           empty_store).1).2
     = answer
       :: edit_message_text (msg_selected "t2" "John Lennon")
       :: (download_and_send_audio 7 (spotify_url (track_of "t2")) "t2"
             "John Lennon" None true env_ok).2.
Proof.
  assert (twelve_tracks <> []) as H2 by discriminate.
  assert (Z.of_nat (length twelve_tracks) < 2 ^ 63) as Hsize
      by (vm_compute; reflexivity).
  assert (page_window twelve_tracks
            (clamp_page 1 (total_pages_of (Z.of_nat (length twelve_tracks)))) !! 2%nat
          = Some (track_of "t2")) as H3 by (vm_compute; reflexivity).
  assert (DOWNLOAD_COOLDOWN
          <= noon - last_download_at
                      (display_search_results 7 "Imagine" 1 (render_of twelve_tracks)
                         empty_store).1 7) as H4 by (vm_compute; discriminate).
  split; [exact (conj eq_refl (conj H2 (conj Hsize (conj H3 H4))))|].
  exact (proj2 (X2_button_selects_its_track empty_store 7 "Imagine" 1
                  (render_of twelve_tracks) twelve_tracks 2 (track_of "t2") noon env_ok
                  eq_refl H2 Hsize H3 H4)).
Defined.

Lemma chunks_concat {A} (l : list A) (n j : nat) :
  concat ((fun i : nat => take 5 (drop (5 * i) l)) <$> seq j n)
  = take (5 * n) (drop (5 * j) l).
Proof.
  revert j. induction n as [|n IH]; intros j; simpl seq; [by rewrite Nat.mul_0_r|].
  rewrite fmap_cons. cbn [concat]. rewrite IH.
  replace (5 * S j)%nat with (5 * j + 5)%nat by lia.
  rewrite <- drop_drop, take_take_drop. f_equal. lia.
Qed.

(** X3: the pages cut the results without overlap and without loss: the
    windows of pages 1 to the last, one after the other, are the results;
    and when there are results every page from 1 to the last holds between
    one and five tracks. *)
Theorem X3_pages_partition (tracks : list Track) :
  let N := Z.of_nat (length tracks) in
  let total_pages := total_pages_of N in
  concat ((fun i : nat => page_window tracks (Z.of_nat (S i)))
          <$> seq 0 (Z.to_nat total_pages)) = tracks
  /\ (forall page,
        1 <= N -> 1 <= page <= total_pages ->
        Z.of_nat (length (page_window tracks page))
        = Z.min 5 (N - 5 * (page - 1))
        /\ (1 <= length (page_window tracks page) <= 5)%nat).
Proof.
  intros N total_pages.
  assert (N <= 5 * total_pages /\ (1 <= N -> 5 * (total_pages - 1) < N)) as [Hle Hlt].
  { destruct (Z.le_gt_cases 1 N) as [HN|HN].
    - destruct (total_pages_ceiling N HN) as [_ H]. fold total_pages in H. lia.
    - unfold total_pages, total_pages_of. lia. }
  split.
  - erewrite list_fmap_ext; [rewrite chunks_concat|].
    + rewrite drop_0. apply take_ge. lia.
    + intros i x _. rewrite page_window_chunk by lia. do 3 f_equal. lia.
  - intros page HN Hp. rewrite page_window_chunk by lia.
    rewrite length_take, length_drop. lia.
Qed.

Lemma X3_pages_partition_witness :
  (1 <= Z.of_nat (length twelve_tracks)
   /\ 1 <= 3 <= total_pages_of (Z.of_nat (length twelve_tracks)))
  /\ Z.of_nat (length (page_window twelve_tracks 3))
     = Z.min 5 (Z.of_nat (length twelve_tracks) - 5 * (3 - 1))
  /\ (1 <= length (page_window twelve_tracks 3) <= 5)%nat.
Proof.
  assert (1 <= Z.of_nat (length twelve_tracks)) as H1 by (vm_compute; discriminate).
  assert (1 <= 3 <= total_pages_of (Z.of_nat (length twelve_tracks))) as H2
      by (split; vm_compute; discriminate).
  split; [exact (conj H1 H2)|].
  exact (proj2 (X3_pages_partition twelve_tracks) 3 H1 H2).
Defined.

(** ** Turning pages *)

Lemma handle_pagination_found st chat_id page query data env fresh :
  current_page st !! chat_id = Some page ->
  queries st !! chat_id = Some query ->
  response env = Found fresh -> fresh <> [] ->
  let old := default [] (search_results st !! chat_id) in
  let target := clamp_page (moved data page) (total_pages_of (Z.of_nat (length old))) in
  let total_pages := total_pages_of (Z.of_nat (length fresh)) in
  let st' := (handle_pagination chat_id data env st).1 in
  search_results st' !! chat_id = Some fresh
  /\ current_page st' !! chat_id = Some target
  /\ queries st' !! chat_id = Some query
  /\ send_keyboard chat_id msg_choose
       (keyboard_of fresh (clamp_page target total_pages) total_pages)
     ∈ (handle_pagination chat_id data env st).2.
Proof.
  intros Hp Hq Hr Hne old target total_pages st'. unfold st'.
  rewrite (handle_pagination_unfold st chat_id page query data env Hp Hq). simpl.
  fold old. fold target.
  destruct (display_successful chat_id query target env
              (with_current_page st (<[chat_id := target]> (current_page st)))
              fresh Hr Hne) as (-> & -> & -> & _ & _ & Hin).
  rewrite !lookup_insert_eq. repeat split; try done.
  by apply list_elem_of_further.
Qed.

Lemma moved_prev page : moved "prev_page" page = page - 1.
Proof. reflexivity. Qed.

Lemma moved_next page : moved "next_page" page = page + 1.
Proof. reflexivity. Qed.

(** X4: a navigation button that is on the page does move the page: with
    the stored page between 1 and the last page of the stored results, the
    Back button is there only from page 2 on and stores the page before, the
    Next button only before the last page and stores the page after; the
    clamp never has to act, and both buttons are routed to
    [handle_pagination]. *)
Theorem X4_nav_button_moves st chat_id tracks page query env b :
  search_results st !! chat_id = Some tracks ->
  current_page st !! chat_id = Some page ->
  queries st !! chat_id = Some query ->
  let total_pages := total_pages_of (Z.of_nat (length tracks)) in
  1 <= page <= total_pages ->
  b ∈ nav_buttons page total_pages ->
  let st' := (handle_pagination chat_id (callback_data b) env st).1 in
  route_callback (callback_data b) = to_handle_pagination
  /\ ((callback_data b = "prev_page"%string /\ 1 <= page - 1
       /\ current_page st' !! chat_id = Some (page - 1))
      \/ (callback_data b = "next_page"%string /\ page + 1 <= total_pages
          /\ current_page st' !! chat_id = Some (page + 1))).
Proof.
  intros Hs Hp Hq total_pages Hrange Hb st'.
  pose proof (handle_pagination_page st chat_id page query (callback_data b) env Hp Hq)
    as Hpage.
  simpl in Hpage. rewrite Hs in Hpage. simpl in Hpage.
  fold total_pages in Hpage. fold st' in Hpage.
  unfold nav_buttons in Hb. apply elem_of_app in Hb as [Hb|Hb].
  - destruct (Z.ltb_spec 1 page); [|by apply elem_of_nil in Hb].
    apply list_elem_of_singleton in Hb. subst b. simpl in *.
    split; [done|]. left. split; [done|]. split; [lia|].
    rewrite Hpage, moved_prev. f_equal. unfold clamp_page. lia.
  - destruct (Z.ltb_spec page total_pages); [|by apply elem_of_nil in Hb].
    apply list_elem_of_singleton in Hb. subst b. simpl in *.
    split; [done|]. right. split; [done|]. split; [lia|].
    rewrite Hpage, moved_next. f_equal. unfold clamp_page. lia.
Qed.

Lemma X4_nav_button_moves_witness :
  (search_results searched_imagine !! 7 = Some twelve_tracks
   /\ current_page searched_imagine !! 7 = Some 1
   /\ queries searched_imagine !! 7 = Some "Imagine"%string
   /\ 1 <= 1 <= total_pages_of (Z.of_nat (length twelve_tracks))
   /\ {| label := "Next ➡️"; callback_data := "next_page" |}
      ∈ nav_buttons 1 (total_pages_of (Z.of_nat (length twelve_tracks))))
  /\ route_callback "next_page" = to_handle_pagination
  /\ (("next_page" = "prev_page"%string /\ 1 <= 1 - 1
       /\ current_page
            (handle_pagination 7 "next_page" (render_of twelve_tracks)
               searched_imagine).1 !! 7 = Some (1 - 1))
      \/ ("next_page" = "next_page"%string
          /\ 1 + 1 <= total_pages_of (Z.of_nat (length twelve_tracks))
          /\ current_page
               (handle_pagination 7 "next_page" (render_of twelve_tracks)
                  searched_imagine).1 !! 7 = Some (1 + 1))).
Proof.
  assert (search_results searched_imagine !! 7 = Some twelve_tracks) as H1
      by (vm_compute; reflexivity).
  assert (current_page searched_imagine !! 7 = Some 1) as H2
      by (vm_compute; reflexivity).
  assert (queries searched_imagine !! 7 = Some "Imagine"%string) as H3
      by (vm_compute; reflexivity).
  assert (1 <= 1 <= total_pages_of (Z.of_nat (length twelve_tracks))) as H4
      by (split; vm_compute; discriminate).
  assert ({| label := "Next ➡️"; callback_data := "next_page" |}
          ∈ nav_buttons 1 (total_pages_of (Z.of_nat (length twelve_tracks)))) as H5
      by (vm_compute; apply list_elem_of_here).
  split; [exact (conj H1 (conj H2 (conj H3 (conj H4 H5))))|].
  exact (X4_nav_button_moves searched_imagine 7 twelve_tracks 1 "Imagine"
           (render_of twelve_tracks)
           {| label := "Next ➡️"; callback_data := "next_page" |} H1 H2 H3 H4 H5).
Defined.

(** X5: with a catalogue that answers the same tracks, Next and then Back
    bring the session back: the same results, page and query are stored,
    and the page put up last is the one the session started from. *)
Theorem X5_next_then_back st chat_id tracks page query env1 env2 :
  search_results st !! chat_id = Some tracks ->
  current_page st !! chat_id = Some page ->
  queries st !! chat_id = Some query ->
  let total_pages := total_pages_of (Z.of_nat (length tracks)) in
  1 <= page < total_pages ->
  response env1 = Found tracks -> response env2 = Found tracks ->
  let st1 := (handle_pagination chat_id "next_page" env1 st).1 in
  let st2 := (handle_pagination chat_id "prev_page" env2 st1).1 in
  current_page st1 !! chat_id = Some (page + 1)
  /\ search_results st2 !! chat_id = Some tracks
  /\ current_page st2 !! chat_id = Some page
  /\ queries st2 !! chat_id = Some query
  /\ send_keyboard chat_id msg_choose (keyboard_of tracks page total_pages)
     ∈ (handle_pagination chat_id "prev_page" env2 st1).2.
Proof.
  intros Hs Hp Hq total_pages Hrange Hr1 Hr2 st1 st2.
  assert (tracks <> []) as Hne.
  { intros ->. change (1 <= page < 1) in Hrange. lia. }
  destruct (handle_pagination_found st chat_id page query "next_page" env1 tracks
              Hp Hq Hr1 Hne) as (Hs1 & Hp1 & Hq1 & _).
  rewrite Hs in Hp1. simpl in Hp1. fold total_pages in Hp1. fold st1 in Hs1, Hp1, Hq1.
  assert (clamp_page (moved "next_page" page) total_pages = page + 1) as Hnext
      by (rewrite moved_next; unfold clamp_page; lia).
  rewrite Hnext in Hp1.
  destruct (handle_pagination_found st1 chat_id (page + 1) query "prev_page" env2 tracks
              Hp1 Hq1 Hr2 Hne) as (Hs2 & Hp2 & Hq2 & Hin).
  rewrite Hs1 in Hp2, Hin. simpl in Hp2, Hin. fold total_pages in Hp2, Hin.
  assert (clamp_page (moved "prev_page" (page + 1)) total_pages = page) as Hprev
      by (rewrite moved_prev; unfold clamp_page; lia).
  rewrite Hprev in Hp2, Hin.
  assert (clamp_page page total_pages = page) as Hsame by (unfold clamp_page; lia).
  rewrite Hsame in Hin.
  by repeat split.
Qed.

Lemma X5_next_then_back_witness :
  (search_results searched_imagine !! 7 = Some twelve_tracks
   /\ current_page searched_imagine !! 7 = Some 1
   /\ queries searched_imagine !! 7 = Some "Imagine"%string
   /\ 1 <= 1 < total_pages_of (Z.of_nat (length twelve_tracks))
   /\ response (render_of twelve_tracks) = Found twelve_tracks)
  /\ current_page
       (handle_pagination 7 "prev_page" (render_of twelve_tracks)
          (handle_pagination 7 "next_page" (render_of twelve_tracks)
             searched_imagine).1).1 !! 7 = Some 1.
Proof.
  assert (search_results searched_imagine !! 7 = Some twelve_tracks) as H1
      by (vm_compute; reflexivity).
  assert (current_page searched_imagine !! 7 = Some 1) as H2
      by (vm_compute; reflexivity).
  assert (queries searched_imagine !! 7 = Some "Imagine"%string) as H3
      by (vm_compute; reflexivity).
  assert (1 <= 1 < total_pages_of (Z.of_nat (length twelve_tracks))) as H4
      by (split; [vm_compute; discriminate|vm_compute; reflexivity]).
  split; [exact (conj H1 (conj H2 (conj H3 (conj H4 eq_refl))))|].
  exact (proj1 (proj2 (proj2
           (X5_next_then_back searched_imagine 7 twelve_tracks 1 "Imagine"
              (render_of twelve_tracks) (render_of twelve_tracks)
              H1 H2 H3 H4 eq_refl eq_refl)))).
Defined.

(** X6: a page turn whose search finds nothing or raises still moves the
    stored page: Next before the last page stores the next page although
    the results stay what they were and no page is put up. *)
Theorem X6_failed_turn_moves_page st chat_id tracks page query env :
  search_results st !! chat_id = Some tracks ->
  current_page st !! chat_id = Some page ->
  queries st !! chat_id = Some query ->
  1 <= page < total_pages_of (Z.of_nat (length tracks)) ->
  found_some env = false ->
  let st' := (handle_pagination chat_id "next_page" env st).1 in
  current_page st' !! chat_id = Some (page + 1)
  /\ search_results st' = search_results st
  /\ queries st' = queries st
  /\ forall text kb,
       send_keyboard chat_id text kb
       ∉ (handle_pagination chat_id "next_page" env st).2.
Proof.
  intros Hs Hp Hq Hrange Hf st'.
  pose proof (handle_pagination_page st chat_id page query "next_page" env Hp Hq)
    as Hpage.
  simpl in Hpage. rewrite Hs in Hpage. simpl in Hpage.
  split; [|].
  - unfold st'. rewrite Hpage, moved_next. f_equal. unfold clamp_page. lia.
  - unfold st'.
    rewrite (handle_pagination_unfold st chat_id page query "next_page" env Hp Hq).
    simpl.
    match goal with
    | |- context [display_search_results ?c ?q ?t ?e ?s] =>
        destruct (display_unsuccessful c q t e s Hf) as [-> Hno]
    end.
    repeat split; try done.
    intros text kb Hin. apply elem_of_cons in Hin as [Hin|Hin]; [discriminate Hin|].
    by apply (Hno text kb).
Qed.

Lemma X6_failed_turn_moves_page_witness :
  (search_results searched_imagine !! 7 = Some twelve_tracks
   /\ current_page searched_imagine !! 7 = Some 1
   /\ queries searched_imagine !! 7 = Some "Imagine"%string
   /\ 1 <= 1 < total_pages_of (Z.of_nat (length twelve_tracks))
   /\ found_some (render_of []) = false)
  /\ current_page
       (handle_pagination 7 "next_page" (render_of []) searched_imagine).1 !! 7
     = Some (1 + 1)
  /\ search_results
       (handle_pagination 7 "next_page" (render_of []) searched_imagine).1
     = search_results searched_imagine.
Proof.
  assert (search_results searched_imagine !! 7 = Some twelve_tracks) as H1
      by (vm_compute; reflexivity).
  assert (current_page searched_imagine !! 7 = Some 1) as H2
      by (vm_compute; reflexivity).
  assert (queries searched_imagine !! 7 = Some "Imagine"%string) as H3
      by (vm_compute; reflexivity).
  assert (1 <= 1 < total_pages_of (Z.of_nat (length twelve_tracks))) as H4
      by (split; [vm_compute; discriminate|vm_compute; reflexivity]).
  split; [exact (conj H1 (conj H2 (conj H3 (conj H4 eq_refl))))|].
  pose proof (X6_failed_turn_moves_page searched_imagine 7 twelve_tracks 1 "Imagine"
                (render_of []) H1 H2 H3 H4 eq_refl) as (Hp & Hs & _).
  exact (conj Hp Hs).
Defined.

(** ** The page a page turn puts up *)

Lemma join_comma_concat l : join_comma l = String.concat ", " l.
Proof.
  induction l as [|x l IH]; [done|]. destruct l as [|y l]; [done|].
  change (x +:+ ", " +:+ join_comma (y :: l)
          = x +:+ ", " +:+ String.concat ", " (y :: l)).
  by rewrite IH.
Qed.

Lemma track_button_written idx t :
  track_button idx t
  = {| label := name t +:+ " — " +:+ String.concat ", " (artists t) +:+ " ["
                +:+ pretty (default 0 (duration_ms t) / 1000 / 60) +:+ ":"
                +:+ (if default 0 (duration_ms t) / 1000 mod 60 <? 10 then "0" else "")
                +:+ pretty (default 0 (duration_ms t) / 1000 mod 60) +:+ "]";
       callback_data := "track_" +:+ pretty idx |}.
Proof.
  unfold track_button, format_duration, pad2. rewrite join_comma_concat.
  set (seconds := default 0 (duration_ms t) / 1000).
  pose proof (Z.mod_pos_bound seconds 60 ltac:(lia)) as Hm.
  destruct (Z.leb_spec 0 (seconds mod 60)); [|lia]. f_equal.
  rewrite !append_assoc.
  destruct (seconds mod 60 <? 10); simpl andb; cbv iota; by rewrite ?append_assoc.
Qed.

Lemma track_rows_imap start l :
  track_rows start l = imap (fun k t => [track_button (start + Z.of_nat k) t]) l.
Proof.
  revert start. induction l as [|t l IH]; intros start; [done|].
  simpl. f_equal; [do 2 f_equal; lia|].
  rewrite IH. apply imap_ext. intros k x _. simpl. do 2 f_equal. lia.
Qed.

Lemma total_pages_written n : total_pages_of n = Z.max 1 ((n + 4) / 5).
Proof. unfold total_pages_of, Py.ceil_div, ITEMS_PER_PAGE. do 2 f_equal. lia. Qed.

(** The keyboard of a page, written out button by button. *)
Lemma keyboard_of_written tracks page total_pages :
  1 <= page ->
  keyboard_of tracks page total_pages
  = imap (fun (k : nat) (t : Track) =>
            [{| label := name t +:+ " — " +:+ String.concat ", " (artists t) +:+ " ["
                         +:+ pretty (default 0 (duration_ms t) / 1000 / 60) +:+ ":"
                         +:+ (if default 0 (duration_ms t) / 1000 mod 60 <? 10
                              then "0" else "")
                         +:+ pretty (default 0 (duration_ms t) / 1000 mod 60) +:+ "]";
                callback_data := "track_" +:+ pretty (5 * (page - 1) + Z.of_nat k) |}])
         (take 5 (drop (Z.to_nat (5 * (page - 1))) tracks))
    ++ (if (1 <? page) || (page <? total_pages)
        then [(if 1 <? page
               then [{| label := "⬅️ Back"; callback_data := "prev_page" |}] else [])
              ++ (if page <? total_pages
                  then [{| label := "Next ➡️"; callback_data := "next_page" |}]
                  else [])]
        else [])
    ++ [[{| label := "⬇️ Download This Page"; callback_data := "download_page" |}]].
Proof.
  intros Hp. unfold keyboard_of, nav_buttons, ITEMS_PER_PAGE.
  rewrite slice_nonneg by lia. rewrite track_rows_imap.
  replace (Z.to_nat ((page - 1) * 5 + 5 - (page - 1) * 5)) with 5%nat by lia.
  replace ((page - 1) * 5) with (5 * (page - 1)) by lia.
  f_equal; [|by destruct (1 <? page), (page <? total_pages)].
  apply imap_ext. intros k t _. simpl. by rewrite track_button_written.
Qed.

Lemma display_empty chat_id query page env st :
  response env = Found [] ->
  display_search_results chat_id query page env st
  = (st, [catalog_search query 50; send_message chat_id msg_no_results]).
Proof. intros Hr. unfold display_search_results. by rewrite Hr. Qed.

Lemma display_raises chat_id query page env st e :
  response env = SearchRaises e ->
  display_search_results chat_id query page env st
  = (st, [catalog_search query 50; send_message chat_id (msg_display_error e)]).
Proof. intros Hr. unfold display_search_results. by rewrite Hr. Qed.

(** C10 (as the code has it): a navigation event of a session with a stored
    page and query searches the catalogue again with the stored query, and
    stores the page it moved to.  When the fresh response holds at least one
    track, it replaces the results of the session whole and the one keyboard
    sent is cut from the fresh response, at the page clamped against the old
    results and then against the fresh ones: five rows at most, one button
    per fresh track with its index in the fresh list, then the navigation
    row, then the download button.  When the fresh response is empty, or
    the search raises, the results of the session stay as they were and the
    only thing sent is the no-results or the error message.  The window
    shown can so differ from the one the pressed button was made for. *)
Theorem C10_navigation_searches_again st chat_id page query data env :
  current_page st !! chat_id = Some page ->
  queries st !! chat_id = Some query ->
  let pages (n : nat) := Z.max 1 ((Z.of_nat n + 4) / 5) in
  let old := default [] (search_results st !! chat_id) in
  let wanted :=
    if String.eqb data "next_page" then page + 1
    else if String.eqb data "prev_page" then page - 1 else page in
  let target := Z.max 1 (Z.min wanted (pages (length old))) in
  let st' := (handle_pagination chat_id data env st).1 in
  let calls := (handle_pagination chat_id data env st).2 in
  (exists rest, calls = answer :: catalog_search query 50 :: rest)
  /\ current_page st' !! chat_id = Some target
  /\ queries st' !! chat_id = Some query
  /\ (forall fresh, response env = Found fresh -> fresh <> [] ->
      let total := pages (length fresh) in
      let shown := Z.max 1 (Z.min target total) in
      let row (k : nat) (t : Track) :=
        [{| label := name t +:+ " — " +:+ String.concat ", " (artists t) +:+ " ["
                     +:+ pretty (default 0 (duration_ms t) / 1000 / 60) +:+ ":"
                     +:+ (if default 0 (duration_ms t) / 1000 mod 60 <? 10
                          then "0" else "")
                     +:+ pretty (default 0 (duration_ms t) / 1000 mod 60) +:+ "]";
            callback_data := "track_" +:+ pretty (5 * (shown - 1) + Z.of_nat k) |}] in
      let keyboard :=
        imap row (take 5 (drop (Z.to_nat (5 * (shown - 1))) fresh))
        ++ (if (1 <? shown) || (shown <? total)
            then [(if 1 <? shown
                   then [{| label := "⬅️ Back"; callback_data := "prev_page" |}]
                   else [])
                  ++ (if shown <? total
                      then [{| label := "Next ➡️"; callback_data := "next_page" |}]
                      else [])]
            else [])
        ++ [[{| label := "⬇️ Download This Page"; callback_data := "download_page" |}]] in
      search_results st' !! chat_id = Some fresh
      /\ send_keyboard chat_id
           "📍 *Choose a track to download or download the entire page:*" keyboard
         ∈ calls
      /\ forall text kb, send_keyboard chat_id text kb ∈ calls -> kb = keyboard)
  /\ (response env = Found [] ->
      search_results st' !! chat_id = search_results st !! chat_id
      /\ calls = [answer; catalog_search query 50;
                  send_message chat_id "❌ No results found."])
  /\ (forall e, response env = SearchRaises e ->
      search_results st' !! chat_id = search_results st !! chat_id
      /\ calls = [answer; catalog_search query 50;
                  send_message chat_id ("⚠️ Error: `" +:+ Py.exn_str e +:+ "`")])
  /\ (exists old_tracks fresh_tracks old_page,
        search_results searched_imagine !! 7 = Some old_tracks
        /\ response (render_of three_tracks) = Found fresh_tracks
        /\ current_page
             (handle_pagination 7 "next_page" (render_of three_tracks)
                searched_imagine).1 !! 7 = Some old_page
        /\ take 5 fresh_tracks
           <> take 5 (drop (Z.to_nat (5 * (old_page - 1))) old_tracks)
        /\ send_keyboard 7
             "📍 *Choose a track to download or download the entire page:*"
             [[{| label := "a — John Lennon [3:03]"; callback_data := "track_0" |}];
              [{| label := "b — John Lennon [3:03]"; callback_data := "track_1" |}];
              [{| label := "c — John Lennon [3:03]"; callback_data := "track_2" |}];
              [{| label := "⬇️ Download This Page"; callback_data := "download_page" |}]]
           ∈ (handle_pagination 7 "next_page" (render_of three_tracks)
                searched_imagine).2).
Proof.
  intros Hp Hq pages old wanted target st' calls.
  pose proof (handle_pagination_unfold st chat_id page query data env Hp Hq) as Hu.
  simpl in Hu. fold old in Hu. rewrite total_pages_written in Hu.
  change (clamp_page (moved data page) (Z.max 1 ((Z.of_nat (length old) + 4) / 5)))
    with target in Hu.
  set (st1 := with_current_page st (<[chat_id := target]> (current_page st))) in Hu.
  assert (current_page st1 !! chat_id = Some target) as Hp1
      by (unfold st1; simpl; apply lookup_insert_eq).
  split; [|split; [|split; [|split; [|split; [|split]]]]].
  - unfold calls. rewrite Hu. simpl.
    destruct (display_calls_head chat_id query target env st1) as [rest ->].
    by eexists.
  - pose proof (handle_pagination_page st chat_id page query data env Hp Hq) as H.
    simpl in H. fold old in H. rewrite total_pages_written in H. exact H.
  - unfold st'. rewrite Hu. simpl. destruct (found_some env) eqn:Hf.
    + unfold found_some in Hf.
      destruct (response env) as [[|first rest]|e] eqn:Hr; try discriminate Hf.
      destruct (display_successful chat_id query target env st1 (first :: rest)
                  Hr ltac:(done)) as (_ & _ & -> & _).
      apply lookup_insert_eq.
    + by destruct (display_unsuccessful chat_id query target env st1 Hf) as [-> _].
  - intros fresh Hr Hne total shown row keyboard. unfold st', calls. rewrite Hu. simpl.
    destruct (display_successful chat_id query target env st1 fresh Hr Hne)
      as (Hs & _ & _ & _ & _ & Hin).
    rewrite total_pages_written in Hin.
    change (clamp_page target (Z.max 1 ((Z.of_nat (length fresh) + 4) / 5)))
      with shown in Hin.
    change (Z.max 1 ((Z.of_nat (length fresh) + 4) / 5)) with total in Hin.
    rewrite keyboard_of_written in Hin by (unfold shown; lia).
    split; [rewrite Hs; apply lookup_insert_eq|].
    split; [by apply list_elem_of_further|].
    intros text kb Hkb. apply elem_of_cons in Hkb as [Hkb|Hkb]; [discriminate Hkb|].
    destruct (display_keyboard_unique _ _ _ _ _ _ _ Hkb) as (fresh' & Hr' & _ & ->).
    assert (fresh' = fresh) as -> by congruence.
    rewrite total_pages_written.
    change (clamp_page target (Z.max 1 ((Z.of_nat (length fresh) + 4) / 5)))
      with shown.
    change (Z.max 1 ((Z.of_nat (length fresh) + 4) / 5)) with total.
    by rewrite keyboard_of_written by (unfold shown; lia).
  - intros Hr. unfold st', calls. rewrite Hu. simpl.
    by rewrite (display_empty chat_id query target env st1 Hr).
  - intros e Hr. unfold st', calls. rewrite Hu. simpl.
    by rewrite (display_raises chat_id query target env st1 e Hr).
  - exists twelve_tracks, three_tracks, 2.
    split; [vm_compute; reflexivity|]. split; [reflexivity|].
    split; [vm_compute; reflexivity|]. split; [by vm_compute|].
    vm_compute. repeat first [apply list_elem_of_here | apply list_elem_of_further].
Qed.

Lemma C10_navigation_searches_again_witness :
  (current_page searched_imagine !! 7 = Some 1
   /\ queries searched_imagine !! 7 = Some "Imagine"%string
   /\ response (render_of seven_tracks) = Found seven_tracks
   /\ seven_tracks <> []
   /\ response (render_of []) = Found []
   /\ response render_down = SearchRaises (Py.OtherError "Max Retries reached"))
  /\ search_results
       (handle_pagination 7 "next_page" (render_of seven_tracks) searched_imagine).1
     !! 7 = Some seven_tracks
  /\ send_keyboard 7 "📍 *Choose a track to download or download the entire page:*"
       [[{| label := "f — John Lennon [3:03]"; callback_data := "track_5" |}];
        [{| label := "g — John Lennon [3:03]"; callback_data := "track_6" |}];
        [{| label := "⬅️ Back"; callback_data := "prev_page" |}];
        [{| label := "⬇️ Download This Page"; callback_data := "download_page" |}]]
     ∈ (handle_pagination 7 "next_page" (render_of seven_tracks) searched_imagine).2
  /\ search_results
       (handle_pagination 7 "next_page" (render_of []) searched_imagine).1 !! 7
     = Some twelve_tracks
  /\ (handle_pagination 7 "next_page" (render_of []) searched_imagine).2
     = [answer; catalog_search "Imagine" 50; send_message 7 "❌ No results found."]
  /\ search_results
       (handle_pagination 7 "next_page" render_down searched_imagine).1 !! 7
     = Some twelve_tracks
  /\ (handle_pagination 7 "next_page" render_down searched_imagine).2
     = [answer; catalog_search "Imagine" 50;
        send_message 7 "⚠️ Error: `Max Retries reached`"].
Proof.
  assert (current_page searched_imagine !! 7 = Some 1) as Hp
      by (vm_compute; reflexivity).
  assert (queries searched_imagine !! 7 = Some "Imagine"%string) as Hq
      by (vm_compute; reflexivity).
  assert (seven_tracks <> []) as Hne by discriminate.
  pose proof (C10_navigation_searches_again searched_imagine 7 1 "Imagine" "next_page"
                (render_of seven_tracks) Hp Hq) as (_ & _ & _ & Hfresh & _).
  pose proof (C10_navigation_searches_again searched_imagine 7 1 "Imagine" "next_page"
                (render_of []) Hp Hq) as (_ & _ & _ & _ & Hempty & _).
  pose proof (C10_navigation_searches_again searched_imagine 7 1 "Imagine" "next_page"
                render_down Hp Hq) as (_ & _ & _ & _ & _ & Hdown & _).
  destruct (Hfresh seven_tracks eq_refl Hne) as (Hs & Hin & _).
  destruct (Hempty eq_refl) as (Hkept & Hcalls).
  destruct (Hdown _ eq_refl) as (Hkept' & Hcalls').
  assert (search_results searched_imagine !! 7 = Some twelve_tracks) as Hold
      by (vm_compute; reflexivity).
  split; [by repeat split|].
  split; [exact Hs|]. split; [exact Hin|].
  split; [by rewrite Hkept|]. split; [exact Hcalls|].
  split; [by rewrite Hkept'|exact Hcalls'].
Defined.

(** C10 as stated fails: when the fresh response is empty, the page turn
    leaves the twelve results of the session in place. *)
Lemma C10_empty_fresh_counterexample :
  ~ (forall st chat_id page query data env fresh,
       current_page st !! chat_id = Some page ->
       queries st !! chat_id = Some query ->
       response env = Found fresh ->
       search_results (handle_pagination chat_id data env st).1 !! chat_id
       = Some fresh).
Proof.
  intros H.
  specialize (H searched_imagine 7 1 "Imagine"%string "next_page"%string
                (render_of []) [] ltac:(vm_compute; reflexivity)
                ltac:(vm_compute; reflexivity) eq_refl).
  vm_compute in H. discriminate H.
Qed.

(** ** Buttons that name no track *)



(** The index is read as [int] reads it: an Arabic-Indic digit names a
    track, a file separator before the digits does not. *)
Example unicode_digit_ex :
  track_index_of ("track_" +:+ Py.of_codepoints [1635%N]) = inr 3
  /\ exists rest,
      (select_song 7 ("track_" +:+ Py.of_codepoints [1635%N]) noon env_ok
         searched_imagine).2
      = answer :: edit_message_text (msg_selected "t3" "John Lennon") :: rest.
Proof. split; [reflexivity|]. by eexists. Qed.

Example separator_ex :
  (select_song 7 ("track_" +:+ String (ascii_of_N 28) "99") noon env_ok
     searched_imagine).2
  = [answer;
     reply_text "⚠️ Error: invalid literal for int() with base 10: '\x1c99'

_Created with ❤️ by Lokesh.R_"].
Proof. reflexivity. Qed.

(** ** One chat does not touch another *)

Lemma defaultdict_get_other {V} (dflt : V) k k' (d : gmap Z V) :
  k <> k' -> (defaultdict_get dflt k d).2 !! k' = d !! k'.
Proof.
  intros Hne. unfold defaultdict_get. destruct (d !! k); simpl; [done|].
  by rewrite lookup_insert_ne.
Qed.

Lemma display_session_other chat_id c query page env st :
  c <> chat_id ->
  session (display_search_results c query page env st).1 chat_id = session st chat_id.
Proof.
  intros Hne. destruct (found_some env) eqn:Hf.
  - unfold found_some in Hf.
    destruct (response env) as [[|first rest]|e] eqn:Hr; try discriminate Hf.
    unfold display_search_results, session. rewrite Hr.
    destruct (match album_images first with
              | [] => None
              | url :: _ => if String.eqb url "" then None else Some url
              end); destruct (photo_message env); destruct (result_message env);
      simpl; by rewrite ?lookup_insert_ne, ?lookup_delete_ne by done.
  - by destruct (display_unsuccessful c query page env st Hf) as [-> _].
Qed.

Lemma note_query_session_other chat_id c query st :
  c <> chat_id -> session (note_query c query st) chat_id = session st chat_id.
Proof.
  intros Hne. unfold note_query, session.
  pose proof (defaultdict_get_other [] c chat_id (recent_queries st) Hne) as Hl.
  destruct (defaultdict_get [] c (recent_queries st)) as [recent d]. simpl in *.
  by rewrite lookup_insert_ne, Hl.
Qed.

Lemma cooldown_check_session_other chat_id c now st :
  c <> chat_id -> session (cooldown_check c now st).2 chat_id = session st chat_id.
Proof.
  intros Hne. unfold cooldown_check, session.
  pose proof (defaultdict_get_other datetime_min c chat_id (last_download_time st) Hne)
    as Hl.
  destruct (defaultdict_get datetime_min c (last_download_time st)) as [last d].
  simpl in *. destruct (now - last <? DOWNLOAD_COOLDOWN); simpl;
    by rewrite ?lookup_insert_ne, Hl.
Qed.

Lemma handle_session_other chat_id ev st :
  chat_of ev <> chat_id -> session (handle ev st).1 chat_id = session st chat_id.
Proof.
  destruct ev as [c text env|c data env|c data now env|c now envs]; simpl; intros Hne.
  - destruct (String.eqb_spec (Py.strip text) "") as [Heq|Hq].
    { unfold search_and_display. by rewrite Heq. }
    rewrite search_and_display_unfold by done. simpl.
    rewrite display_session_other by done. by apply note_query_session_other.
  - destruct (current_page st !! c) as [page|] eqn:Hpc;
      [destruct (queries st !! c) as [query|] eqn:Hqc|];
      try (unfold handle_pagination; rewrite Hpc, ?Hqc; done).
    rewrite (handle_pagination_unfold st c page query data env Hpc Hqc). simpl.
    rewrite display_session_other by done. unfold session. simpl.
    by rewrite lookup_insert_ne.
  - rewrite select_song_store. by apply cooldown_check_session_other.
  - rewrite download_page_store. by apply cooldown_check_session_other.
Qed.

(** X7: the chats are kept apart: whatever the events of other chats are
    (searches, page turns, downloads, with any answers of the outside
    world), everything the bot holds about a chat stays what it was, its
    cooldown included. *)
Theorem X7_chats_kept_apart chat_id evs st :
  Forall (fun ev => chat_of ev <> chat_id) evs ->
  session (run evs st) chat_id = session st chat_id
  /\ last_download_at (run evs st) chat_id = last_download_at st chat_id
  /\ recent_of (run evs st) chat_id = recent_of st chat_id.
Proof.
  intros Hall.
  assert (session (run evs st) chat_id = session st chat_id) as Hs.
  { revert st. induction Hall as [|ev evs Hev _ IH]; intros st; simpl; [done|].
    rewrite IH. by apply handle_session_other. }
  split; [done|]. unfold session in Hs. unfold last_download_at, recent_of.
  injection Hs as _ _ _ -> -> _ _. done.
Qed.

Lemma X7_chats_kept_apart_witness :
  Forall (fun ev => chat_of ev <> 7)
    [Text 8 "Yesterday" (render_of three_tracks); Select 8 "track_0" noon env_ok]
  /\ session (run [Text 8 "Yesterday" (render_of three_tracks);
                   Select 8 "track_0" noon env_ok] searched_imagine) 7
     = session searched_imagine 7.
Proof.
  assert (Forall (fun ev => chat_of ev <> 7)
            [Text 8 "Yesterday" (render_of three_tracks);
             Select 8 "track_0" noon env_ok]) as H
      by (repeat constructor; simpl; discriminate).
  split; [exact H|].
  exact (proj1 (X7_chats_kept_apart 7 _ searched_imagine H)).
Defined.

(** ** The history and [/recent] *)

Lemma remember_holds query recent :
  query ∈ remember query recent
  /\ (query ∉ recent -> last (remember query recent) = Some query).
Proof.
  unfold remember. case_bool_decide as Hin; [by split|].
  destruct (Nat.ltb_spec 20 (length (recent ++ [query]))) as [Hgt|Hle].
  - destruct recent as [|x recent]; [rewrite length_app in Hgt; simpl in Hgt; lia|].
    change (drop 1 ((x :: recent) ++ [query])) with (recent ++ [query]).
    split; [set_solver|]. intros _. apply last_snoc.
  - split; [set_solver|]. intros _. apply last_snoc.
Qed.

(** X8: a search with a query that is not blank is in the history of the
    chat afterwards, whatever the catalogue answers (tracks, nothing, an
    error); when the query was not there before, it is the last entry. *)
Theorem X8_search_is_remembered st chat_id text env :
  Py.strip text <> ""%string ->
  let history := recent_of (search_and_display chat_id text env st).1 chat_id in
  Py.strip text ∈ history
  /\ (Py.strip text ∉ recent_of st chat_id -> last history = Some (Py.strip text)).
Proof.
  intros Hq history. unfold history.
  rewrite search_and_display_recent, decide_True by done.
  apply remember_holds.
Qed.

Lemma X8_search_is_remembered_witness :
  Py.strip " Imagine " <> ""%string
  /\ Py.strip " Imagine "
     ∈ recent_of (search_and_display 7 " Imagine " (render_of []) empty_store).1 7.
Proof.
  assert (Py.strip " Imagine " <> ""%string) as H by (vm_compute; discriminate).
  split; [exact H|].
  exact (proj1 (X8_search_is_remembered empty_store 7 " Imagine " (render_of []) H)).
Defined.

Lemma lstrip_blank l : Forall (fun b => Py.is_space b = true) l -> Py.lstrip l = [].
Proof. induction 1 as [|b l Hb _ IH]; simpl; [done|]. by rewrite Hb. Qed.

(** X9: a message of nothing but blanks, tabs and line ends (or of nothing
    at all) is refused on the spot: the reply asks for a search term, the
    catalogue is not called, and nothing the bot holds changes, the history
    included. *)
Theorem X9_blank_text_refused st chat_id text env :
  Forall (fun b => Py.is_space b = true) (Py.bytes_of text) ->
  search_and_display chat_id text env st
  = (st, [send_chat_action chat_id; reply_text msg_provide_term]).
Proof.
  intros Hblank. unfold search_and_display, Py.strip.
  by rewrite (lstrip_blank _ Hblank).
Qed.

Lemma X9_blank_text_refused_witness :
  Forall (fun b => Py.is_space b = true) (Py.bytes_of "  	 ")
  /\ search_and_display 7 "  	 " (render_of twelve_tracks) searched_imagine
     = (searched_imagine, [send_chat_action 7; reply_text msg_provide_term]).
Proof.
  assert (Forall (fun b => Py.is_space b = true) (Py.bytes_of "  	 ")) as H
      by (repeat constructor).
  split; [exact H|].
  exact (X9_blank_text_refused searched_imagine 7 "  	 " (render_of twelve_tracks) H).
Defined.

Lemma last_five_drop {A} (l : list A) : last_five l = drop (length l - 5) l.
Proof.
  unfold last_five, Py.slice.
  set (n := Z.of_nat (length l)).
  change (-5 <? 0) with true. cbv iota.
  destruct (Z.ltb_spec n 0); [lia|]. rewrite Z.min_id.
  replace (Z.to_nat (Z.max 0 (-5 + n))) with (length l - 5)%nat by lia.
  apply take_ge. rewrite length_drop. lia.
Qed.

(** X10: [/recent] changes nothing; it answers that there is no search yet
    exactly when the history of the chat is empty, and otherwise lists the
    last five entries of the history (all of them when there are fewer), in
    the order they were entered.  After any events from the start of the
    process these are at most five queries, no two the same. *)
Theorem X10_recent_lists_last_five chat_id evs :
  let st := run evs empty_store in
  let history := recent_of st chat_id in
  let listed := drop (length history - 5) history in
  (recent_command chat_id st).1 = st
  /\ (length listed <= 5)%nat /\ NoDup listed
  /\ (history = [] ->
      (recent_command chat_id st).2
      = [send_chat_action chat_id; reply_text msg_no_recent])
  /\ (history <> [] ->
      (recent_command chat_id st).2
      = [send_chat_action chat_id;
         reply_text (msg_recent_head +:+ join_lines listed)]).
Proof.
  intros st history listed.
  destruct (run_recent_invariant chat_id evs empty_store) as [Hnd Hlen];
    [rewrite recent_of_empty; apply NoDup_nil_2
    |rewrite recent_of_empty; simpl; lia|].
  fold st in Hnd, Hlen. fold history in Hnd, Hlen.
  split; [done|]. split; [|split; [|split]].
  - unfold listed. rewrite length_drop. lia.
  - eapply sublist_NoDup; [exact Hnd|apply sublist_drop].
  - intros Hh. unfold recent_command. fold (recent_of st chat_id). fold history.
    by rewrite Hh.
  - intros Hh. unfold recent_command. fold (recent_of st chat_id). fold history.
    rewrite last_five_drop. fold listed. by destruct history.
Qed.

Lemma X10_recent_lists_last_five_witness :
  recent_of (run twenty_searches empty_store) 7 <> []
  /\ (recent_command 7 (run twenty_searches empty_store)).2
     = [send_chat_action 7;
        reply_text
          (msg_recent_head
           +:+ join_lines
                 (drop (length (recent_of (run twenty_searches empty_store) 7) - 5)
                       (recent_of (run twenty_searches empty_store) 7)))].
Proof.
  assert (recent_of (run twenty_searches empty_store) 7 <> []) as H
      by (vm_compute; discriminate).
  split; [exact H|].
  exact (proj2 (proj2 (proj2 (proj2 (X10_recent_lists_last_five 7 twenty_searches))))
           H).
Defined.

(** ** What the search for the artifact returns *)

Lemma first_mp3_some root files p :
  first_mp3 root files = Some p ->
  exists f, f ∈ files /\ is_mp3 f = true /\ p = path_join root f.
Proof.
  induction files as [|f r IH]; simpl; [done|].
  destruct (is_mp3 f) eqn:E.
  - intros [= <-]. exists f. split; [apply list_elem_of_here|done].
  - intros H. destruct (IH H) as (g & Hg & Hm & ->).
    exists g. split; [by apply list_elem_of_further|done].
Qed.

Lemma scan_below_some top es p :
  scan (walk_below top es) = Some p ->
  exists d c, (d, c) ∈ es /\ scan (walk (path_join top d) c) = Some p.
Proof.
  induction es as [|[d c] es IH]; [done|].
  change (walk_below top ((d, c) :: es))
    with (walk (path_join top d) c ++ walk_below top es).
  rewrite scan_app. destruct (scan (walk (path_join top d) c)) eqn:E.
  - intros [= <-]. exists d, c. split; [apply list_elem_of_here|done].
  - intros H. destruct (IH H) as (d' & c' & Hin & Hs).
    exists d', c'. split; [by apply list_elem_of_further|done].
Qed.

Lemma find_mp3_file_sound n :
  forall top p,
    find_mp3_file top n = Some p ->
    exists path f,
      file_at n path /\ last path = Some f /\ is_mp3 f = true
      /\ p = path_of top path.
Proof.
  unfold find_mp3_file. induction n as [| |es IH] using node_ind'; intros top p;
    [done|done|].
  rewrite walk_Dir. simpl. destruct (first_mp3 top (files_of es)) eqn:Ef.
  - intros [= <-]. destruct (first_mp3_some _ _ _ Ef) as (f & Hf & Hm & ->).
    exists [f], f. split; [|done]. constructor. by apply elem_of_files_of.
  - intros Hs. destruct (scan_below_some _ _ _ Hs) as (d & c & Hin & Hc).
    rewrite Forall_forall in IH.
    destruct (IH (d, c) Hin _ _ Hc) as (path & f & Hat & Hlast & Hm & ->).
    simpl in Hat. destruct c as [|sub|]; [inversion Hat| |inversion Hat].
    exists (d :: path), f. split; [by apply (file_below es d sub)|].
    split; [|done]. destruct path; [inversion Hat|done].
Qed.

(** X11: what [find_mp3_file] returns is a file that is there: the path is
    the directory given, followed by the names of nested sub-directories of
    the tree and the name of a file in the last of them, and that name ends
    in ".mp3" whatever the case of its letters; a directory of such a name
    is never returned. *)
Theorem X11_found_file_exists directory fs mp3_path :
  find_mp3_file directory fs = Some mp3_path ->
  exists path f,
    file_at fs path /\ last path = Some f
    /\ Py.endswith (Py.lower f) ".mp3" = true
    /\ mp3_path = path_of directory path.
Proof.
  apply find_mp3_file_sound.
Qed.

Lemma X11_found_file_exists_witness :
  find_mp3_file "/tmp/tmpab12" nested_scratch
  = Some "/tmp/tmpab12/output/sub/track.mp3"%string
  /\ exists path f,
      file_at nested_scratch path /\ last path = Some f
      /\ Py.endswith (Py.lower f) ".mp3" = true
      /\ "/tmp/tmpab12/output/sub/track.mp3"%string = path_of "/tmp/tmpab12" path.
Proof.
  split; [reflexivity|].
  exact (X11_found_file_exists "/tmp/tmpab12" nested_scratch
           "/tmp/tmpab12/output/sub/track.mp3" eq_refl).
Defined.

(** ** One download, and a page of downloads *)

Lemma download_spawns_once chat_id url title performer caption query_message env :
  filter (fun c => is_spawn c = true)
    (download_and_send_audio chat_id url title performer caption query_message env).2
  = [create_subprocess_exec (command_of url env)].
Proof. download_cases env query_message; reflexivity. Qed.

(** X12: a download sends the audio at most once, and only for a process
    that started within 5 seconds, ended within 60 with status 0 and left a
    file that [find_mp3_file] returns; the file sent is that one, under the
    caption given or the standard one.  Every run that does not deliver
    ends by telling the user why. *)
Theorem X12_audio_only_after_success chat_id url title performer caption
    query_message env :
  let result :=
    download_and_send_audio chat_id url title performer caption query_message env in
  (length (filter (fun c => is_audio c = true) result.2) <= 1)%nat
  /\ (forall c,
        c ∈ result.2 -> is_audio c = true ->
        exists d r p,
          creation env = inr d /\ d <= CREATION_TIMEOUT
          /\ completion env = Some r /\ r <= SPOTDL_TIMEOUT
          /\ returncode env = 0
          /\ find_mp3_file (tmpdirname env) (scratch env) = Some p
          /\ c = send_audio chat_id p title performer (caption_or_default caption))
  /\ ((forall p, result.1 <> Delivered p) ->
      exists before msg,
        result.2 = before ++ [tell query_message chat_id msg]).
Proof.
  intros result. unfold result. split; [|split].
  - download_cases env query_message; vm_compute; lia.
  - download_cases env query_message; intros c Hin Hc;
      repeat (apply elem_of_cons in Hin as [->|Hin]; [try discriminate Hc|]);
      try (by apply elem_of_nil in Hin);
      eexists _, _, _; repeat split; eauto.
  - download_cases env query_message; intros Hnot;
      try (by destruct (Hnot _ eq_refl));
      first [by eexists [_], _ | by eexists [_; _], _ | by eexists [_; _; _], _].
Qed.

Lemma X12_audio_only_after_success_witness :
  (send_audio 7 "/tmp/tmpab12/Imagine.mp3" "Imagine" "John Lennon" default_caption
   ∈ (download_and_send_audio 7 "u" "Imagine" "John Lennon" None true env_ok).2
   /\ is_audio (send_audio 7 "/tmp/tmpab12/Imagine.mp3" "Imagine" "John Lennon"
                  default_caption) = true)
  /\ exists d r p,
      creation env_ok = inr d /\ d <= CREATION_TIMEOUT
      /\ completion env_ok = Some r /\ r <= SPOTDL_TIMEOUT
      /\ returncode env_ok = 0
      /\ find_mp3_file (tmpdirname env_ok) (scratch env_ok) = Some p
      /\ send_audio 7 "/tmp/tmpab12/Imagine.mp3" "Imagine" "John Lennon"
           default_caption
         = send_audio 7 p "Imagine" "John Lennon" (caption_or_default None).
Proof.
  assert (send_audio 7 "/tmp/tmpab12/Imagine.mp3" "Imagine" "John Lennon"
            default_caption
          ∈ (download_and_send_audio 7 "u" "Imagine" "John Lennon" None true env_ok).2)
    as H by (vm_compute; do 2 apply list_elem_of_further; apply list_elem_of_here).
  split; [exact (conj H eq_refl)|].
  exact (proj1 (proj2 (X12_audio_only_after_success 7 "u" "Imagine" "John Lennon"
                         None true env_ok)) _ H eq_refl).
Defined.

Lemma download_each_spawns chat_id page_tracks (i : nat) envs :
  filter (fun c => is_spawn c = true) (download_each chat_id page_tracks i envs)
  = imap (fun k track =>
            create_subprocess_exec (command_of (spotify_url track) (envs (i + k)%nat)))
         page_tracks.
Proof.
  revert i. induction page_tracks as [|track r IH]; intros i; [done|].
  simpl download_each. rewrite filter_app, download_spawns_once, IH. simpl.
  rewrite Nat.add_0_r. f_equal. apply imap_ext. intros k t _. simpl.
  do 3 f_equal. lia.
Qed.

Lemma download_page_passes st chat_id tracks page now envs :
  search_results st !! chat_id = Some tracks ->
  current_page st !! chat_id = Some page ->
  DOWNLOAD_COOLDOWN <= now - last_download_at st chat_id ->
  (download_page chat_id now envs st).2
  = [answer; edit_message_text (msg_downloading_page page)]
    ++ download_each chat_id (page_window tracks page) 0 envs
    ++ [reply_text msg_finished].
Proof.
  intros Hs Hp Hcd.
  destruct (cooldown_allowed st chat_id now Hcd) as (st' & Hc & _ & _ & Hs' & Hp' & _).
  unfold download_page. by rewrite Hc, Hs', Hp', Hs, Hp.
Qed.

(** X13: a page download that passes the cooldown test starts one process
    per track of the stored page, in the order of the page and each on the
    URL of its track, whatever becomes of the downloads before it (a
    failure stops nothing); that is at most five processes for a page from
    1 on, and the last call is always the closing message. *)
Theorem X13_page_download_runs_every_track st chat_id tracks page now envs :
  search_results st !! chat_id = Some tracks ->
  current_page st !! chat_id = Some page ->
  DOWNLOAD_COOLDOWN <= now - last_download_at st chat_id ->
  let calls := (download_page chat_id now envs st).2 in
  filter (fun c => is_spawn c = true) calls
  = imap (fun k track =>
            create_subprocess_exec (command_of (spotify_url track) (envs k)))
         (page_window tracks page)
  /\ last calls = Some (reply_text msg_finished)
  /\ (1 <= page -> (length (page_window tracks page) <= 5)%nat).
Proof.
  intros Hs Hp Hcd calls. unfold calls.
  rewrite (download_page_passes st chat_id tracks page now envs Hs Hp Hcd).
  split; [|split].
  - rewrite !filter_app, download_each_spawns. simpl.
    by rewrite app_nil_r.
  - rewrite app_assoc. apply last_snoc.
  - intros Hpage. rewrite page_window_chunk by done. rewrite length_take. lia.
Qed.

Lemma X13_page_download_runs_every_track_witness :
  (search_results searched_imagine !! 7 = Some twelve_tracks
   /\ current_page searched_imagine !! 7 = Some 1
   /\ DOWNLOAD_COOLDOWN <= noon - last_download_at searched_imagine 7)
  /\ filter (fun c => is_spawn c = true)
       (download_page 7 noon (fun _ => env_ok) searched_imagine).2
     = imap (fun (k : nat) track =>
               create_subprocess_exec (command_of (spotify_url track) env_ok))
            (page_window twelve_tracks 1).
Proof.
  assert (search_results searched_imagine !! 7 = Some twelve_tracks) as H1
      by (vm_compute; reflexivity).
  assert (current_page searched_imagine !! 7 = Some 1) as H2
      by (vm_compute; reflexivity).
  assert (DOWNLOAD_COOLDOWN <= noon - last_download_at searched_imagine 7) as H3
      by (vm_compute; discriminate).
  split; [exact (conj H1 (conj H2 H3))|].
  exact (proj1 (X13_page_download_runs_every_track searched_imagine 7 twelve_tracks 1
                  noon (fun _ => env_ok) H1 H2 H3)).
Defined.

Lemma track_rows_length start l : length (track_rows start l) = length l.
Proof. revert start. induction l as [|t l IH]; intros s; simpl; [done|by rewrite IH]. Qed.

Lemma page_window_length tracks page :
  1 <= page ->
  Z.of_nat (length (page_window tracks page))
  = Z.max 0 (Z.min 5 (Z.of_nat (length tracks) - 5 * (page - 1))).
Proof.
  intros Hp. rewrite page_window_chunk by done. rewrite length_take, length_drop. lia.
Qed.

(** X14: after a result page is put up for a page number within the pages
    of the results, "Download This Page" (once the cooldown is over)
    downloads the tracks of the rows on the screen, in their order: the
    first rows of the keyboard are the buttons of exactly the tracks the
    page download goes through. *)
Theorem X14_page_download_matches_screen st chat_id query page renv tracks now envs :
  response renv = Found tracks -> tracks <> [] ->
  1 <= page <= total_pages_of (Z.of_nat (length tracks)) ->
  let st' := (display_search_results chat_id query page renv st).1 in
  let window := page_window tracks page in
  DOWNLOAD_COOLDOWN <= now - last_download_at st' chat_id ->
  (exists kb,
     send_keyboard chat_id msg_choose kb
     ∈ (display_search_results chat_id query page renv st).2
     /\ take (length window) kb
        = track_rows ((page - 1) * ITEMS_PER_PAGE) window)
  /\ (download_page chat_id now envs st').2
     = [answer; edit_message_text (msg_downloading_page page)]
       ++ download_each chat_id window 0 envs
       ++ [reply_text msg_finished].
Proof.
  intros Hr Hne Hrange st' window Hcd.
  destruct (display_successful chat_id query page renv st tracks Hr Hne)
    as (Hs & Hp & _ & _ & _ & Hin).
  assert (clamp_page page (total_pages_of (Z.of_nat (length tracks))) = page) as Hshown
      by (unfold clamp_page; lia).
  rewrite Hshown in Hin. split.
  - eexists. split; [exact Hin|]. unfold keyboard_of. fold (page_window tracks page).
    fold window. rewrite take_app_length'; [done|by rewrite track_rows_length].
  - apply download_page_passes; [| |done]; unfold st'.
    + rewrite Hs. apply lookup_insert_eq.
    + rewrite Hp. apply lookup_insert_eq.
Qed.

Lemma X14_page_download_matches_screen_witness :
  (response (render_of twelve_tracks) = Found twelve_tracks
   /\ twelve_tracks <> []
   /\ 1 <= 2 <= total_pages_of (Z.of_nat (length twelve_tracks))
   /\ DOWNLOAD_COOLDOWN
      <= noon - last_download_at
                  (display_search_results 7 "Imagine" 2 (render_of twelve_tracks)
                     empty_store).1 7)
  /\ (download_page 7 noon (fun _ => env_ok)
        (display_search_results 7 "Imagine" 2 (render_of twelve_tracks)
           empty_store).1).2
     = [answer; edit_message_text (msg_downloading_page 2)]
       ++ download_each 7 (page_window twelve_tracks 2) 0 (fun _ => env_ok)
       ++ [reply_text msg_finished].
Proof.
  assert (twelve_tracks <> []) as H2 by discriminate.
  assert (1 <= 2 <= total_pages_of (Z.of_nat (length twelve_tracks))) as H3
      by (split; vm_compute; discriminate).
  assert (DOWNLOAD_COOLDOWN
          <= noon - last_download_at
                      (display_search_results 7 "Imagine" 2 (render_of twelve_tracks)
                         empty_store).1 7) as H4 by (vm_compute; discriminate).
  split; [exact (conj eq_refl (conj H2 (conj H3 H4)))|].
  exact (proj2 (X14_page_download_matches_screen empty_store 7 "Imagine" 2
                  (render_of twelve_tracks) twelve_tracks noon (fun _ => env_ok)
                  eq_refl H2 H3 H4)).
Defined.

(** X15: when a page turn brings back fewer results than the page it
    stores, the screen and the stored page part: the last page of the
    fresh results is put up, with at least one track on it, while the
    stored page lies beyond it, so that "Download This Page" (once the
    cooldown is over) downloads nothing and still reports that it
    finished. *)
Theorem X15_stale_page_downloads_nothing st chat_id page query data env old fresh
    now envs :
  search_results st !! chat_id = Some old ->
  current_page st !! chat_id = Some page ->
  queries st !! chat_id = Some query ->
  response env = Found fresh -> fresh <> [] ->
  let target := clamp_page (moved data page) (total_pages_of (Z.of_nat (length old))) in
  let last_page := total_pages_of (Z.of_nat (length fresh)) in
  last_page < target ->
  let st' := (handle_pagination chat_id data env st).1 in
  DOWNLOAD_COOLDOWN <= now - last_download_at st' chat_id ->
  send_keyboard chat_id msg_choose (keyboard_of fresh last_page last_page)
  ∈ (handle_pagination chat_id data env st).2
  /\ page_window fresh last_page <> []
  /\ current_page st' !! chat_id = Some target
  /\ (download_page chat_id now envs st').2
     = [answer; edit_message_text (msg_downloading_page target);
        reply_text msg_finished].
Proof.
  intros Hs Hp Hq Hr Hne target last_page Hlt st' Hcd.
  destruct (handle_pagination_found st chat_id page query data env fresh Hp Hq Hr Hne)
    as (Hs' & Hp' & _ & Hin).
  rewrite Hs in Hp', Hin. simpl in Hp', Hin. fold target in Hp', Hin.
  fold last_page in Hin. fold st' in Hs', Hp'.
  assert (1 <= Z.of_nat (length fresh)) as HN by (destruct fresh; [done|simpl; lia]).
  destruct (total_pages_ceiling _ HN) as [Hpos Hceil]. fold last_page in Hpos, Hceil.
  assert (clamp_page target last_page = last_page) as Hshown
      by (unfold clamp_page; lia).
  rewrite Hshown in Hin.
  split; [done|]. split; [|split; [done|]].
  - intros Hnil. pose proof (page_window_length fresh last_page Hpos) as Hlen.
    rewrite Hnil in Hlen. simpl in Hlen. lia.
  - rewrite (download_page_passes st' chat_id fresh target now envs Hs' Hp' Hcd).
    assert (page_window fresh target = []) as ->; [|done].
    apply length_zero_iff_nil.
    pose proof (page_window_length fresh target ltac:(lia)). lia.
Qed.

Lemma X15_stale_page_downloads_nothing_witness :
  (search_results searched_imagine !! 7 = Some twelve_tracks
   /\ current_page searched_imagine !! 7 = Some 1
   /\ queries searched_imagine !! 7 = Some "Imagine"%string
   /\ response (render_of three_tracks) = Found three_tracks
   /\ three_tracks <> []
   /\ total_pages_of (Z.of_nat (length three_tracks))
      < clamp_page (moved "next_page" 1)
          (total_pages_of (Z.of_nat (length twelve_tracks)))
   /\ DOWNLOAD_COOLDOWN
      <= noon - last_download_at
                  (handle_pagination 7 "next_page" (render_of three_tracks)
                     searched_imagine).1 7)
  /\ (download_page 7 noon (fun _ => env_ok)
        (handle_pagination 7 "next_page" (render_of three_tracks)
           searched_imagine).1).2
     = [answer;
        edit_message_text
          (msg_downloading_page
             (clamp_page (moved "next_page" 1)
                (total_pages_of (Z.of_nat (length twelve_tracks)))));
        reply_text msg_finished].
Proof.
  assert (search_results searched_imagine !! 7 = Some twelve_tracks) as H1
      by (vm_compute; reflexivity).
  assert (current_page searched_imagine !! 7 = Some 1) as H2
      by (vm_compute; reflexivity).
  assert (queries searched_imagine !! 7 = Some "Imagine"%string) as H3
      by (vm_compute; reflexivity).
  assert (three_tracks <> []) as H5 by discriminate.
  assert (total_pages_of (Z.of_nat (length three_tracks))
          < clamp_page (moved "next_page" 1)
              (total_pages_of (Z.of_nat (length twelve_tracks)))) as H6
      by (vm_compute; reflexivity).
  assert (DOWNLOAD_COOLDOWN
          <= noon - last_download_at
                      (handle_pagination 7 "next_page" (render_of three_tracks)
                         searched_imagine).1 7) as H7 by (vm_compute; discriminate).
  split; [exact (conj H1 (conj H2 (conj H3 (conj eq_refl (conj H5 (conj H6 H7))))))|].
  exact (proj2 (proj2 (proj2
           (X15_stale_page_downloads_nothing searched_imagine 7 1 "Imagine" "next_page"
              (render_of three_tracks) twelve_tracks three_tracks noon
              (fun _ => env_ok) H1 H2 H3 eq_refl H5 H6 H7)))).
Defined.

(** ** The pinned messages *)

(** X16: when a result page is put up, the messages pinned for the chat
    before are deleted, and what is pinned afterwards belongs to this page
    only: the result message if sending it went through, the poster if the
    first track has a cover and sending it went through; each message
    pinned is scheduled for deletion after 60 seconds. *)
Theorem X16_pinned_messages_renewed st chat_id query page renv tracks :
  response renv = Found tracks -> tracks <> [] ->
  let st' := (display_search_results chat_id query page renv st).1 in
  let calls := (display_search_results chat_id query page renv st).2 in
  (forall mid, result_message_id st !! chat_id = Some mid ->
               delete_message chat_id mid ∈ calls)
  /\ (forall mid, result_photo_id st !! chat_id = Some mid ->
                  delete_message chat_id mid ∈ calls)
  /\ result_message_id st' !! chat_id = result_message renv
  /\ (result_photo_id st' !! chat_id = None
      \/ result_photo_id st' !! chat_id = photo_message renv)
  /\ (forall mid, result_message_id st' !! chat_id = Some mid
                  \/ result_photo_id st' !! chat_id = Some mid ->
                  schedule_message_delete chat_id mid 60 ∈ calls).
Proof.
  intros Hr Hne st' calls. unfold st', calls, display_search_results, retire.
  rewrite Hr. destruct tracks as [|first rest]; [done|].
  destruct (match album_images first with
            | [] => None
            | url :: _ => if String.eqb url "" then None else Some url
            end); destruct (photo_message renv); destruct (result_message renv);
    destruct (result_message_id st !! chat_id);
    destruct (result_photo_id st !! chat_id);
    cbn -[keyboard_of total_pages_of clamp_page caption_of];
    rewrite ?lookup_insert_eq, ?lookup_delete_eq;
    (repeat split; [..|intros mid [Hm|Hm]]; try (intros mid Hm);
     try discriminate Hm; try (injection Hm as ->);
     rewrite ?elem_of_cons; tauto).
Qed.

Lemma X16_pinned_messages_renewed_witness :
  (response (render_of three_tracks) = Found three_tracks
   /\ three_tracks <> []
   /\ result_message_id searched_imagine !! 7 = Some 901)
  /\ delete_message 7 901
     ∈ (display_search_results 7 "Yesterday" 1 (render_of three_tracks)
          searched_imagine).2.
Proof.
  assert (three_tracks <> []) as H2 by discriminate.
  assert (result_message_id searched_imagine !! 7 = Some 901) as H3
      by (vm_compute; reflexivity).
  split; [exact (conj eq_refl (conj H2 H3))|].
  exact (proj1 (X16_pinned_messages_renewed searched_imagine 7 "Yesterday" 1
                  (render_of three_tracks) three_tracks eq_refl H2) 901 H3).
Defined.

(** ** The buttons and the handlers *)

Lemma track_rows_elem start l row :
  row ∈ track_rows start l ->
  exists idx track,
    row = [track_button idx track] /\ start <= idx < start + Z.of_nat (length l).
Proof.
  revert start. induction l as [|t l IH]; intros s Hin; simpl in Hin.
  - by apply elem_of_nil in Hin.
  - apply elem_of_cons in Hin as [->|Hin].
    + eexists _, _. split; [done|]. simpl length. lia.
    + destruct (IH _ Hin) as (idx & track & -> & Hidx).
      eexists _, _. split; [done|]. simpl length. lia.
Qed.

(** Where a slice of five holds anything, its indices are those of the
    list, or at most five before it. *)
Lemma slice_index_bound {A} (l : list A) (start idx : Z) :
  start <= idx < start + Z.of_nat (length (Py.slice l start (start + 5))) ->
  Z.abs idx <= Z.of_nat (length l) + 5.
Proof.
  unfold Py.slice. rewrite length_take, length_drop.
  destruct (Z.ltb_spec start 0), (Z.ltb_spec (start + 5) 0); lia.
Qed.

Lemma route_track s : route_callback ("track_" +:+ s) = to_select_song.
Proof. unfold route_callback, String.append. simpl. by destruct s. Qed.

(** X17: every button of every keyboard the bot sends is taken by the
    handler meant for it: a track button goes to [select_song] with data
    that reads as an index, a Back or Next button to [handle_pagination]
    with the very data it tests for, the download button to
    [download_page]; none is left unhandled.  The tracks are a list as
    Python holds them, of [sys.maxsize] elements at most. *)
Theorem X17_buttons_are_routed tracks page total_pages row b :
  Z.of_nat (length tracks) < 2 ^ 63 ->
  row ∈ keyboard_of tracks page total_pages -> b ∈ row ->
  (route_callback (callback_data b) = to_select_song
   /\ exists idx, track_index_of (callback_data b) = inr idx)
  \/ (route_callback (callback_data b) = to_handle_pagination
      /\ (callback_data b = "prev_page"%string \/ callback_data b = "next_page"%string))
  \/ (route_callback (callback_data b) = to_download_page
      /\ callback_data b = "download_page"%string).
Proof.
  unfold keyboard_of. intros Hsize Hrow Hb.
  apply elem_of_app in Hrow as [Hrow|Hrow]; [|apply elem_of_app in Hrow as [Hrow|Hrow]].
  - destruct (track_rows_elem _ _ _ Hrow) as (idx & track & -> & Hidx).
    apply list_elem_of_singleton in Hb as ->. left. split; [apply route_track|].
    exists idx. apply track_index_of_pretty.
    apply (list_index_within_limit (Z.of_nat (length tracks))); [done|].
    unfold ITEMS_PER_PAGE in Hidx. by eapply slice_index_bound.
  - right. left. unfold nav_buttons in Hrow.
    destruct (1 <? page), (page <? total_pages); simpl in Hrow;
      try (by apply elem_of_nil in Hrow);
      apply list_elem_of_singleton in Hrow as ->;
      repeat (apply elem_of_cons in Hb as [->|Hb]; [simpl; tauto|]);
      by apply elem_of_nil in Hb.
  - right. right. apply list_elem_of_singleton in Hrow as ->.
    by apply list_elem_of_singleton in Hb as ->.
Qed.

Lemma X17_buttons_are_routed_witness :
  (Z.of_nat (length twelve_tracks) < 2 ^ 63
   /\ [track_button 0 (track_of "t0")] ∈ keyboard_of twelve_tracks 1 3
   /\ track_button 0 (track_of "t0") ∈ [track_button 0 (track_of "t0")])
  /\ ((route_callback (callback_data (track_button 0 (track_of "t0")))
       = to_select_song
       /\ exists idx,
           track_index_of (callback_data (track_button 0 (track_of "t0"))) = inr idx)
      \/ (route_callback (callback_data (track_button 0 (track_of "t0")))
          = to_handle_pagination
          /\ (callback_data (track_button 0 (track_of "t0")) = "prev_page"%string
              \/ callback_data (track_button 0 (track_of "t0")) = "next_page"%string))
      \/ (route_callback (callback_data (track_button 0 (track_of "t0")))
          = to_download_page
          /\ callback_data (track_button 0 (track_of "t0")) = "download_page"%string)).
Proof.
  assert ([track_button 0 (track_of "t0")] ∈ keyboard_of twelve_tracks 1 3) as H1
      by (vm_compute; apply list_elem_of_here).
  assert (track_button 0 (track_of "t0") ∈ [track_button 0 (track_of "t0")]) as H2
      by apply list_elem_of_here.
  assert (Z.of_nat (length twelve_tracks) < 2 ^ 63) as Hsize
      by (vm_compute; reflexivity).
  split; [exact (conj Hsize (conj H1 H2))|].
  exact (X17_buttons_are_routed twelve_tracks 1 3 _ _ Hsize H1 H2).
Defined.

(** X18: a select-one or download-page request writes nothing but the time
    of the last download of its own chat: the results, pages, queries,
    histories and pinned messages of all chats, and the times of the other
    chats, are after it what they were before, whatever the request holds
    and whatever the downloads do. *)
Theorem X18_downloads_write_only_the_time st chat_id data now env envs :
  same_session st (select_song chat_id data now env st).1
  /\ same_session st (download_page chat_id now envs st).1
  /\ forall c, c <> chat_id ->
       last_download_time (select_song chat_id data now env st).1 !! c
       = last_download_time st !! c
       /\ last_download_time (download_page chat_id now envs st).1 !! c
          = last_download_time st !! c.
Proof.
  rewrite select_song_store, download_page_store.
  split; [apply cooldown_check_session|]. split; [apply cooldown_check_session|].
  intros c Hc.
  pose proof (cooldown_check_session_other c chat_id now st ltac:(done)) as Hs.
  unfold session in Hs. by injection Hs as _ _ _ _ -> _ _.
Qed.

Lemma X18_downloads_write_only_the_time_witness :
  8 <> 7
  /\ last_download_time (select_song 7 "track_0" noon env_ok searched_imagine).1 !! 8
     = last_download_time searched_imagine !! 8.
Proof.
  assert (8 <> 7) as H by discriminate.
  split; [exact H|].
  exact (proj1 (proj2 (proj2
           (X18_downloads_write_only_the_time searched_imagine 7 "track_0" noon env_ok
              (fun _ => env_ok))) 8 H)).
Defined.

(** ** Durations *)

Lemma pad2_reads_back s :
  0 <= s < 60 -> String.length (pad2 s) = 2%nat /\ Py.int (pad2 s) = inr s.
Proof.
  intros Hs. assert (exists k : nat, s = Z.of_nat k /\ (k < 60)%nat) as (k & -> & Hk).
  { exists (Z.to_nat s). lia. }
  do 60 (destruct k as [|k]; [split; reflexivity|]). lia.
Qed.

(** X19: a duration (a number of at most 4300 digits, the most that is
    printed or read) is shown as minutes, a colon and seconds on exactly
    two digits; read back as numbers, the two fields are the minutes and
    the seconds (below 60) of the duration cut to whole seconds. *)
Theorem X19_duration_fields ms :
  0 <= ms < 10 ^ 4300 ->
  exists minutes seconds,
    format_duration ms = pretty minutes +:+ ":" +:+ seconds
    /\ String.length seconds = 2%nat
    /\ Py.int (pretty minutes) = inr minutes
    /\ exists sec, Py.int seconds = inr sec /\ 0 <= sec < 60
                   /\ 60 * minutes + sec = ms / 1000.
Proof.
  intros [Hms Hsize]. exists (ms / 1000 / 60), (pad2 ((ms / 1000) mod 60)).
  pose proof (Z.mod_pos_bound (ms / 1000) 60 ltac:(lia)) as Hm.
  destruct (pad2_reads_back _ Hm) as [Hlen Hint].
  split; [done|]. split; [done|]. split.
  { apply int_pretty. apply Z.le_lt_trans with ms; [|done].
    pose proof (Z.div_le_upper_bound ms 1000 ms ltac:(lia) ltac:(lia)).
    pose proof (Z.div_le_upper_bound (ms / 1000) 60 (ms / 1000) ltac:(lia)
                  ltac:(pose proof (Z.div_pos ms 1000); lia)).
    pose proof (Z.div_pos (ms / 1000) 60 ltac:(apply Z.div_pos; lia) ltac:(lia)).
    lia. }
  exists ((ms / 1000) mod 60). split; [done|]. split; [done|].
  pose proof (Z.div_mod (ms / 1000) 60 ltac:(lia)). lia.
Qed.

Lemma X19_duration_fields_witness :
  0 <= 183000 < 10 ^ 4300
  /\ exists minutes seconds,
      format_duration 183000 = pretty minutes +:+ ":" +:+ seconds
      /\ String.length seconds = 2%nat
      /\ Py.int (pretty minutes) = inr minutes
      /\ exists sec, Py.int seconds = inr sec /\ 0 <= sec < 60
                     /\ 60 * minutes + sec = 183000 / 1000.
Proof.
  assert (0 <= 183000 < 10 ^ 4300) as H
      by (split; [discriminate|vm_compute; reflexivity]).
  split; [exact H|]. exact (X19_duration_fields 183000 H).
Defined.

(** ** The cooldown along a conversation *)

Lemma display_last_download_time chat_id query page env st :
  last_download_time (display_search_results chat_id query page env st).1
  = last_download_time st.
Proof.
  destruct (found_some env) eqn:Hf.
  - unfold found_some in Hf.
    destruct (response env) as [[|first rest]|e] eqn:Hr; try discriminate Hf.
    by destruct (display_successful chat_id query page env st (first :: rest) Hr
                   ltac:(done)) as (_ & _ & _ & _ & -> & _).
  - by destruct (display_unsuccessful chat_id query page env st Hf) as [-> _].
Qed.

Lemma cooldown_check_grows chat_id c now st :
  last_download_at st chat_id <= last_download_at (cooldown_check c now st).2 chat_id.
Proof.
  destruct (Z.lt_ge_cases (now - last_download_at st c) DOWNLOAD_COOLDOWN) as [H|H].
  - destruct (cooldown_denied st c now H) as (st' & -> & Hl & _). simpl.
    rewrite Hl. lia.
  - destruct (cooldown_allowed st c now H) as (st' & -> & Hnow & Hother & _). simpl.
    destruct (decide (chat_id = c)) as [->|Hne].
    + unfold last_download_at at 2. rewrite Hnow. simpl.
      unfold DOWNLOAD_COOLDOWN in H. lia.
    + rewrite Hother by done. lia.
Qed.

Lemma handle_last_download_grows chat_id ev st :
  last_download_at st chat_id <= last_download_at (handle ev st).1 chat_id.
Proof.
  destruct ev as [c text env|c data env|c data now env|c now envs]; simpl.
  - destruct (String.eqb_spec (Py.strip text) "") as [Heq|Hq].
    { unfold search_and_display. rewrite Heq. simpl. lia. }
    rewrite search_and_display_unfold by done. simpl.
    unfold last_download_at. rewrite display_last_download_time.
    destruct (note_query_session c (Py.strip text) st) as (_ & _ & _ & ->). lia.
  - destruct (current_page st !! c) as [page|] eqn:Hpc;
      [destruct (queries st !! c) as [query|] eqn:Hqc|];
      try (unfold handle_pagination; rewrite Hpc, ?Hqc; simpl; lia).
    rewrite (handle_pagination_unfold st c page query data env Hpc Hqc). simpl.
    unfold last_download_at. rewrite display_last_download_time. simpl. lia.
  - rewrite select_song_store. apply cooldown_check_grows.
  - rewrite download_page_store. apply cooldown_check_grows.
Qed.

Lemma run_last_download_grows chat_id evs st :
  last_download_at st chat_id <= last_download_at (run evs st) chat_id.
Proof.
  revert st. induction evs as [|ev evs IH]; intros st; simpl; [lia|].
  etrans; [apply (handle_last_download_grows chat_id ev)|apply IH].
Qed.

Lemma select_song_reserves st chat_id now data env :
  DOWNLOAD_COOLDOWN <= now - last_download_at st chat_id ->
  last_download_at (select_song chat_id data now env st).1 chat_id = now.
Proof.
  intros H. destruct (cooldown_allowed st chat_id now H) as (st' & Hc & Hl & _).
  rewrite select_song_store, Hc. simpl. unfold last_download_at. by rewrite Hl.
Qed.

(** X20: the time of the last download of a chat never goes back, whatever
    the events and the clock values they carry; so once a request has
    passed the cooldown test at [now], every select-one or download-page
    request of that chat that comes with a time less than 30 seconds after
    [now] is refused, whatever happened in between in this or other
    chats. *)
Theorem X20_cooldown_outlasts_other_events st chat_id now data env evs now' data' env'
    envs' :
  DOWNLOAD_COOLDOWN <= now - last_download_at st chat_id ->
  now' - now < DOWNLOAD_COOLDOWN ->
  let later := run evs (select_song chat_id data now env st).1 in
  last_download_at st chat_id <= last_download_at later chat_id
  /\ now <= last_download_at later chat_id
  /\ exists wait_time,
       (select_song chat_id data' now' env' later).2
       = [answer; reply_text (msg_wait wait_time)]
       /\ (download_page chat_id now' envs' later).2
          = [answer; reply_text (msg_wait wait_time)].
Proof.
  intros Hpass Hsoon later.
  pose proof (select_song_reserves st chat_id now data env Hpass) as Hnow.
  pose proof (run_last_download_grows chat_id evs (select_song chat_id data now env st).1)
    as Hgrow. fold later in Hgrow. rewrite Hnow in Hgrow.
  split; [unfold DOWNLOAD_COOLDOWN in Hpass; lia|]. split; [done|].
  destruct (cooldown_denied later chat_id now') as (st'' & Hc & _); [lia|].
  eexists. unfold select_song, download_page. by rewrite Hc.
Qed.

Lemma X20_cooldown_outlasts_other_events_witness :
  (DOWNLOAD_COOLDOWN <= noon - last_download_at searched_imagine 7
   /\ noon + 20000000 - noon < DOWNLOAD_COOLDOWN)
  /\ exists wait_time,
      (select_song 7 "track_1" (noon + 20000000) env_ok
         (run [Text 8 "Yesterday" (render_of three_tracks);
               Navigate 7 "next_page" (render_of twelve_tracks);
               Select 8 "track_0" (noon + 5000000) env_ok]
            (select_song 7 "track_0" noon env_ok searched_imagine).1)).2
      = [answer; reply_text (msg_wait wait_time)]
      /\ (download_page 7 (noon + 20000000) (fun _ => env_ok)
            (run [Text 8 "Yesterday" (render_of three_tracks);
                  Navigate 7 "next_page" (render_of twelve_tracks);
                  Select 8 "track_0" (noon + 5000000) env_ok]
               (select_song 7 "track_0" noon env_ok searched_imagine).1)).2
         = [answer; reply_text (msg_wait wait_time)].
Proof.
  assert (DOWNLOAD_COOLDOWN <= noon - last_download_at searched_imagine 7) as H1
      by (vm_compute; discriminate).
  assert (noon + 20000000 - noon < DOWNLOAD_COOLDOWN) as H2
      by (vm_compute; reflexivity).
  split; [exact (conj H1 H2)|].
  exact (proj2 (proj2
           (X20_cooldown_outlasts_other_events searched_imagine 7 noon "track_0" env_ok
              [Text 8 "Yesterday" (render_of three_tracks);
               Navigate 7 "next_page" (render_of twelve_tracks);
               Select 8 "track_0" (noon + 5000000) env_ok]
              (noon + 20000000) "track_1" env_ok (fun _ => env_ok) H1 H2))).
Defined.
